(** * Autoreplicate: the browser workflow of [static/js/main.js]

    A shallow embedding of the client-side wizard (upload, extract,
    generate, backtest) and the properties its specification states.

    - JavaScript values that reach the page come from [response.json()], so
      they are JSON values; [undefined] is the absent value of [option].
    - Exceptions are results ([Ok] / [Throw]); handlers that touch the page
      run in a state-and-exception monad over the page state.
    - The ECMAScript builtins the file calls but does not define
      ([JSON.parse], [JSON.stringify], [Number.prototype.toString],
      [Function.prototype.toString]) are the class [Builtins]: every theorem
      holds for any instance of it.

    The program comes first, then the terms the properties are stated in
    and the pages of the examples, then the properties and the examples. *)

From Stdlib Require Import ZArith String Ascii List SpecFloat Lia.
From stdpp Require Import base option list strings pretty gmap.

Open Scope string_scope.
Open Scope list_scope.
Set Warnings "-register-all".

(** ** JavaScript values *)

(** A JS number is an IEEE 754 binary64 value. *)
Definition number := spec_float.

Inductive json : Type :=
| JNull
| JBool (b : bool)
| JNum (n : number)
| JStr (s : string)
| JArr (elems : list json)
| JObj (props : list (string * json)).

(** [None] is [undefined]. An object lists its own properties in
    enumeration order, each key once. *)
Definition jsval := option json.

Inductive exn :=
| TypeError (msg : string)
| SyntaxError (msg : string).

Definition message (e : exn) : string :=
  match e with TypeError m => m | SyntaxError m => m end.

Inductive Res (A : Type) :=
| Ok (a : A)
| Throw (e : exn).
Arguments Ok {A} a.
Arguments Throw {A} e.

#[global] Instance Res_ret : MRet Res := @Ok.
#[global] Instance Res_bind : MBind Res := λ A B f r,
  match r with Ok a => f a | Throw e => Throw e end.
#[global] Instance Res_fmap : FMap Res := λ A B f r,
  match r with Ok a => Ok (f a) | Throw e => Throw e end.

(** [try { body } catch (e) { handler }] on results. *)
Definition catch {A} (body : Res A) (handler : exn → Res A) : Res A :=
  match body with Ok a => Ok a | Throw e => handler e end.

Definition dq : string := String "034"%char EmptyString.
Definition nl : string := String "010"%char EmptyString.
Fixpoint spaces (n : nat) : string :=
  match n with O => EmptyString | S k => String " "%char (spaces k) end.

(** ToBoolean of a number: [0], [-0] and [NaN] are falsy. *)
Definition number_truthy (n : number) : bool :=
  match n with
  | S754_zero _ | S754_nan => false
  | S754_infinity _ | S754_finite _ _ _ => true
  end.

Definition truthy_json (v : json) : bool :=
  match v with
  | JNull => false
  | JBool b => b
  | JNum n => number_truthy n
  | JStr s => negb (String.eqb s EmptyString)
  | JArr _ | JObj _ => true
  end.

Definition truthy (v : jsval) : bool :=
  match v with None => false | Some j => truthy_json j end.

Definition typeof (v : jsval) : string :=
  match v with
  | None => "undefined"
  | Some (JBool _) => "boolean"
  | Some (JNum _) => "number"
  | Some (JStr _) => "string"
  | Some JNull | Some (JArr _) | Some (JObj _) => "object"
  end.

Definition Array_isArray (v : jsval) : bool :=
  match v with Some (JArr _) => true | _ => false end.

Definition nullish (v : jsval) : bool :=
  match v with None | Some JNull => true | _ => false end.

Definition assoc (k : string) (props : list (string * json)) : jsval :=
  snd <$> List.find (λ p, String.eqb (fst p) k) props.

(** [v.k] for the data property names main.js reads (no prototype defines
    one of them): a TypeError on [undefined] and [null], the own property of
    an object, [undefined] on every other value. *)
Definition getProp (v : jsval) (k : string) : Res jsval :=
  match v with
  | None => Throw (TypeError ("Cannot read properties of undefined (reading '" +:+ k +:+ "')"))
  | Some JNull => Throw (TypeError ("Cannot read properties of null (reading '" +:+ k +:+ "')"))
  | Some (JObj props) => Ok (assoc k props)
  | Some _ => Ok None
  end.

(** [v?.k] *)
Definition getPropOpt (v : jsval) (k : string) : jsval :=
  match v with
  | Some (JObj props) => assoc k props
  | _ => None
  end.

(** [Object.entries(v)] of a truthy value whose [typeof] is ["object"]. *)
Definition Object_entries (v : json) : list (string * json) :=
  match v with JObj props => props | _ => [] end.

(** ** The page *)

(** What an element holds after [textContent = s] or [innerHTML = s]. *)
Inductive Content :=
| Text (s : string)
| Html (s : string).

Record Element := mkElement {
  classList : list string;
  content : Content;
  disabled : bool;
  display : string;                  (* style.display *)
  value : string;
  files : list string;               (* the files of a file input *)
  options : list (string * string)   (* value and text of a select's options *)
}.

Definition set_classList (f : list string → list string) (el : Element) : Element :=
  mkElement (f (classList el)) (content el) (disabled el) (display el) (value el)
            (files el) (options el).
Definition set_content (c : Content) (el : Element) : Element :=
  mkElement (classList el) c (disabled el) (display el) (value el) (files el) (options el).
Definition set_disabled (b : bool) (el : Element) : Element :=
  mkElement (classList el) (content el) b (display el) (value el) (files el) (options el).
Definition set_display (d : string) (el : Element) : Element :=
  mkElement (classList el) (content el) (disabled el) d (value el) (files el) (options el).
Definition set_value (v : string) (el : Element) : Element :=
  mkElement (classList el) (content el) (disabled el) (display el) v (files el) (options el).
Definition set_files (fs : list string) (el : Element) : Element :=
  mkElement (classList el) (content el) (disabled el) (display el) (value el) fs (options el).
Definition set_options (f : list (string * string) → list (string * string))
    (el : Element) : Element :=
  mkElement (classList el) (content el) (disabled el) (display el) (value el) (files el)
            (f (options el)).

(** A [.loading] element: the text of the [.card-header] of its closest
    [.card] ([None] when it has no such card or header) and its
    [style.display]. main.js writes only to elements it finds by id, and no
    such write is taken to reach the text of a card header: a header is a
    fixed text here. *)
Record Loading := mkLoading {
  header : option string;
  shown : string
}.

(** ** Chart.js *)

Record Dataset := mkDataset {
  ds_label : string;
  ds_data : jsval;
  ds_borderColor : string;
  ds_backgroundColor : string;
  ds_borderWidth : option Z;
  ds_fill : bool;
  ds_tension : number
}.

Record ChartOptions := mkChartOptions {
  opt_responsive : bool;
  opt_maintainAspectRatio : bool;
  opt_title : string;
  opt_legend_position : string;
  opt_x_title : string;
  opt_y_title : string;
  opt_y_ticks_callback : number → string;
  opt_interaction_intersect : bool;
  opt_interaction_mode : string
}.

Record ChartConfig := mkChartConfig {
  cfg_type : string;
  cfg_labels : jsval;
  cfg_datasets : list Dataset;
  cfg_options : ChartOptions
}.

(** A live Chart instance: created by [new Chart], gone after [destroy()]. *)
Record Chart := mkChart {
  chart_id : nat;
  chart_canvas : string;
  chart_config : ChartConfig
}.

(** ** Observable effects *)

Inductive RequestBody :=
| NoBody
| FormData (file : string)
| JsonBody (text : string).

Inductive Event :=
| Alert (msg : string)
| Fetch (url method : string) (body : RequestBody)
| ConsoleLog (label : string) (arg : jsval)
| ConsoleError (label : string) (err : exn)
| PrismHighlight (id : string)
| ModalShow (id : string)
| ModalHide (id : string).

(** ** Page state

    The globals of main.js (lines 2-5), the document, the library instances
    and the effects so far (oldest first). The document is the elements
    main.js reaches by id, each on its own: a write to one of them changes
    no other. *)
Record State := mkState {
  currentMarkdownContent : jsval;
  currentExtractedInfo : jsval;
  currentFactorCode : jsval;
  backtestChart : option nat;
  dom : gmap string Element;
  loading : list Loading;
  charts : list Chart;
  nextChart : nat;
  modal : bool;                      (* a bootstrap.Modal of codeEditModal exists *)
  trace : list Event
}.

Definition set_currentMarkdownContent (v : jsval) (s : State) : State :=
  mkState v (currentExtractedInfo s) (currentFactorCode s) (backtestChart s) (dom s)
          (loading s) (charts s) (nextChart s) (modal s) (trace s).
Definition set_currentExtractedInfo (v : jsval) (s : State) : State :=
  mkState (currentMarkdownContent s) v (currentFactorCode s) (backtestChart s) (dom s)
          (loading s) (charts s) (nextChart s) (modal s) (trace s).
Definition set_currentFactorCode (v : jsval) (s : State) : State :=
  mkState (currentMarkdownContent s) (currentExtractedInfo s) v (backtestChart s) (dom s)
          (loading s) (charts s) (nextChart s) (modal s) (trace s).
Definition set_backtestChart (c : option nat) (s : State) : State :=
  mkState (currentMarkdownContent s) (currentExtractedInfo s) (currentFactorCode s) c (dom s)
          (loading s) (charts s) (nextChart s) (modal s) (trace s).
Definition set_dom (d : gmap string Element) (s : State) : State :=
  mkState (currentMarkdownContent s) (currentExtractedInfo s) (currentFactorCode s)
          (backtestChart s) d (loading s) (charts s) (nextChart s) (modal s) (trace s).
Definition set_loading (l : list Loading) (s : State) : State :=
  mkState (currentMarkdownContent s) (currentExtractedInfo s) (currentFactorCode s)
          (backtestChart s) (dom s) l (charts s) (nextChart s) (modal s) (trace s).
Definition set_charts (c : list Chart) (n : nat) (s : State) : State :=
  mkState (currentMarkdownContent s) (currentExtractedInfo s) (currentFactorCode s)
          (backtestChart s) (dom s) (loading s) c n (modal s) (trace s).
Definition set_modal (b : bool) (s : State) : State :=
  mkState (currentMarkdownContent s) (currentExtractedInfo s) (currentFactorCode s)
          (backtestChart s) (dom s) (loading s) (charts s) (nextChart s) b (trace s).
Definition set_trace (t : list Event) (s : State) : State :=
  mkState (currentMarkdownContent s) (currentExtractedInfo s) (currentFactorCode s)
          (backtestChart s) (dom s) (loading s) (charts s) (nextChart s) (modal s) t.

(** The state when the script has loaded (lines 2-5) over a document. *)
Definition initialState (d : gmap string Element) (l : list Loading) : State :=
  mkState (Some (JStr EmptyString)) (Some (JObj [])) (Some (JStr EmptyString)) None
          d l [] 0 false [].

(** ** Handlers: state and exceptions *)

Definition M (A : Type) : Type := State → Res A * State.

#[global] Instance M_ret : MRet M := λ A a s, (Ok a, s).
#[global] Instance M_bind : MBind M := λ A B f m s,
  match m s with
  | (Ok a, s') => f a s'
  | (Throw e, s') => (Throw e, s')
  end.

Definition throw {A} (e : exn) : M A := λ s, (Throw e, s).
Definition lift {A} (r : Res A) : M A := λ s, (r, s).
Definition gets {A} (f : State → A) : M A := λ s, (Ok (f s), s).
Definition modify (f : State → State) : M unit := λ s, (Ok tt, f s).

(** [try { body } catch (e) { handler e }] *)
Definition try_catch {A} (body : M A) (handler : exn → M A) : M A := λ s,
  match body s with
  | (Ok a, s') => (Ok a, s')
  | (Throw e, s') => handler e s'
  end.

(** [try { body } finally { fin }]: [fin] runs on every exit of [body];
    an exception of [fin] replaces the outcome of [body]. *)
Definition try_finally {A} (body : M A) (fin : M unit) : M A := λ s,
  let '(r, s') := body s in
  match fin s' with
  | (Ok _, s'') => (r, s'')
  | (Throw e, s'') => (Throw e, s'')
  end.

Definition emit (e : Event) : M unit := modify (λ s, set_trace (trace s ++ [e]) s).
Definition alert (msg : string) : M unit := emit (Alert msg).

(** [strings.join('')] *)
Definition join_empty (l : list string) : string :=
  fold_right String.append EmptyString l.

(** ** ECMAScript builtins

    The handlers call these; the development is parametric in them. *)

Class Builtins := {
  (** [JSON.parse]: [None] when it throws a SyntaxError. *)
  JSON_parse : string → option json;
  (** [JSON.stringify] of a JSON value. *)
  JSON_stringify : json → string;
  (** [Number.prototype.toString] (radix 10). *)
  Number_toString : number → string;
  (** [Function.prototype.toString] of the function [Object.prototype]
      holds under a name: its source text, which the implementation
      chooses. *)
  Function_toString : string → string
}.

Section Program.

Context {builtins : Builtins}.

(** The object has the own property [k]: [JSON.parse] makes every key of
    an object an own data property, [__proto__] too. *)
Definition hasOwn (k : string) (props : list (string * json)) : bool :=
  existsb (λ p, String.eqb (fst p) k) props.

(** ToString, as string concatenation, template literals and the string
    attributes of the DOM apply it. An object is printed by the [toString]
    it finds. The inherited one gives ["[object Object]"]. An own
    [toString] key shadows it with a JSON value, which is no function; then
    [valueOf] is tried, which is own and no function either, or inherited
    and returns the object itself: no primitive is found and the conversion
    throws a TypeError. An array is printed by [Array.prototype.join], which
    converts the elements from left to right and prints [null] as the empty
    string. *)
Fixpoint ToString_json (v : json) : Res string :=
  match v with
  | JNull => Ok "null"
  | JBool true => Ok "true"
  | JBool false => Ok "false"
  | JNum n => Ok (Number_toString n)
  | JStr s => Ok s
  | JArr elems =>
      (fix join (l : list json) : Res string :=
         match l with
         | [] => Ok EmptyString
         | x :: rest =>
             match match x with JNull => Ok EmptyString | _ => ToString_json x end with
             | Throw e => Throw e
             | Ok s =>
                 match rest with
                 | [] => Ok s
                 | _ => match join rest with
                        | Throw e => Throw e
                        | Ok r => Ok (s +:+ "," +:+ r)
                        end
                 end
             end
         end) elems
  | JObj props =>
      if hasOwn "toString" props
      then Throw (TypeError "Cannot convert object to primitive value")
      else Ok "[object Object]"
  end.

Definition ToString (v : jsval) : Res string :=
  match v with None => Ok "undefined" | Some j => ToString_json j end.

(** [v || d] with a string literal [d]. *)
Definition orDefault (v : jsval) (d : string) : jsval :=
  if truthy v then v else Some (JStr d).

(** ** displayExtractionResults: the key factors *)

(** The template literal of one factor around the texts of its three
    substitutions; [indent] is the column of its inner lines in the source
    (16 at lines 173 and 203, 24 at line 184). *)
Definition factorDiv (indent : nat) (name description type : string) : string :=
  "<div class=" +:+ dq +:+ "mb-2" +:+ dq +:+ ">" +:+ nl
  +:+ spaces indent +:+ "<strong>" +:+ name +:+ ":</strong> "
  +:+ description +:+ nl
  +:+ spaces indent +:+ "<span class=" +:+ dq +:+ "badge bg-secondary" +:+ dq +:+ ">"
  +:+ type +:+ "</span>" +:+ nl
  +:+ spaces (indent - 4) +:+ "</div>".

(** A template literal evaluates its substitutions from left to right and
    converts each one to a string before it evaluates the next:
    [factor.name || '未知因子'], [factor.description || '无描述'],
    [factor.type || '未分类']. *)
Definition renderFactor (indent : nat) (factor : json) : Res string :=
  name ← getProp (Some factor) "name";
  name ← ToString (orDefault name "未知因子");
  description ← getProp (Some factor) "description";
  description ← ToString (orDefault description "无描述");
  type ← getProp (Some factor) "type";
  type ← ToString (orDefault type "未分类");
  mret (factorDiv indent name description type).

(** [arr.map(f).join('')]: the callback runs left to right and the first
    exception ends the call. *)
Fixpoint mapJoin (f : json → Res string) (arr : list json) : Res string :=
  match arr with
  | [] => Ok EmptyString
  | x :: rest => s ← f x; r ← mapJoin f rest; mret (s +:+ r)
  end.

Definition formatErrorMarker : string :=
  "<div class=" +:+ dq +:+ "alert alert-warning" +:+ dq +:+ ">关键因子数据格式错误</div>".

(** Line 193, where [info.key_factors] is a string. *)
Definition parseFailedMarker (raw : string) : string :=
  "<div class=" +:+ dq +:+ "alert alert-warning" +:+ dq +:+ ">关键因子解析失败: "
  +:+ raw +:+ "</div>".

Definition nothingExtractedMarker : string :=
  "<div class=" +:+ dq +:+ "alert alert-info" +:+ dq +:+ ">未提取到关键因子信息</div>".

(** ([key, value]) => ({name: key, description: ..., type: '提取的因子'}):
    three strings. *)
Definition entryFields (entry : string * json) : string * string * string :=
  let '(key, value) := entry in
  (key, match value with JStr s => s | _ => JSON_stringify value end, "提取的因子").

(** Lines 168-210: the value assigned to [factorsHtml]. *)
Definition keyFactorsHtml (key_factors : jsval) : Res string :=
  if truthy key_factors && Array_isArray key_factors then
    match key_factors with
    | Some (JArr elems) => mapJoin (renderFactor 16) elems
    | _ => Ok EmptyString
    end
  else if truthy key_factors && String.eqb (typeof key_factors) "string" then
    match key_factors with
    | Some (JStr text) =>
        catch
          (match JSON_parse text with
           | None => Throw (SyntaxError "Unexpected token in JSON")
           | Some (JArr elems) => mapJoin (renderFactor 24) elems
           | Some _ => Ok formatErrorMarker
           end)
          (λ _, Ok (parseFailedMarker text))
    | _ => Ok EmptyString
    end
  else if truthy key_factors && String.eqb (typeof key_factors) "object" then
    match key_factors with
    | Some obj =>
        Ok (join_empty
              (map (λ e, let '(n, d, t) := entryFields e in factorDiv 16 n d t)
                   (Object_entries obj)))
    | None => Ok EmptyString
    end
  else Ok nothingExtractedMarker.

(** ** Document access *)

Definition getElementById (id : string) : M (option Element) :=
  gets (λ s, dom s !! id).

(** [document.getElementById(id).p = ...] and method calls on the element:
    a TypeError when there is no such element. *)
Definition withElement (id : string) (f : Element → Element) : M unit := λ s,
  match dom s !! id with
  | Some el => (Ok tt, set_dom (<[id := f el]> (dom s)) s)
  | None => (Throw (TypeError "Cannot read properties of null"), s)
  end.

(** [const el = document.getElementById(id); if (el) { el.p = ... }] *)
Definition whenElement (id : string) (f : Element → Element) : M unit := λ s,
  match dom s !! id with
  | Some el => (Ok tt, set_dom (<[id := f el]> (dom s)) s)
  | None => (Ok tt, s)
  end.

(** [document.getElementById(id).value] *)
Definition readValue (id : string) : M string :=
  el ← getElementById id;
  match el with
  | Some el => mret (value el)
  | None => throw (TypeError "Cannot read properties of null (reading 'value')")
  end.

(** A value assigned to [textContent]: [null] and [undefined] give the
    empty string, every other value is converted. *)
Definition textOf (v : jsval) : Res string :=
  if nullish v then Ok EmptyString else ToString v.

(** A value assigned to the [value] of a textarea: [null] gives the empty
    string, every other value is converted. *)
Definition valueOf (v : jsval) : Res string :=
  match v with Some JNull => Ok EmptyString | _ => ToString v end.

(** [document.getElementById(id).p = v] for a string attribute [p]: a
    TypeError when there is no such element; else the setter converts [v],
    and the element is written when the conversion returns. *)
Definition assignString (id : string) (v : Res string) (f : string → Element → Element)
    : M unit :=
  el ← getElementById id;
  match el with
  | None => throw (TypeError "Cannot set properties of null")
  | Some _ => text ← lift v; withElement id (f text)
  end.

(** ** updateStatus (lines 13-37) *)

Definition statusClasses : list (string * string) :=
  [("pending", "bg-secondary"); ("processing", "bg-warning");
   ("success", "bg-success"); ("error", "bg-danger")].

Definition statusTexts : list (string * string) :=
  [("pending", "待处理"); ("processing", "处理中");
   ("success", "已完成"); ("error", "失败")].

(** [table[k]] on an object literal of strings, for a key [k] that names no
    property of [Object.prototype]: [None] is [undefined]. *)
Definition table_get (table : list (string * string)) (k : string) : option string :=
  snd <$> List.find (λ p, String.eqb (fst p) k) table.

(** [DOMTokenList.remove] and [DOMTokenList.add]. *)
Definition classList_remove (cls : string) (l : list string) : list string :=
  List.filter (λ c, negb (String.eqb c cls)) l.

Definition classList_add (cls : string) (l : list string) : list string :=
  if existsb (String.eqb cls) l then l else l ++ [cls].

(** Lines 30-36 on the status element: every status class removed, the
    class of [status] added, the label set. A status that is no key of the
    tables gives [undefined], which [classList.add] reads as the token
    ["undefined"] and [textContent] as the empty text. *)
Definition applyStatus (status : string) (statusElement : Element) : Element :=
  let removed :=
    fold_left (λ el cls, set_classList (classList_remove cls) el)
              (map snd statusClasses) statusElement in
  let added :=
    set_classList
      (classList_add (default "undefined" (table_get statusClasses status))) removed in
  set_content (Text (default EmptyString (table_get statusTexts status))) added.

Definition updateStatus (step status : string) : M unit :=
  withElement (step +:+ "Status") (applyStatus status).

(** ** toggleButton, toggleInputs, showResult (lines 40-55, 515-520) *)

Definition toggleButton (buttonId : string) (enabled : bool) : M unit :=
  whenElement buttonId (set_disabled (negb enabled)).

Fixpoint toggleInputs (inputIds : list string) (enabled : bool) : M unit :=
  match inputIds with
  | [] => mret tt
  | id :: rest => whenElement id (set_disabled (negb enabled));; toggleInputs rest enabled
  end.

Definition showResult (resultId : string) : M unit :=
  whenElement resultId (set_display "block").

(** ** showLoading, hideLoading (lines 495-512) *)

(** [context.split(' ')[0]] *)
Fixpoint first_word (s : string) : string :=
  match s with
  | EmptyString => EmptyString
  | String c rest =>
      if Ascii.eqb c " "%char then EmptyString else String c (first_word rest)
  end.

(** [s.includes(sub)] *)
Definition includes (s sub : string) : bool :=
  match index 0 sub s with Some _ => true | None => false end.

(** The [forEach] over the [.loading] elements: an element whose card or
    card header is missing ends it with a TypeError, the elements before it
    already updated. *)
Fixpoint loadingEach (d : string) (context : string) (els : list Loading)
    : list Loading * option exn :=
  match els with
  | [] => ([], None)
  | el :: rest =>
      match header el with
      | None => (el :: rest, Some (TypeError "Cannot read properties of null"))
      | Some h =>
          let el' := if includes h (first_word context) then mkLoading (header el) d else el in
          let '(rest', r) := loadingEach d context rest in
          (el' :: rest', r)
      end
  end.

Definition setLoading (d : string) (context : string) : M unit := λ s,
  let '(els, r) := loadingEach d context (loading s) in
  (match r with None => Ok tt | Some e => Throw e end, set_loading els s).

Definition showLoading (context : string) : M unit := setLoading "block" context.
Definition hideLoading (context : string) : M unit := setLoading "none" context.

(** ** displayExtractionResults (lines 147-218) *)

(** [document.getElementById(id).innerHTML = html] with a string [html].
    The element holds the markup as the text that was assigned: what the
    browser parses out of it is not modelled, and the elements the markup
    creates are no elements of [dom]. *)
Definition setInnerHTML (id : string) (html : string) : M unit :=
  withElement id (set_content (Html html)).

Definition setTextContent (id : string) (v : jsval) : M unit :=
  assignString id (textOf v) (λ text, set_content (Text text)).

(** One line of the templates at lines 149-153 and 160-164 around the text
    of its substitution. *)
Definition infoLine (label : string) (text : string) : string :=
  spaces 8 +:+ "<p><strong>" +:+ label +:+ ":</strong> " +:+ text +:+ "</p>" +:+ nl.

(** [${v?.k || '未知'}]: the substitution of such a line, converted. *)
Definition infoText (v : jsval) (k : string) : Res string :=
  ToString (orDefault (getPropOpt v k) "未知").

(** A template of three lines over the object [info.k]: each substitution
    reads [info.k] again and is converted before the next one is read. *)
Definition infoBlock (info : jsval) (k : string) (lines : list (string * string))
    : Res string :=
  body ← mapM (λ '(label, field),
                 v ← getProp info k;
                 infoLine label <$> infoText v field) lines;
  mret (nl +:+ join_empty body +:+ spaces 4).

(** Each template is evaluated, its substitutions read and converted,
    before the assignment to [innerHTML] looks at the element: at line 157
    too, where the two stand in one statement. *)
Definition displayExtractionResults (info : jsval) : M unit :=
  datasetHtml ← lift (infoBlock info "datasets"
    [("主要数据源", "primary"); ("时间范围", "time_range"); ("数据频率", "frequency")]);
  setInnerHTML "datasetInfo" datasetHtml;;
  core_problem ← lift (getProp info "core_problem");
  core_problem ← lift (ToString (orDefault core_problem "未提取到核心问题"));
  setInnerHTML "coreProblem" ("<p>" +:+ core_problem +:+ "</p>");;
  solutionHtml ← lift (infoBlock info "solution"
    [("方法", "method"); ("算法", "algorithm"); ("策略", "strategy")]);
  setInnerHTML "solution" solutionHtml;;
  key_factors ← lift (getProp info "key_factors");
  factorsHtml ← lift (keyFactorsHtml key_factors);
  setInnerHTML "keyFactors" factorsHtml;;
  emit (ConsoleLog "提取的信息:" info);;
  emit (ConsoleLog "key_factors类型:" (Some (JStr (typeof key_factors))));;
  emit (ConsoleLog "key_factors内容:" key_factors).

(** ** The backend *)

(** What the awaited [fetch(...)] and [response.json()] give: a rejection
    (network error, a body that is not JSON) or the parsed body. *)
Inductive Outcome :=
| Rejected (e : exn)
| Resolved (result : json).

Definition await (o : Outcome) : M jsval :=
  match o with
  | Rejected e => throw e
  | Resolved result => mret (Some result)
  end.

(** [JSON.stringify({k1: v1, ...})]: a property whose value is [undefined]
    is left out. *)
Definition bodyOf (fields : list (string * jsval)) : RequestBody :=
  JsonBody (JSON_stringify (JObj (omap (λ '(k, v), pair k <$> v) fields))).

(** ** uploadPDF (lines 58-100) *)

(** An asynchronous handler runs in two turns of the event loop:
    [_begin], up to the [fetch] it awaits (it returns [false] when the
    handler returned before any request), and [_resume], from the backend's
    outcome to the end of the handler. *)

Definition uploadPDF_begin : M bool :=
  fileInput ← getElementById "pdfFile";
  match fileInput with
  | None => throw (TypeError "Cannot read properties of null (reading 'files')")
  | Some fileInput =>
      match files fileInput with
      | [] => alert "请选择PDF文件";; mret false
      | file :: _ =>
          updateStatus "pdf" "processing";;
          showLoading "PDF上传";;
          emit (Fetch "/api/upload_pdf" "POST" (FormData file));;
          mret true
      end
  end.

Definition uploadPDF_resume (o : Outcome) : M unit :=
  try_finally
    (try_catch
       (result ← await o;
        success ← lift (getProp result "success");
        if truthy success then
          markdown_content ← lift (getProp result "markdown_content");
          modify (set_currentMarkdownContent markdown_content);;
          setTextContent "markdownContent" markdown_content;;
          emit (PrismHighlight "markdownContent");;
          showResult "markdownResult";;
          updateStatus "pdf" "success";;
          toggleButton "extractBtn" true
        else
          error ← lift (getProp result "error");
          error ← lift (ToString error);
          alert ("转换失败: " +:+ error);;
          updateStatus "pdf" "error")
       (λ error,
          alert ("上传失败: " +:+ message error);;
          updateStatus "pdf" "error"))
    (hideLoading "PDF上传").

(** ** extractContent (lines 103-143) *)

Definition extractContent_begin : M bool :=
  markdown ← gets currentMarkdownContent;
  if negb (truthy markdown) then alert "请先上传并转换PDF文件";; mret false
  else
    updateStatus "extract" "processing";;
    showLoading "内容提取";;
    emit (Fetch "/api/extract_content" "POST" (bodyOf [("markdown_content", markdown)]));;
    mret true.

Definition extractContent_resume (o : Outcome) : M unit :=
  try_finally
    (try_catch
       (result ← await o;
        success ← lift (getProp result "success");
        if truthy success then
          extracted_info ← lift (getProp result "extracted_info");
          modify (set_currentExtractedInfo extracted_info);;
          displayExtractionResults extracted_info;;
          showResult "extractionResult";;
          updateStatus "extract" "success";;
          toggleButton "generateBtn" true
        else
          error ← lift (getProp result "error");
          error ← lift (ToString error);
          alert ("提取失败: " +:+ error);;
          updateStatus "extract" "error")
       (λ error,
          alert ("提取失败: " +:+ message error);;
          updateStatus "extract" "error"))
    (hideLoading "内容提取").

(** ** generateFactor (lines 221-264) *)

(** [Object.keys(v).length] of a truthy value. A string has one key per
    code unit, so the count is zero for no truthy string. *)
Definition Object_keys_length (v : jsval) : nat :=
  match v with
  | Some (JObj props) => length props
  | Some (JArr elems) => length elems
  | Some (JStr s) => String.length s
  | _ => 0
  end.

Definition generateFactor_begin : M bool :=
  info ← gets currentExtractedInfo;
  if negb (truthy info) || Nat.eqb (Object_keys_length info) 0 then
    alert "请先提取论文内容";; mret false
  else
    updateStatus "factor" "processing";;
    showLoading "因子生成";;
    emit (Fetch "/api/generate_factor" "POST" (bodyOf [("extracted_info", info)]));;
    mret true.

Definition generateFactor_resume (o : Outcome) : M unit :=
  try_finally
    (try_catch
       (result ← await o;
        success ← lift (getProp result "success");
        if truthy success then
          factor_code ← lift (getProp result "factor_code");
          modify (set_currentFactorCode factor_code);;
          setTextContent "factorCode" factor_code;;
          emit (PrismHighlight "factorCode");;
          showResult "factorResult";;
          updateStatus "factor" "success";;
          toggleButton "editBtn" true;;
          toggleButton "backtestBtn" true;;
          toggleInputs ["datasetSelect"; "startDate"; "endDate"] true
        else
          error ← lift (getProp result "error");
          error ← lift (ToString error);
          alert ("生成失败: " +:+ error);;
          updateStatus "factor" "error")
       (λ error,
          alert ("生成失败: " +:+ message error);;
          updateStatus "factor" "error"))
    (hideLoading "因子生成").

(** ** editCode, saveCode (lines 267-281) *)

Definition editCode : M unit :=
  code ← gets currentFactorCode;
  assignString "codeEditor" (valueOf code) set_value;;
  modify (set_modal true);;
  emit (ModalShow "codeEditModal").

Definition saveCode : M unit :=
  edited ← readValue "codeEditor";
  modify (set_currentFactorCode (Some (JStr edited)));;
  setTextContent "factorCode" (Some (JStr edited));;
  emit (PrismHighlight "factorCode");;
  inst ← gets modal;
  if inst : bool then emit (ModalHide "codeEditModal")
  else throw (TypeError "Cannot read properties of null (reading 'hide')").

(** ** loadDatasets (lines 284-301) *)

Definition loadDatasets_begin : M bool :=
  emit (Fetch "/api/datasets" "GET" NoBody);; mret true.

(** Lines 293-296: the option is created, its [value] and its text are
    set, each from a conversion, and then it is appended to the select. *)
Definition appendOption (dataset : json) : M unit :=
  id ← lift (getProp (Some dataset) "id");
  id ← lift (ToString id);
  name ← lift (getProp (Some dataset) "name");
  name ← lift (ToString name);
  description ← lift (getProp (Some dataset) "description");
  description ← lift (ToString description);
  withElement "datasetSelect"
    (set_options (λ os, (os ++ [(id, name +:+ " - " +:+ description)])%list)).

Fixpoint forEach (f : json → M unit) (arr : list json) : M unit :=
  match arr with
  | [] => mret tt
  | x :: rest => f x;; forEach f rest
  end.

Definition loadDatasets_resume (o : Outcome) : M unit :=
  try_catch
    (result ← await o;
     withElement "datasetSelect" (λ select,
       set_value EmptyString
         (set_options (λ _, [(EmptyString, "请选择数据集")])
            (set_content
               (Html ("<option value=" +:+ dq +:+ dq +:+ ">请选择数据集</option>")) select)));;
     datasets ← lift (getProp result "datasets");
     match datasets with
     | Some (JArr elems) => forEach appendOption elems
     | None | Some JNull => throw (TypeError "Cannot read properties of undefined (reading 'forEach')")
     | Some _ => throw (TypeError "result.datasets.forEach is not a function")
     end)
    (λ error, emit (ConsoleError "加载数据集失败:" error)).

(** ** Number.prototype.toFixed *)

(** binary64 *)
Definition prec : Z := 53.
Definition emax : Z := 1024.

Definition Number_mul (x y : number) : number := SFmul prec emax x y.

Definition hundred : number := Eval vm_compute in binary_normalize prec emax 100 0 false.

(** The integer [n] for which [n / 10^f - m * 2^e] is closest to zero, the
    larger one of two. *)
Definition roundScaled (m : positive) (e : Z) (f : nat) : Z :=
  ((2 * Z.pos m * 10 ^ Z.of_nat f * 2 ^ Z.max e 0 + 2 ^ Z.max (- e) 0)
   `div` (2 * 2 ^ Z.max (- e) 0))%Z.

Fixpoint zeros (n : nat) : string :=
  match n with O => EmptyString | S k => String "0"%char (zeros k) end.

(** The digits of [n] with a point before the last [f] of them. *)
Definition fixedDigits (n : N) (f : nat) : string :=
  let m : string := pretty n in
  if Nat.eqb f 0 then m
  else
    let m := if Nat.leb (String.length m) f then zeros (f + 1 - String.length m) +:+ m else m in
    let k := String.length m in
    substring 0 (k - f) m +:+ "." +:+ substring (k - f) f m.

Definition Number_toFixed (x : number) (fractionDigits : nat) : string :=
  match x with
  | S754_nan | S754_infinity _ => Number_toString x
  | S754_zero _ => fixedDigits 0 fractionDigits
  | S754_finite sign m e =>
      (if sign then "-" else EmptyString)
      +:+ (if (10 ^ 21 * 2 ^ Z.max (- e) 0 <=? Z.pos m * 2 ^ Z.max e 0)%Z
           then Number_toString (S754_finite false m e)
           else fixedDigits (Z.to_N (roundScaled m e fractionDigits)) fractionDigits)
  end.

(** ** drawReturnsChart (lines 389-492) *)

Definition tenth : number := S754_finite false 7205759403792794 (-56).

Definition series (label : string) (data : jsval) (rgb : string) (width : option Z)
    : Dataset :=
  mkDataset label data ("rgb(" +:+ rgb +:+ ")") ("rgba(" +:+ rgb +:+ ", 0.1)")
            width false tenth.

(** [function(value) { return (value * 100).toFixed(1) + '%'; }] *)
Definition tickCallback (value : number) : string :=
  Number_toFixed (Number_mul value hundred) 1 +:+ "%".

Definition chartConfig (dates q1 q2 q3 q4 q5 long_short : jsval) : ChartConfig :=
  mkChartConfig "line" dates
    [series "Q1 (最低)" q1 "255, 99, 132" None;
     series "Q2" q2 "255, 159, 64" None;
     series "Q3" q3 "255, 205, 86" None;
     series "Q4" q4 "75, 192, 192" None;
     series "Q5 (最高)" q5 "54, 162, 235" None;
     series "多空策略" long_short "153, 102, 255" (Some 3%Z)]
    (mkChartOptions true false "因子分层累计收益率对比" "top" "日期" "累计收益率"
                    tickCallback false "index").

(** [chart.destroy()] and [new Chart(ctx, config)] on the instances that
    are alive. *)
Definition Chart_destroy (id : nat) : M unit :=
  modify (λ s,
    set_charts (List.filter (λ c, negb (Nat.eqb (chart_id c) id)) (charts s)) (nextChart s) s).

Definition Chart_new (canvas : string) (config : ChartConfig) : M nat := λ s,
  (Ok (nextChart s),
   set_charts (charts s ++ [mkChart (nextChart s) canvas config]) (S (nextChart s)) s).

Definition drawReturnsChart (data : jsval) : M unit :=
  canvas ← getElementById "returnsChart";
  match canvas with
  | None => throw (TypeError "Cannot read properties of null (reading 'getContext')")
  | Some _ =>
      old ← gets backtestChart;
      match old with Some c => Chart_destroy c | None => mret tt end;;
      dates ← lift (getProp data "dates");
      q1 ← lift (getProp data "Q1");
      q2 ← lift (getProp data "Q2");
      q3 ← lift (getProp data "Q3");
      q4 ← lift (getProp data "Q4");
      q5 ← lift (getProp data "Q5");
      long_short ← lift (getProp data "long_short");
      chart ← Chart_new "returnsChart" (chartConfig dates q1 q2 q3 q4 q5 long_short);
      modify (set_backtestChart (Some chart))
  end.

(** ** displayBacktestResults (lines 355-386) *)

Definition strategyNames : list (string * string) :=
  [("Q1_return", "Q1 (最低)"); ("Q2_return", "Q2"); ("Q3_return", "Q3");
   ("Q4_return", "Q4"); ("Q5_return", "Q5 (最高)"); ("long_short", "多空策略")].

Fixpoint indexed {A} (i : nat) (l : list A) : list (string * A) :=
  match l with
  | [] => []
  | x :: rest => (pretty i, x) :: indexed (S i) rest
  end.

Fixpoint chars (s : string) : list json :=
  match s with
  | EmptyString => []
  | String c rest => JStr (String c EmptyString) :: chars rest
  end.

(** [Object.entries(v)] of any value: a TypeError on [undefined] and
    [null]; the indexed elements of an array and of a string (one entry per
    character of ASCII text); nothing for a number or a boolean. *)
Definition Object_entries_of (v : jsval) : Res (list (string * json)) :=
  match v with
  | None | Some JNull => Throw (TypeError "Cannot convert undefined or null to object")
  | Some (JObj props) => Ok props
  | Some (JArr elems) => Ok (indexed 0 elems)
  | Some (JStr s) => Ok (indexed 0 (chars s))
  | Some _ => Ok []
  end.

(** The names under which [Object.prototype] holds a function. *)
Definition prototypeFunctions : list string :=
  ["constructor"; "hasOwnProperty"; "isPrototypeOf"; "propertyIsEnumerable";
   "toLocaleString"; "toString"; "valueOf"; "__defineGetter__"; "__defineSetter__";
   "__lookupGetter__"; "__lookupSetter__"].

(** [{...}[strategy] || strategy], printed: the lookup in the object
    literal finds the six labels, and under the names of [Object.prototype]
    what the literal inherits: a function, which is truthy and printed as
    its source text, and under [__proto__] the prototype itself. Every
    other key stands for itself. *)
Definition strategyLabel (strategy : string) : string :=
  match table_get strategyNames strategy with
  | Some name => name
  | None =>
      if existsb (String.eqb strategy) prototypeFunctions then Function_toString strategy
      else if String.eqb strategy "__proto__" then "[object Object]"
      else strategy
  end.

(** The card of one strategy: the substitutions of the template are read
    and converted from left to right. *)
Definition statsCard (entry : string * json) : Res string :=
  let '(strategy, stats) := entry in
  let strategyName := strategyLabel strategy in
  annual_return ← getProp (Some stats) "annual_return";
  annual_return ← ToString annual_return;
  annual_volatility ← getProp (Some stats) "annual_volatility";
  annual_volatility ← ToString annual_volatility;
  sharpe_ratio ← getProp (Some stats) "sharpe_ratio";
  sharpe_ratio ← ToString sharpe_ratio;
  max_drawdown ← getProp (Some stats) "max_drawdown";
  max_drawdown ← ToString max_drawdown;
  mret (nl +:+ spaces 12 +:+ "<div class=" +:+ dq +:+ "card mb-2" +:+ dq +:+ ">" +:+ nl
    +:+ spaces 16 +:+ "<div class=" +:+ dq +:+ "card-body p-2" +:+ dq +:+ ">" +:+ nl
    +:+ spaces 20 +:+ "<h6 class=" +:+ dq +:+ "card-title mb-1" +:+ dq +:+ ">"
    +:+ strategyName +:+ "</h6>" +:+ nl
    +:+ spaces 20 +:+ "<small class=" +:+ dq +:+ "text-muted" +:+ dq +:+ ">" +:+ nl
    +:+ spaces 24 +:+ "年化收益: <span class=" +:+ dq +:+ "text-primary" +:+ dq +:+ ">"
    +:+ annual_return +:+ "%</span> | " +:+ nl
    +:+ spaces 24 +:+ "波动率: " +:+ annual_volatility +:+ "% | " +:+ nl
    +:+ spaces 24 +:+ "夏普: " +:+ sharpe_ratio +:+ " | " +:+ nl
    +:+ spaces 24 +:+ "最大回撤: <span class=" +:+ dq +:+ "text-danger" +:+ dq +:+ ">"
    +:+ max_drawdown +:+ "%</span>" +:+ nl
    +:+ spaces 20 +:+ "</small>" +:+ nl
    +:+ spaces 16 +:+ "</div>" +:+ nl
    +:+ spaces 12 +:+ "</div>" +:+ nl
    +:+ spaces 8).

Fixpoint mapJoinEntries (f : string * json → Res string) (l : list (string * json))
    : Res string :=
  match l with
  | [] => Ok EmptyString
  | x :: rest => s ← f x; r ← mapJoinEntries f rest; mret (s +:+ r)
  end.

Definition displayBacktestResults (results : jsval) : M unit :=
  performance_stats ← lift (getProp results "performance_stats");
  entries ← lift (Object_entries_of performance_stats);
  statsHtml ← lift (mapJoinEntries statsCard entries);
  setInnerHTML "performanceStats" statsHtml;;
  cumulative_returns ← lift (getProp results "cumulative_returns");
  drawReturnsChart cumulative_returns.

(** ** runBacktest (lines 304-352) *)

Definition runBacktest_begin : M bool :=
  code ← gets currentFactorCode;
  if negb (truthy code) then alert "请先生成因子代码";; mret false
  else
    dataset ← readValue "datasetSelect";
    startDate ← readValue "startDate";
    endDate ← readValue "endDate";
    if String.eqb dataset EmptyString then alert "请选择数据集";; mret false
    else
      updateStatus "backtest" "processing";;
      showLoading "回测分析";;
      emit (Fetch "/api/run_backtest" "POST"
              (bodyOf [("factor_code", code); ("dataset", Some (JStr dataset));
                       ("start_date", Some (JStr startDate));
                       ("end_date", Some (JStr endDate))]));;
      mret true.

Definition runBacktest_resume (o : Outcome) : M unit :=
  try_finally
    (try_catch
       (result ← await o;
        success ← lift (getProp result "success");
        if truthy success then
          results ← lift (getProp result "results");
          displayBacktestResults results;;
          showResult "backtestResult";;
          updateStatus "backtest" "success"
        else
          error ← lift (getProp result "error");
          error ← lift (ToString error);
          alert ("回测失败: " +:+ error);;
          updateStatus "backtest" "error")
       (λ error,
          alert ("回测失败: " +:+ message error);;
          updateStatus "backtest" "error"))
    (hideLoading "回测分析").

(** ** The four operations of the workflow *)

Inductive Op := Upload | Extract | Generate | Backtest.

(** The step name passed to [updateStatus] and the context passed to
    [showLoading] and [hideLoading]. *)
Definition stepOf (op : Op) : string :=
  match op with
  | Upload => "pdf" | Extract => "extract" | Generate => "factor" | Backtest => "backtest"
  end.

Definition contextOf (op : Op) : string :=
  match op with
  | Upload => "PDF上传" | Extract => "内容提取" | Generate => "因子生成" | Backtest => "回测分析"
  end.

Definition begin (op : Op) : M bool :=
  match op with
  | Upload => uploadPDF_begin
  | Extract => extractContent_begin
  | Generate => generateFactor_begin
  | Backtest => runBacktest_begin
  end.

Definition resume (op : Op) (o : Outcome) : M unit :=
  match op with
  | Upload => uploadPDF_resume o
  | Extract => extractContent_resume o
  | Generate => generateFactor_resume o
  | Backtest => runBacktest_resume o
  end.

(** The handler of [op] when nothing else runs between its request and
    the backend's outcome. *)
Definition run (op : Op) (o : Outcome) : M unit :=
  started ← begin op;
  if started : bool then resume op o else mret tt.

(** The backend call ended in failure: it threw, or its body carries no
    truthy [success] flag. *)
Definition failed (o : Outcome) : bool :=
  match o with
  | Rejected _ => true
  | Resolved result =>
      match getProp (Some result) "success" with
      | Ok success => negb (truthy success)
      | Throw _ => true
      end
  end.

(** ** The event loop *)

(** A request in flight: its handler waits for the backend. *)
Inductive Task :=
| Workflow (op : Op)
| Datasets.

Definition op_eqb (a b : Op) : bool :=
  match a, b with
  | Upload, Upload | Extract, Extract | Generate, Generate | Backtest, Backtest => true
  | _, _ => false
  end.

Definition task_eqb (a b : Task) : bool :=
  match a, b with
  | Workflow x, Workflow y => op_eqb x y
  | Datasets, Datasets => true
  | _, _ => false
  end.

Fixpoint remove_first (t : Task) (l : list Task) : list Task :=
  match l with
  | [] => []
  | x :: rest => if task_eqb t x then rest else x :: remove_first t rest
  end.

(** The page and the handlers that wait for a response. *)
Record System := mkSystem {
  page : State;
  pending : list Task
}.

(** What a turn of the event loop runs: a click on the button of a step,
    the response to a request in flight, DOMContentLoaded, the two buttons
    of the code editor, and the user typing in a field or choosing files.
    Nothing guards a click: the buttons are disabled in the document only. *)
Inductive Action :=
| Invoke (op : Op)
| Settle (t : Task) (o : Outcome)
| PageLoaded
| EditCode
| SaveCode
| Input (id value : string)
| ChooseFiles (id : string) (fs : list string).

Definition launch (t : Task) (first : M bool) (sys : System) : System :=
  match first (page sys) with
  | (Ok true, s') => mkSystem s' (pending sys ++ [t])
  | (_, s') => mkSystem s' (pending sys)
  end.

Definition settle (t : Task) (o : Outcome) : M unit :=
  match t with
  | Workflow op => resume op o
  | Datasets => loadDatasets_resume o
  end.

Definition turn (handler : M unit) (sys : System) : System :=
  mkSystem (snd (handler (page sys))) (pending sys).

Definition perform (a : Action) (sys : System) : option System :=
  match a with
  | Invoke op => Some (launch (Workflow op) (begin op) sys)
  | PageLoaded => Some (launch Datasets loadDatasets_begin sys)
  | Settle t o =>
      if existsb (task_eqb t) (pending sys)
      then Some (mkSystem (snd (settle t o (page sys))) (remove_first t (pending sys)))
      else None
  | EditCode => Some (turn editCode sys)
  | SaveCode => Some (turn saveCode sys)
  | Input id v => Some (turn (whenElement id (set_value v)) sys)
  | ChooseFiles id fs => Some (turn (whenElement id (set_files fs)) sys)
  end.

Inductive reachable (sys0 : System) : System → Prop :=
| reach_start : reachable sys0 sys0
| reach_step sys a sys' :
    reachable sys0 sys → perform a sys = Some sys' → reachable sys0 sys'.

(** * The terms of the properties *)

(** ** Values that can be printed *)

(** No object with an own [toString] key is in the value, arrays looked
    through: the values ToString converts. *)
Fixpoint printable_json (v : json) : bool :=
  match v with
  | JArr elems =>
      (fix all (l : list json) : bool :=
         match l with
         | [] => true
         | x :: rest => printable_json x && all rest
         end) elems
  | JObj props => negb (hasOwn "toString" props)
  | _ => true
  end.

Definition printable (v : jsval) : bool :=
  match v with None => true | Some j => printable_json j end.

(** ** The normalizer in the specification's terms *)

(** The three texts shown for a factor. *)
Record FactorRecord := mkFactor {
  f_name : string;
  f_description : string;
  f_type : string
}.

Inductive Normalized :=
| Factors (records : list FactorRecord)
| FormatError
| ParseFailed (raw : string)
| NothingExtracted.

(** The field of a sequence element: [undefined] when it has none. *)
Definition fieldOf (element : json) (k : string) : jsval :=
  getPropOpt (Some element) k.

Definition is_null (v : json) : bool :=
  match v with JNull => true | _ => false end.

(** The record of a sequence element: the text of each field, of the
    placeholder for a falsy one. There is none for [null], which has no
    fields to read, and none when a field cannot be printed. *)
Definition recordOf (element : json) : Res FactorRecord :=
  if is_null element
  then Throw (TypeError "Cannot read properties of null (reading 'name')")
  else
    name ← ToString (orDefault (fieldOf element "name") "未知因子");
    description ← ToString (orDefault (fieldOf element "description") "无描述");
    type ← ToString (orDefault (fieldOf element "type") "未分类");
    mret (mkFactor name description type).

(** An element with a record: not [null], its three fields printable. *)
Definition mappable (element : json) : bool :=
  negb (is_null element)
  && printable (fieldOf element "name")
  && printable (fieldOf element "description")
  && printable (fieldOf element "type").

Definition entryRecord (entry : string * json) : FactorRecord :=
  mkFactor (fst entry)
           (match snd entry with JStr s => s | v => JSON_stringify v end)
           "提取的因子".

Definition recordHtml (indent : nat) (r : FactorRecord) : string :=
  factorDiv indent (f_name r) (f_description r) (f_type r).

Definition viewHtml (indent : nat) (v : Normalized) : string :=
  match v with
  | Factors records => join_empty (map (recordHtml indent) records)
  | FormatError => formatErrorMarker
  | ParseFailed raw => parseFailedMarker raw
  | NothingExtracted => nothingExtractedMarker
  end.

Definition indentOf (key_factors : jsval) : nat :=
  match key_factors with Some (JStr _) => 24 | _ => 16 end.

(** The four-way branch as the specification words it. *)
Definition normalize_spec (key_factors : jsval) : Res Normalized :=
  match key_factors with
  | Some (JArr elems) => Factors <$> mapM recordOf elems
  | Some (JStr text) =>
      match JSON_parse text with
      | Some (JArr elems) => Factors <$> mapM recordOf elems
      | Some _ => Ok FormatError
      | None => Ok (ParseFailed text)
      end
  | Some (JObj props) => Ok (Factors (map entryRecord props))
  | _ => Ok NothingExtracted
  end.

(** The branch the code takes: text counts only when it is not empty, and
    an element without a record ends a given sequence with its exception
    and turns a parsed one into the marker of a failed parse. *)
Definition normalize (key_factors : jsval) : Res Normalized :=
  match key_factors with
  | Some (JArr elems) => Factors <$> mapM recordOf elems
  | Some (JStr text) =>
      if String.eqb text EmptyString then Ok NothingExtracted
      else
        match JSON_parse text with
        | Some (JArr elems) =>
            Ok (match mapM recordOf elems with
                | Ok records => Factors records
                | Throw _ => ParseFailed text
                end)
        | Some _ => Ok FormatError
        | None => Ok (ParseFailed text)
        end
  | Some (JObj props) => Ok (Factors (map entryRecord props))
  | _ => Ok NothingExtracted
  end.

(** [out] is the text of [v || d]. *)
Definition defaulted (v : jsval) (d : string) (out : string) : Prop :=
  if truthy v then ToString v = Ok out else out = d.

(** The claim C1 as the specification words it: every input is resolved
    by [normalize_spec]. *)
Definition four_way_as_stated (key_factors : jsval) : Prop :=
  keyFactorsHtml key_factors
  = viewHtml (indentOf key_factors) <$> normalize_spec key_factors.

(** The sequence in [key_factors], given or parsed out of its text, holds
    elements with a record only. *)
Definition elements_mappable (key_factors : jsval) : bool :=
  match key_factors with
  | Some (JArr elems) => forallb mappable elems
  | Some (JStr text) =>
      match JSON_parse text with
      | Some (JArr elems) => forallb mappable elems
      | _ => true
      end
  | _ => true
  end.

(** Where the code's branch and the specification's agree: on the inputs
    whose elements have records, the empty text apart. *)
Definition well_shaped (key_factors : jsval) : bool :=
  elements_mappable key_factors
  && match key_factors with
     | Some (JStr text) => negb (String.eqb text EmptyString)
     | _ => true
     end.

(** The element fields of C2 as the specification words them: the
    placeholder exactly when the field is missing, a present field
    unchanged. *)
Definition default_when_missing (field : jsval) (d : string) (out : string) : Prop :=
  match field with
  | None => out = d
  | Some v => ToString (Some v) = Ok out
  end.

(** A given sequence holds elements with a record only. *)
Definition given_mappable (key_factors : jsval) : bool :=
  match key_factors with
  | Some (JArr elems) => forallb mappable elems
  | _ => true
  end.

(** The substitutions of the templates at lines 149-165, the key factors
    apart. *)
Definition infoFields (info : jsval) : list jsval :=
  [getPropOpt (getPropOpt info "datasets") "primary";
   getPropOpt (getPropOpt info "datasets") "time_range";
   getPropOpt (getPropOpt info "datasets") "frequency";
   getPropOpt info "core_problem";
   getPropOpt (getPropOpt info "solution") "method";
   getPropOpt (getPropOpt info "solution") "algorithm";
   getPropOpt (getPropOpt info "solution") "strategy"].

(** ** Rounding *)

(** [mrs] is [m0] shifted right by [k] bits: the quotient, and what the
    round and sticky bits say of the remainder. *)
Definition shifted (m0 k : Z) (mrs : shr_record) : Prop :=
  (0 ≤ shr_m mrs)%Z
  ∧ ∃ rem : Z,
      (m0 = shr_m mrs * 2 ^ k + rem)%Z ∧ (0 ≤ rem < 2 ^ k)%Z
      ∧ match shr_r mrs, shr_s mrs with
        | false, false => rem = 0%Z
        | false, true => (0 < 2 * rem < 2 ^ k)%Z
        | true, false => (2 * rem = 2 ^ k)%Z
        | true, true => (2 ^ k < 2 * rem)%Z
        end.

(** ** Status classes *)

Definition is_status_class (c : string) : bool :=
  existsb (String.eqb c) (map snd statusClasses).

(** The status classes active on an element. *)
Definition activeClasses (el : Element) : list string :=
  List.filter is_status_class (classList el).

(** ** Frames and postconditions of handlers *)

(** [preserves R m]: whatever [m] returns or throws, the state it leaves is
    related by [R] to the state it started in. *)
Definition preserves {A} (R : relation State) (m : M A) : Prop :=
  ∀ s, R s (snd (m s)).

(** [wp m Q E s]: run from [s], [m] returns [a] in a state with [Q a] or
    throws [e] in a state with [E e]. *)
Definition wp {A} (m : M A) (Q : A → State → Prop) (E : exn → State → Prop)
    (s : State) : Prop :=
  match m s with
  | (Ok a, s') => Q a s'
  | (Throw e, s') => E e s'
  end.

(** What a relation must allow for the page's primitives to preserve it. *)
Class TraceFrame (R : relation State) :=
  trace_frame : ∀ s t, R s (set_trace t s).
Class GlobalsFrame (R : relation State) :=
  globals_frame : ∀ s v,
    R s (set_currentMarkdownContent v s) ∧ R s (set_currentExtractedInfo v s)
    ∧ R s (set_currentFactorCode v s).
Class LoadingFrame (R : relation State) :=
  loading_frame : ∀ s d context, R s (snd (setLoading d context s)).
Class LibraryFrame (R : relation State) :=
  library_frame : ∀ s,
    (∀ c n, R s (set_charts c n s)) ∧ (∀ b, R s (set_backtestChart b s))
    ∧ (∀ b, R s (set_modal b s)).
(** Writes to an element that keep its [classList]. *)
Class ContentFrame (R : relation State) :=
  content_frame : ∀ s id el (f : Element → Element),
    dom s !! id = Some el → classList (f el) = classList el →
    R s (set_dom (<[id := f el]> (dom s)) s).
(** [updateStatus step status]. *)
Class StatusFrame (R : relation State) (step status : string) :=
  status_frame : ∀ s el,
    dom s !! (step +:+ "Status") = Some el →
    R s (set_dom (<[step +:+ "Status" := applyStatus status el]> (dom s)) s).

(** A relation every write of the page preserves, the globals and
    [updateStatus] apart. *)
Class PageFrame (R : relation State) := {
  page_preorder :: PreOrder R;
  page_trace :: TraceFrame R;
  page_loading :: LoadingFrame R;
  page_library :: LibraryFrame R;
  page_content :: ContentFrame R
}.

(** ** Relations between the state before and after *)

(** The pipeline state: the three globals the workflow stores. *)
Definition same_globals : relation State := λ s s',
  currentMarkdownContent s' = currentMarkdownContent s
  ∧ currentExtractedInfo s' = currentExtractedInfo s
  ∧ currentFactorCode s' = currentFactorCode s.

(** The [.loading] elements stay under the same card headers. *)
Definition same_headers : relation State := λ s s',
  map header (loading s') = map header (loading s).

(** Every element stays in the document, changed as [P] allows. *)
Definition dom_rel (P : string → relation Element) : relation State := λ s s',
  ∀ id, match dom s !! id with
        | Some el => ∃ el', dom s' !! id = Some el' ∧ P id el el'
        | None => dom s' !! id = None
        end.

Class ClassBlind (P : string → relation Element) :=
  class_blind : ∀ id el el', classList el' = classList el → P id el el'.

Class StatusStep (P : string → relation Element) (step status : string) :=
  status_step : ∀ el, P (step +:+ "Status") el (applyStatus status el).

(** ** Hidden loading elements *)

(** Every [.loading] element sits in a card with a header, so that
    [showLoading] and [hideLoading] reach the end of their loop. *)
Definition headers_ok (s : State) : Prop :=
  Forall (λ h, h ≠ None) (map header (loading s)).

(** The [.loading] elements of the card of [context] are hidden. *)
Definition cleared (context : string) (s : State) : Prop :=
  Forall (λ l, ∀ h, header l = Some h →
               includes h (first_word context) = true → shown l = "none")
         (loading s).

(** ** Refusals of runBacktest *)

Inductive Refusal := NoCode | NoDataset.

(** No generated code; or code, and the three inputs of the backtest card
    with no dataset chosen. *)
Definition refused (r : Refusal) (s : State) : Prop :=
  match r with
  | NoCode => truthy (currentFactorCode s) = false
  | NoDataset =>
      truthy (currentFactorCode s) = true
      ∧ (∃ select, dom s !! "datasetSelect" = Some select ∧ value select = EmptyString)
      ∧ is_Some (dom s !! "startDate") ∧ is_Some (dom s !! "endDate")
  end.

Definition refusalMessage (r : Refusal) : string :=
  match r with
  | NoCode => "请先生成因子代码"
  | NoDataset => "请选择数据集"
  end.

(** ** Charts alive *)

(** The configuration [drawReturnsChart] builds from [data]. *)
Definition configOf (data : jsval) : ChartConfig :=
  chartConfig (getPropOpt data "dates") (getPropOpt data "Q1") (getPropOpt data "Q2")
              (getPropOpt data "Q3") (getPropOpt data "Q4") (getPropOpt data "Q5")
              (getPropOpt data "long_short").

(** The instances left alive by the [destroy()] of the chart the global
    refers to. *)
Definition afterDestroy (s : State) : list Chart :=
  match backtestChart s with
  | Some old => List.filter (λ c, negb (Nat.eqb (chart_id c) old)) (charts s)
  | None => charts s
  end.

(** At most one chart is alive; it is the one [backtestChart] refers to,
    and its id is older than the next one. *)
Definition chart_inv (s : State) : Prop :=
  (∀ c, In c (charts s) →
        backtestChart s = Some (chart_id c) ∧ (chart_id c < nextChart s)%nat)
  ∧ (length (charts s) ≤ 1)%nat.

(** Invocations of the renderer in successive turns of the event loop: an
    invocation that throws ends its own turn only. *)
Definition renderEach (datas : list jsval) (s : State) : State :=
  fold_left (λ s data, snd (drawReturnsChart data s)) datas s.

(** ** The status of a step *)

Definition statusElement (s : State) (op : Op) : option Element :=
  dom s !! (stepOf op +:+ "Status").

(** The step shows [status]: its class is the one status class of the
    step's status element. *)
Definition shows (s : State) (op : Op) (status : string) : Prop :=
  ∃ el cls,
    statusElement s op = Some el
    ∧ table_get statusClasses status = Some cls
    ∧ activeClasses el = [cls].

Definition has_class (s : State) (op : Op) (c : string) : Prop :=
  ∃ el, statusElement s op = Some el ∧ In c (classList el).

(** The elements named in [ids] apart, every element keeps its classes. *)
Definition frame_rel (ids : list string) : relation State :=
  dom_rel (λ id a b, In id ids ∨ classList b = classList a).

(** No element gains the class [c]. *)
Definition noadd_rel (c : string) : relation State :=
  dom_rel (λ _ a b, In c (classList b) → In c (classList a)).

(** The status element an action may write. *)
Definition written (a : Action) : list string :=
  match a with
  | Invoke op | Settle (Workflow op) _ => [stepOf op +:+ "Status"]
  | _ => []
  end.

(** While a request of a step is in flight, the step's status element
    exists and is not pending. *)
Definition in_flight_not_pending (sys : System) : Prop :=
  ∀ op, In (Workflow op) (pending sys) →
    ∃ el, statusElement (page sys) op = Some el ∧ ¬ In "bg-secondary" (classList el).

Definition marked (op : Op) (s : State) : Prop :=
  shows s op "success" ∨ shows s op "error".

Definition present (op : Op) (s : State) : Prop :=
  is_Some (statusElement s op).

(** From a page with the step's status element, [m] returns with the step
    marked as success or error, or throws with the element still there. *)
Definition ends_marked (op : Op) {A} (m : M A) : Prop :=
  ∀ s, present op s → wp m (λ _, marked op) (λ _, present op) s.

(** ** The preconditions of the handlers *)

(** The URL each operation fetches. *)
Definition endpoint (op : Op) : string :=
  match op with
  | Upload => "/api/upload_pdf"
  | Extract => "/api/extract_content"
  | Generate => "/api/generate_factor"
  | Backtest => "/api/run_backtest"
  end.

(** [!v || Object.keys(v).length === 0] by the shape of [v]: everything
    but an object with a property, an array with an element and a text with
    a character. *)
Definition noKeys (v : jsval) : Prop :=
  match v with
  | Some (JObj (_ :: _)) | Some (JArr (_ :: _)) => False
  | Some (JStr s) => s = EmptyString
  | _ => True
  end.

(** What makes the handler of [op] return before its request. *)
Definition blocked (op : Op) (s : State) : Prop :=
  match op with
  | Upload => ∃ fileInput, dom s !! "pdfFile" = Some fileInput ∧ files fileInput = []
  | Extract => truthy (currentMarkdownContent s) = false
  | Generate => noKeys (currentExtractedInfo s)
  | Backtest => refused NoCode s ∨ refused NoDataset s
  end.

(** ** The loading elements of a card *)

(** The [.loading] element sits in a card whose header contains the first
    word of [context]. *)
Definition inCard (context : string) (l : Loading) : bool :=
  match header l with
  | Some h => includes h (first_word context)
  | None => false
  end.

(** [el.style.display = d] on the elements of the card of [context]. *)
Definition displayIn (d context : string) (l : Loading) : Loading :=
  if inCard context l then mkLoading (header l) d else l.

(** ** The options of the dataset select *)

(** A dataset with an option: not [null], its [id], [name] and
    [description] printable. *)
Definition listable (dataset : json) : bool :=
  negb (is_null dataset)
  && printable (fieldOf dataset "id")
  && printable (fieldOf dataset "name")
  && printable (fieldOf dataset "description").

(** The option [loadDatasets] appends for a dataset: its value and its
    text. *)
Definition datasetOption (dataset : json) : Res (string * string) :=
  if is_null dataset
  then Throw (TypeError "Cannot read properties of null (reading 'id')")
  else
    id ← ToString (fieldOf dataset "id");
    name ← ToString (fieldOf dataset "name");
    description ← ToString (fieldOf dataset "description");
    mret (id, name +:+ " - " +:+ description).

(** The options of the datasets before the first one that has none. *)
Fixpoint optionsOf (elems : list json) : list (string * string) :=
  match elems with
  | [] => []
  | x :: rest =>
      match datasetOption x with
      | Ok o => o :: optionsOf rest
      | Throw _ => []
      end
  end.

(** ** The statistics of a strategy *)

(** Statistics with a card: not [null], the four figures printable. *)
Definition reportable (stats : json) : bool :=
  negb (is_null stats)
  && printable (fieldOf stats "annual_return")
  && printable (fieldOf stats "annual_volatility")
  && printable (fieldOf stats "sharpe_ratio")
  && printable (fieldOf stats "max_drawdown").

(** ** What an action may change *)

(** The actions that may assign a global of the pipeline: a response that
    reports success to upload, extract or generate, and the save button of
    the code editor. *)
Definition assigns (a : Action) : bool :=
  match a with
  | SaveCode => true
  | Settle (Workflow Backtest) _ => false
  | Settle (Workflow _) o => negb (failed o)
  | _ => false
  end.

(** The elements an action may write. *)
Definition footprint (a : Action) : list string :=
  match a with
  | Invoke op => [stepOf op +:+ "Status"]
  | Settle (Workflow Upload) _ =>
      ["markdownContent"; "markdownResult"; "pdfStatus"; "extractBtn"]
  | Settle (Workflow Extract) _ =>
      ["datasetInfo"; "coreProblem"; "solution"; "keyFactors"; "extractionResult";
       "extractStatus"; "generateBtn"]
  | Settle (Workflow Generate) _ =>
      ["factorCode"; "factorResult"; "factorStatus"; "editBtn"; "backtestBtn";
       "datasetSelect"; "startDate"; "endDate"]
  | Settle (Workflow Backtest) _ => ["performanceStats"; "backtestResult"; "backtestStatus"]
  | Settle Datasets _ => ["datasetSelect"]
  | PageLoaded => []
  | EditCode => ["codeEditor"]
  | SaveCode => ["factorCode"]
  | Input id _ | ChooseFiles id _ => [id]
  end.

(** Every element outside [ids] is as it was. *)
Definition outside (ids : list string) : relation State := λ s s',
  ∀ id, ¬ In id ids → dom s' !! id = dom s !! id.

(** The chart invariant, once it holds, still holds. *)
Definition keeps_one_chart : relation State := λ s s', chart_inv s → chart_inv s'.

(** An element keeps its status classes or has exactly one. *)
Definition status_kept : relation Element := λ a b,
  activeClasses b = activeClasses a
  ∨ ∃ cls, is_status_class cls = true ∧ activeClasses b = [cls].

(** The [.loading] elements are as they were. *)
Definition same_loading : relation State := λ s s', loading s' = loading s.

(** The requests sent so far. *)
Definition is_request (e : Event) : bool :=
  match e with Fetch _ _ _ => true | _ => false end.

Definition requests (s : State) : list Event := List.filter is_request (trace s).

Definition same_requests : relation State := λ s s', requests s' = requests s.

(** ** The code on the page *)

(** The text of [#factorCode], when the element is there and the stored
    code has a text, is that text. *)
Definition code_shown (s : State) : Prop :=
  ∀ el text,
    dom s !! "factorCode" = Some el → textOf (currentFactorCode s) = Ok text →
    content el = Text text.

Definition keeps_code_shown : relation State := λ s s', code_shown s → code_shown s'.

End Program.

(** * Examples: builtins and pages *)

(** ** Builtins

    The examples run the handlers on concrete inputs. They use
    [JSON.parse] on these texts (and on texts that are no JSON at all),
    [Number.prototype.toString] on integers below 10^21 (every other
    number is left without digits), [JSON.stringify] on values whose
    strings need no escape, and [Function.prototype.toString] in the form
    the browsers print a native function. *)

Definition text_mom : string :=
  "[{" +:+ dq +:+ "name" +:+ dq +:+ ":" +:+ dq +:+ "mom" +:+ dq +:+ "}]".

Definition one : number := Eval vm_compute in binary_normalize prec emax 1 0 false.

(** A factor whose name is an object with a [toString] key. *)
Definition text_unprintable : string :=
  "[{" +:+ dq +:+ "name" +:+ dq +:+ ":{" +:+ dq +:+ "toString" +:+ dq +:+ ":1}}]".

Definition exampleParse (text : string) : option json :=
  if String.eqb text text_mom then Some (JArr [JObj [("name", JStr "mom")]])
  else if String.eqb text "[null]" then Some (JArr [JNull])
  else if String.eqb text text_unprintable
  then Some (JArr [JObj [("name", JObj [("toString", JNum one)])]])
  else if String.eqb text "{}" then Some (JObj [])
  else None.

Definition exampleNumberToString (n : number) : string :=
  match n with
  | S754_nan => "NaN"
  | S754_infinity false => "Infinity"
  | S754_infinity true => "-Infinity"
  | S754_zero _ => "0"
  | S754_finite sign m e =>
      let n := (Z.pos m * 2 ^ Z.max e 0)%Z in
      let scale := (2 ^ Z.max (- e) 0)%Z in
      if ((n `mod` scale =? 0) && (n `div` scale <? 10 ^ 21))%Z
      then (if sign then "-" else EmptyString) +:+ pretty (Z.to_N (n `div` scale))
      else EmptyString
  end.

Fixpoint exampleStringify (v : json) : string :=
  match v with
  | JNull => "null"
  | JBool true => "true"
  | JBool false => "false"
  | JNum (S754_nan | S754_infinity _) => "null"
  | JNum n => exampleNumberToString n
  | JStr s => dq +:+ s +:+ dq
  | JArr elems =>
      "[" +:+ (fix join (l : list json) : string :=
                 match l with
                 | [] => EmptyString
                 | x :: rest =>
                     exampleStringify x
                     +:+ match rest with [] => EmptyString | _ => "," +:+ join rest end
                 end) elems +:+ "]"
  | JObj props =>
      "{" +:+ (fix join (l : list (string * json)) : string :=
                 match l with
                 | [] => EmptyString
                 | (k, x) :: rest =>
                     dq +:+ k +:+ dq +:+ ":" +:+ exampleStringify x
                     +:+ match rest with [] => EmptyString | _ => "," +:+ join rest end
                 end) props +:+ "}"
  end.

Definition exampleFunctionToString (name : string) : string :=
  "function " +:+ (if String.eqb name "constructor" then "Object" else name)
  +:+ "() { [native code] }".

Definition exampleBuiltins : Builtins := {|
  JSON_parse := exampleParse;
  JSON_stringify := exampleStringify;
  Number_toString := exampleNumberToString;
  Function_toString := exampleFunctionToString
|}.

(** ** Pages and inputs

    A page like the application's: the status badges, the inputs of the
    four cards, the result elements and the canvas; one [.loading] element
    per card. *)
Definition badge : Element :=
  mkElement ["badge"; "bg-secondary"] (Text "待处理") false EmptyString EmptyString [] [].

Definition plain : Element :=
  mkElement [] (Text EmptyString) false EmptyString EmptyString [] [].

Definition examplePage : gmap string Element :=
  list_to_map
    [("pdfFile", set_files ["paper.pdf"] plain);
     ("pdfStatus", badge); ("extractStatus", badge);
     ("factorStatus", badge); ("backtestStatus", badge);
     ("extractBtn", set_disabled true plain); ("generateBtn", set_disabled true plain);
     ("editBtn", set_disabled true plain); ("backtestBtn", set_disabled true plain);
     ("markdownContent", plain); ("markdownResult", set_display "none" plain);
     ("datasetInfo", plain); ("coreProblem", plain); ("solution", plain);
     ("keyFactors", plain); ("extractionResult", set_display "none" plain);
     ("factorCode", plain); ("factorResult", set_display "none" plain);
     ("codeEditor", plain);
     ("datasetSelect", set_disabled true plain);
     ("startDate", set_disabled true plain); ("endDate", set_disabled true plain);
     ("performanceStats", plain); ("backtestResult", set_display "none" plain);
     ("returnsChart", plain)].

Definition exampleLoading : list Loading :=
  [mkLoading (Some "1. PDF上传") "none"; mkLoading (Some "2. 内容提取") "none";
   mkLoading (Some "3. 因子生成") "none"; mkLoading (Some "4. 回测分析") "none"].

Definition exampleState : State := initialState examplePage exampleLoading.

(** The state with generated code and no dataset chosen. *)
Definition codeState : State :=
  set_currentFactorCode (Some (JStr "def factor(df): return df")) exampleState.

(** Cumulative returns over two dates. *)
Definition exampleReturns : jsval :=
  Some (JObj [("dates", JArr [JStr "2020-01-31"; JStr "2020-02-29"]);
              ("Q1", JArr [JNum (S754_zero false); JNum one]);
              ("Q2", JArr [JNum (S754_zero false); JNum one]);
              ("Q3", JArr [JNum (S754_zero false); JNum one]);
              ("Q4", JArr [JNum (S754_zero false); JNum one]);
              ("Q5", JArr [JNum (S754_zero false); JNum one]);
              ("long_short", JArr [JNum (S754_zero false); JNum one])]).

Definition exampleInfo : jsval :=
  Some (JObj [("core_problem", JStr "momentum"); ("key_factors", JStr text_mom)]).

(** The page after [uploadPDF] has sent its request. *)
Definition uploadingState : State := snd (@begin exampleBuiltins Upload exampleState).

(** The ratio 0.15 as a binary64 number. *)
Definition ratio15 : number := S754_finite false 5404319552844595 (-55).

(** The body of the scenario of the specification: the quota is
    exceeded. *)
Definition quotaExceeded : Outcome :=
  Resolved (JObj [("success", JBool false); ("error", JStr "quota exceeded")]).

(** The page at load, and after the click on the upload button. *)
Definition loadedSystem : System := mkSystem exampleState [].

Definition uploadingSystem : System := mkSystem uploadingState [Workflow Upload].

(** Bodies of responses that report success. *)
Definition uploaded : json :=
  JObj [("success", JBool true); ("markdown_content", JStr "# Title")].

Definition generated : json :=
  JObj [("success", JBool true); ("factor_code", JStr "def factor(df): return df")].

Definition successOnly : json := JObj [("success", JBool true)].

Definition backtested : json :=
  JObj [("success", JBool true);
        ("results",
         JObj [("performance_stats",
                JObj [("Q1_return",
                       JObj [("annual_return", JNum one); ("annual_volatility", JNum one);
                             ("sharpe_ratio", JNum one); ("max_drawdown", JNum one)])]);
               ("cumulative_returns",
                JObj [("dates", JArr [JStr "2020-01-31"]); ("Q1", JArr [JNum one])])])].

Definition datasetsBody : json :=
  JObj [("datasets",
         JArr [JObj [("id", JStr "csi300"); ("name", JStr "CSI 300");
                     ("description", JStr "daily")];
               JObj [("id", JStr "csi500")]])].

(** Datasets of which the second one cannot be listed: its id is an
    object with a [toString] key. *)
Definition unlistable : list json :=
  [JObj [("id", JStr "csi300"); ("name", JStr "CSI 300"); ("description", JStr "daily")];
   JObj [("id", JObj [("toString", JNull)])];
   JObj [("id", JStr "csi500")]].

(** Two backtests in flight, and the page after the response to the first
    and to the second. *)
Definition backtestingSystem : System :=
  mkSystem exampleState [Workflow Backtest; Workflow Backtest].

Definition backtestedOnce : System :=
  mkSystem (snd (@runBacktest_resume exampleBuiltins (Resolved backtested) exampleState))
           [Workflow Backtest].

Definition backtestedTwice : System :=
  mkSystem (snd (@runBacktest_resume exampleBuiltins (Resolved backtested)
                   (page backtestedOnce)))
           [].

(** A generation in flight, and the page after its response. *)
Definition generatingSystem : System := mkSystem exampleState [Workflow Generate].

Definition generatedSystem : System :=
  mkSystem (snd (@generateFactor_resume exampleBuiltins (Resolved generated) exampleState))
           [].

(** The page after a click on the edit button. *)
Definition editingSystem : System := turn (@editCode exampleBuiltins) loadedSystem.

Definition extracted : json :=
  JObj [("success", JBool true);
        ("extracted_info",
         JObj [("core_problem", JStr "momentum"); ("key_factors", JStr text_mom)])].

(** The key factors of that information, rendered. *)
Definition momHtml : string :=
  Eval vm_compute in
    match @keyFactorsHtml exampleBuiltins (Some (JStr text_mom)) with
    | Ok html => html
    | Throw _ => EmptyString
    end.

(** * Properties *)

Section Properties.

Context {builtins : Builtins}.

(** ** Values that can be printed *)

Lemma json_nested_ind (P : json → Prop) :
  P JNull → (∀ b, P (JBool b)) → (∀ n, P (JNum n)) → (∀ s, P (JStr s)) →
  (∀ elems, Forall P elems → P (JArr elems)) → (∀ props, P (JObj props)) →
  ∀ v, P v.
Proof.
  intros Hnull Hbool Hnum Hstr Harr Hobj.
  fix IH 1.
  intros [| b | n | s | elems | props];
    [exact Hnull | apply Hbool | apply Hnum | apply Hstr | | apply Hobj].
  apply Harr. induction elems as [|x rest IHrest]; constructor; [apply IH | exact IHrest].
Qed.

(** ToString returns on the printable values and throws on the others. *)
Lemma ToString_json_printable v :
  match ToString_json v with
  | Ok _ => printable_json v = true
  | Throw _ => printable_json v = false
  end.
Proof.
  induction v as [| [] | n | s | elems IH | props] using json_nested_ind;
    try reflexivity.
  - cbn [ToString_json printable_json].
    induction IH as [|x rest Hx _ IHrest]; [reflexivity|].
    assert (Hx' : match match x with JNull => Ok EmptyString | _ => ToString_json x end with
                  | Ok _ => printable_json x = true
                  | Throw _ => printable_json x = false
                  end) by (destruct x; first [exact Hx | reflexivity]).
    destruct (match x with JNull => Ok EmptyString | _ => ToString_json x end);
      rewrite Hx'; [|reflexivity].
    destruct rest as [|y rest]; [reflexivity|].
    cbn [andb]. revert IHrest.
    match goal with |- context [match ?j with Ok _ => _ | Throw _ => _ end] =>
      destruct j end; intros ->; reflexivity.
  - cbn. destruct (hasOwn "toString" props); reflexivity.
Qed.

Lemma printable_ToString v : printable v = true → ∃ text, ToString v = Ok text.
Proof.
  destruct v as [j|]; [|intros _; eexists; reflexivity].
  cbn. pose proof (ToString_json_printable j) as H.
  destruct (ToString_json j) as [text|e]; [intros _; eexists; reflexivity|].
  rewrite H. discriminate.
Qed.

Lemma unprintable_ToString v : printable v = false → ∃ e, ToString v = Throw e.
Proof.
  destruct v as [j|]; [|discriminate].
  cbn. pose proof (ToString_json_printable j) as H.
  destruct (ToString_json j) as [text|e]; [|intros _; eexists; reflexivity].
  rewrite H. discriminate.
Qed.

Lemma printable_orDefault v d : printable (orDefault v d) = printable v.
Proof.
  unfold orDefault. destruct v as [[| [] | [] | s | |]|]; try reflexivity.
  cbn. destruct (String.eqb s EmptyString); reflexivity.
Qed.

Lemma ToString_orDefault v d :
  printable v = true → ∃ text, ToString (orDefault v d) = Ok text.
Proof. intros H. apply printable_ToString. rewrite printable_orDefault. exact H. Qed.

(** ** The key factors normalizer *)

Lemma getProp_fieldOf x k : is_null x = false → getProp (Some x) k = Ok (fieldOf x k).
Proof. destruct x; intros Hx; try discriminate Hx; reflexivity. Qed.

Lemma renderFactor_recordOf indent x :
  renderFactor indent x = recordHtml indent <$> recordOf x.
Proof.
  unfold renderFactor, recordOf. destruct (is_null x) eqn:Hx.
  - destruct x; try discriminate Hx. reflexivity.
  - rewrite !(getProp_fieldOf _ _ Hx). cbn -[ToString orDefault factorDiv fieldOf].
    destruct (ToString (orDefault (fieldOf x "name") "未知因子")); [|reflexivity].
    cbn -[ToString orDefault factorDiv fieldOf].
    destruct (ToString (orDefault (fieldOf x "description") "无描述")); [|reflexivity].
    cbn -[ToString orDefault factorDiv fieldOf].
    destruct (ToString (orDefault (fieldOf x "type") "未分类")); reflexivity.
Qed.

Lemma recordOf_mappable x : mappable x = true → ∃ r, recordOf x = Ok r.
Proof.
  unfold mappable, recordOf. intros H.
  apply andb_prop in H as [H Ht]. apply andb_prop in H as [H Hd].
  apply andb_prop in H as [Hx Hn]. apply negb_true_iff in Hx. rewrite Hx.
  destruct (ToString_orDefault _ "未知因子" Hn) as [n ->].
  destruct (ToString_orDefault _ "无描述" Hd) as [d ->].
  destruct (ToString_orDefault _ "未分类" Ht) as [t ->].
  eexists. reflexivity.
Qed.

Lemma recordOf_unmappable x : mappable x = false → ∃ e, recordOf x = Throw e.
Proof.
  unfold mappable, recordOf. intros H.
  destruct (is_null x); [eexists; reflexivity|]. cbn [negb andb] in H.
  destruct (printable (fieldOf x "name")) eqn:Hn.
  2:{ rewrite <- (printable_orDefault _ "未知因子") in Hn.
      destruct (unprintable_ToString _ Hn) as [e ->]. eexists. reflexivity. }
  destruct (ToString_orDefault _ "未知因子" Hn) as [n ->]. cbn [andb] in H.
  destruct (printable (fieldOf x "description")) eqn:Hd.
  2:{ rewrite <- (printable_orDefault _ "无描述") in Hd.
      destruct (unprintable_ToString _ Hd) as [e ->]. eexists. reflexivity. }
  destruct (ToString_orDefault _ "无描述" Hd) as [d ->]. cbn [andb] in H.
  rewrite <- (printable_orDefault _ "未分类") in H.
  destruct (unprintable_ToString _ H) as [e ->]. eexists. reflexivity.
Qed.

Lemma mapM_mappable elems :
  forallb mappable elems = true → ∃ records, mapM recordOf elems = Ok records.
Proof.
  induction elems as [|x rest IH]; [intros _; eexists; reflexivity|].
  cbn [forallb]. intros H. apply andb_prop in H as [Hx Hrest].
  destruct (recordOf_mappable _ Hx) as [r Hr], (IH Hrest) as [rs Hrs].
  exists (r :: rs). cbn [mapM]. rewrite Hr. cbn. rewrite Hrs. reflexivity.
Qed.

Lemma mapM_unmappable elems :
  forallb mappable elems = false → ∃ e, mapM recordOf elems = Throw e.
Proof.
  induction elems as [|x rest IH]; [discriminate|].
  cbn [forallb mapM]. destruct (mappable x) eqn:Hx.
  - cbn [andb]. intros Hrest. destruct (recordOf_mappable _ Hx) as [r ->], (IH Hrest) as [e He].
    exists e. cbn. rewrite He. reflexivity.
  - intros _. destruct (recordOf_unmappable _ Hx) as [e ->]. exists e. reflexivity.
Qed.

Lemma mapJoin_renderFactor indent elems :
  mapJoin (renderFactor indent) elems
  = (λ records, join_empty (map (recordHtml indent) records)) <$> mapM recordOf elems.
Proof.
  induction elems as [|x rest IH]; [reflexivity|].
  cbn [mapJoin mapM]. rewrite renderFactor_recordOf, IH.
  destruct (recordOf x); [|reflexivity]. cbn.
  destruct (mapM recordOf rest); reflexivity.
Qed.

Lemma entries_html props :
  map (λ e, let '(n, d, t) := entryFields e in factorDiv 16 n d t) props
  = map (recordHtml 16) (map entryRecord props).
Proof.
  rewrite List.map_map. apply List.map_ext. intros [k []]; reflexivity.
Qed.

Lemma keyFactorsHtml_normalize key_factors :
  keyFactorsHtml key_factors = viewHtml (indentOf key_factors) <$> normalize key_factors.
Proof.
  destruct key_factors as [[| [] | [] | text | elems | props]|]; try reflexivity.
  - unfold keyFactorsHtml, normalize. cbn [truthy truthy_json].
    destruct (String.eqb text EmptyString); [reflexivity|].
    cbn -[formatErrorMarker parseFailedMarker mapJoin mapM].
    destruct (JSON_parse text) as [[]|]; try reflexivity.
    rewrite mapJoin_renderFactor. destruct (mapM recordOf elems); reflexivity.
  - unfold keyFactorsHtml, normalize. cbn -[mapJoin mapM].
    rewrite mapJoin_renderFactor. destruct (mapM recordOf elems); reflexivity.
  - unfold keyFactorsHtml, normalize. cbn -[join_empty factorDiv].
    rewrite entries_html. reflexivity.
Qed.

Lemma markers_distinct raw :
  nothingExtractedMarker ≠ formatErrorMarker
  ∧ nothingExtractedMarker ≠ parseFailedMarker raw
  ∧ formatErrorMarker ≠ parseFailedMarker raw.
Proof.
  repeat split; intros H; cbn in H; discriminate H.
Qed.

Lemma normalize_well_shaped key_factors :
  well_shaped key_factors = true → normalize key_factors = normalize_spec key_factors.
Proof.
  unfold well_shaped. intros H. apply andb_prop in H as [Hm Ht].
  destruct key_factors as [[| | | text | elems |]|]; try reflexivity.
  cbn in Hm, Ht |- *. apply negb_true_iff in Ht. rewrite Ht.
  destruct (JSON_parse text) as [[]|]; try reflexivity.
  destruct (mapM_mappable _ Hm) as [records ->]. reflexivity.
Qed.

(** C1 (amended). For every value of [key_factors] whose sequence, given
    or parsed out of its text, holds only elements that are not [null] and
    have printable fields, the normalizer resolves it by exactly this
    four-way branch: a sequence has each element mapped to a record of
    name, description and type; else text that is not empty is parsed as
    JSON, a parsed sequence mapped the same way, a parsed non-sequence
    giving the format-error marker, a failed parse the format-error marker
    with the raw text; else a mapping has each key and value turned into a
    record in iteration order; every other value (absent, [null], the empty
    text, a number, a boolean) gives the nothing-extracted marker, which
    differs from both format-error markers.

    The first part gives the branch the code takes on every input, the
    second that it is the specification's on the inputs above, the empty
    text apart, the third what the empty text gives. *)
Theorem key_factors_four_way key_factors :
  keyFactorsHtml key_factors = viewHtml (indentOf key_factors) <$> normalize key_factors
  ∧ (well_shaped key_factors = true → four_way_as_stated key_factors)
  ∧ keyFactorsHtml (Some (JStr EmptyString)) = Ok nothingExtractedMarker
  ∧ (∀ raw, nothingExtractedMarker ≠ formatErrorMarker
            ∧ nothingExtractedMarker ≠ parseFailedMarker raw).
Proof.
  split; [apply keyFactorsHtml_normalize|split; [|split; [reflexivity|]]].
  - intros Hw. unfold four_way_as_stated.
    rewrite keyFactorsHtml_normalize, (normalize_well_shaped _ Hw). reflexivity.
  - intros raw. destruct (markers_distinct raw) as (H1 & H2 & _). split; assumption.
Qed.

Lemma defaulted_orDefault v d out : ToString (orDefault v d) = Ok out → defaulted v d out.
Proof.
  unfold defaulted, orDefault. destruct (truthy v); [auto|]. cbn. congruence.
Qed.

Lemma recordOf_fields x r :
  recordOf x = Ok r →
  defaulted (fieldOf x "name") "未知因子" (f_name r)
  ∧ defaulted (fieldOf x "description") "无描述" (f_description r)
  ∧ defaulted (fieldOf x "type") "未分类" (f_type r).
Proof.
  unfold recordOf. destruct (is_null x); [discriminate|].
  destruct (ToString (orDefault (fieldOf x "name") "未知因子")) as [n|] eqn:Hn; [|discriminate].
  cbn -[ToString orDefault fieldOf].
  destruct (ToString (orDefault (fieldOf x "description") "无描述")) as [d|] eqn:Hd; [|discriminate].
  cbn -[ToString orDefault fieldOf].
  destruct (ToString (orDefault (fieldOf x "type") "未分类")) as [t|] eqn:Ht; [|discriminate].
  intros [= <-]. cbn [f_name f_description f_type].
  repeat split; apply defaulted_orDefault; assumption.
Qed.

(** C2 (amended). For every sequence-shaped [key_factors] whose elements
    are not [null] and have printable fields, the output is the rendering
    of one record per element, in order, and in each record name,
    description and type are the text of the element's field when that
    field is truthy and the placeholder 未知因子, 无描述, 未分类 when it is
    absent or falsy. *)
Theorem sequence_elements_defaulted elems :
  forallb mappable elems = true →
  ∃ records,
    keyFactorsHtml (Some (JArr elems)) = Ok (join_empty (map (recordHtml 16) records))
    ∧ Forall2 (λ e r,
        renderFactor 16 e = Ok (recordHtml 16 r)
        ∧ defaulted (fieldOf e "name") "未知因子" (f_name r)
        ∧ defaulted (fieldOf e "description") "无描述" (f_description r)
        ∧ defaulted (fieldOf e "type") "未分类" (f_type r)) elems records.
Proof.
  intros Hm. destruct (mapM_mappable _ Hm) as [records Hrecords].
  exists records. split.
  - rewrite keyFactorsHtml_normalize. cbn -[mapM]. rewrite Hrecords. reflexivity.
  - clear Hm. revert records Hrecords.
    induction elems as [|x rest IH]; intros records.
    + intros [= <-]. constructor.
    + cbn [mapM]. destruct (recordOf x) as [r|] eqn:Hr; [|discriminate].
      cbn -[mapM renderFactor].
      destruct (mapM recordOf rest) as [rs|]; [|discriminate].
      intros [= <-]. constructor; [|apply IH; reflexivity].
      split; [rewrite (renderFactor_recordOf 16 x), Hr; reflexivity|].
      apply recordOf_fields, Hr.
Qed.

(** ** updateStatus *)

Lemma filter_filter {A} (f g : A → bool) l :
  List.filter f (List.filter g l) = List.filter (λ x, g x && f x) l.
Proof.
  induction l as [|x l IH]; [reflexivity|].
  cbn [List.filter]. destruct (g x); cbn [List.filter andb]; [|exact IH].
  destruct (f x); [f_equal|]; exact IH.
Qed.

Lemma applyStatus_classList status el :
  classList (applyStatus status el)
  = classList_add (default "undefined" (table_get statusClasses status))
      (List.filter (λ c, negb (is_status_class c)) (classList el)).
Proof.
  unfold applyStatus. cbn [classList set_content set_classList]. f_equal.
  cbn [statusClasses map snd fold_left set_classList classList].
  unfold classList_remove. rewrite !filter_filter.
  apply List.filter_ext. intros c. unfold is_status_class.
  cbn [map snd statusClasses existsb].
  destruct (String.eqb c "bg-secondary"), (String.eqb c "bg-warning"),
    (String.eqb c "bg-success"), (String.eqb c "bg-danger"); reflexivity.
Qed.

Lemma filter_none {A} (f : A → bool) l :
  (∀ x, In x l → f x = false) → List.filter f l = [].
Proof.
  induction l as [|x l IH]; [reflexivity|]. intros H. cbn [List.filter].
  rewrite (H x (or_introl eq_refl)). apply IH. intros y Hy. apply H. right. exact Hy.
Qed.

Lemma status_class_eqb c cls :
  is_status_class cls = true → is_status_class c = false → String.eqb cls c = false.
Proof.
  intros Hcls Hc. destruct (String.eqb cls c) eqn:E; [|reflexivity].
  apply String.eqb_eq in E. subst c. congruence.
Qed.

Lemma classList_add_fresh cls l :
  is_status_class cls = true →
  classList_add cls (List.filter (λ c, negb (is_status_class c)) l)
  = List.filter (λ c, negb (is_status_class c)) l ++ [cls].
Proof.
  intros Hcls. unfold classList_add.
  replace (existsb (String.eqb cls) (List.filter (λ c, negb (is_status_class c)) l))
    with false; [reflexivity|].
  symmetry. apply not_true_is_false. intros H.
  apply existsb_exists in H as (c & Hin & Heq).
  apply List.filter_In in Hin as [_ Hc]. apply negb_true_iff in Hc.
  rewrite (status_class_eqb _ _ Hcls Hc) in Heq. discriminate Heq.
Qed.

Lemma applyStatus_fields status el :
  applyStatus status el
  = mkElement (classList (applyStatus status el))
              (Text (default EmptyString (table_get statusTexts status)))
              (disabled el) (display el) (value el) (files el) (options el).
Proof. destruct el. reflexivity. Qed.

(** After [applyStatus] the classes are the classes that are no status
    class, in their order, and then the class of the status. *)
Lemma applyStatus_classes status cls el :
  table_get statusClasses status = Some cls →
  is_status_class cls = true →
  classList (applyStatus status el)
  = List.filter (λ c, negb (is_status_class c)) (classList el) ++ [cls].
Proof.
  intros Hget Hcls. rewrite applyStatus_classList, Hget. cbn [default].
  apply classList_add_fresh, Hcls.
Qed.

Lemma applyStatus_idempotent status cls el :
  table_get statusClasses status = Some cls →
  is_status_class cls = true →
  applyStatus status (applyStatus status el) = applyStatus status el.
Proof.
  intros Hget Hcls.
  pose proof (applyStatus_classes _ _ el Hget Hcls) as H1.
  pose proof (applyStatus_classes _ _ (applyStatus status el) Hget Hcls) as H2.
  rewrite H1, List.filter_app, filter_filter in H2. cbn [List.filter] in H2.
  rewrite Hcls in H2. cbn [negb] in H2. rewrite app_nil_r in H2.
  rewrite (List.filter_ext _ (λ c, negb (is_status_class c))) in H2
    by (intros c; destruct (is_status_class c); reflexivity).
  rewrite (applyStatus_fields status (applyStatus status el)), H2, <- H1.
  rewrite (applyStatus_fields status el) at 2 3 4 5 6 7.
  cbn [disabled display value files options]. reflexivity.
Qed.

Lemma status_in_table status :
  In status (map fst statusClasses) →
  ∃ cls, table_get statusClasses status = Some cls ∧ is_status_class cls = true.
Proof.
  cbn. intros [<-|[<-|[<-|[<-|[]]]]]; eexists; split; reflexivity.
Qed.

(** C9. For a status of the table and a step whose status element exists,
    [updateStatus] leaves exactly one status class active, the class of the
    status: every other status class is gone from the element and the
    classes that are no status class stay; a second call with the same step
    and status changes nothing. *)
Theorem updateStatus_exclusive_idempotent step status s el :
  In status (map fst statusClasses) →
  dom s !! (step +:+ "Status") = Some el →
  ∃ cls s' el',
    table_get statusClasses status = Some cls
    ∧ updateStatus step status s = (Ok tt, s')
    ∧ dom s' !! (step +:+ "Status") = Some el'
    ∧ activeClasses el' = [cls]
    ∧ (∀ c, is_status_class c = true → c ≠ cls → ¬ In c (classList el'))
    ∧ (∀ c, is_status_class c = false → In c (classList el') ↔ In c (classList el))
    ∧ updateStatus step status s' = (Ok tt, s').
Proof.
  intros Hstatus Hel.
  destruct (status_in_table _ Hstatus) as (cls & Hget & Hcls).
  pose proof (applyStatus_classes _ _ el Hget Hcls) as Hclasses.
  exists cls, (set_dom (<[step +:+ "Status" := applyStatus status el]> (dom s)) s),
    (applyStatus status el).
  split; [exact Hget|]. split; [unfold updateStatus, withElement; rewrite Hel; reflexivity|].
  split; [cbn [dom set_dom]; apply lookup_insert_eq|].
  split; [|split; [|split]].
  - unfold activeClasses. rewrite Hclasses, List.filter_app, filter_filter.
    cbn [List.filter]. rewrite Hcls.
    rewrite filter_none; [reflexivity|].
    intros c _. destruct (is_status_class c); reflexivity.
  - intros c Hc Hne Hin. rewrite Hclasses in Hin.
    apply in_app_or in Hin as [Hin|[->|[]]]; [|congruence].
    apply List.filter_In in Hin as [_ Hn]. rewrite Hc in Hn. discriminate Hn.
  - intros c Hc. rewrite Hclasses. split.
    + intros Hin. apply in_app_or in Hin as [Hin|[<-|[]]]; [|congruence].
      apply List.filter_In in Hin as [Hin _]. exact Hin.
    + intros Hin. apply in_or_app. left. apply List.filter_In. rewrite Hc. auto.
  - unfold updateStatus, withElement. cbn [dom set_dom].
    rewrite lookup_insert_eq, (applyStatus_idempotent _ _ _ Hget Hcls), insert_insert_eq.
    reflexivity.
Qed.

(** ** Reasoning about handlers *)

Section Rules.
Context {A B : Type}.
Implicit Types (Q : A → State → Prop) (E : exn → State → Prop).

Lemma wp_ret (a : A) Q E s : Q a s → wp (mret a) Q E s.
Proof. intros H. exact H. Qed.

Lemma wp_throw (e : exn) Q E s : E e s → wp (throw e) Q E s.
Proof. intros H. exact H. Qed.

Lemma wp_gets (f : State → A) Q E s : Q (f s) s → wp (gets f) Q E s.
Proof. intros H. exact H. Qed.

Lemma wp_lift (r : Res A) Q E s :
  match r with Ok a => Q a s | Throw e => E e s end → wp (lift r) Q E s.
Proof. unfold wp, lift. destruct r; intros H; exact H. Qed.

Lemma wp_bind (m : M A) (f : A → M B) (Q : B → State → Prop) E s :
  wp m (λ a, wp (f a) Q E) E s → wp (m ≫= f) Q E s.
Proof.
  unfold wp, mbind, M_bind. destruct (m s) as [[a|e] s']; intros H; exact H.
Qed.

Lemma wp_try_catch (body : M A) (handler : exn → M A) Q E s :
  wp body Q (λ e, wp (handler e) Q E) s → wp (try_catch body handler) Q E s.
Proof.
  unfold wp, try_catch. destruct (body s) as [[a|e] s']; intros H; exact H.
Qed.

Lemma wp_try_finally (body : M A) (fin : M unit) Q E s :
  wp body (λ a, wp fin (λ _, Q a) E) (λ e, wp fin (λ _, E e) E) s →
  wp (try_finally body fin) Q E s.
Proof.
  unfold wp, try_finally. destruct (body s) as [[a|e] s'];
    destruct (fin s') as [[[]|e'] s'']; intros H; exact H.
Qed.

Lemma wp_mono (m : M A) Q Q' E E' s :
  wp m Q E s → (∀ a s', Q a s' → Q' a s') → (∀ e s', E e s' → E' e s') →
  wp m Q' E' s.
Proof.
  unfold wp. destruct (m s) as [[a|e] s']; intros H HQ HE; [apply HQ|apply HE]; exact H.
Qed.

(** A handler that preserves [R] ends in a state related to the start. *)
Lemma wp_preserves (R : relation State) (m : M A) Q E s :
  preserves R m →
  (∀ s', R s s' → (∀ a, Q a s') ∧ (∀ e, E e s')) →
  wp m Q E s.
Proof.
  intros Hm H. specialize (Hm s). specialize (H _ Hm).
  unfold wp. destruct (m s) as [[a|e] s']; apply H.
Qed.

Context (R : relation State) `{!PreOrder R}.

Lemma preserves_ret (a : A) : preserves R (mret a).
Proof. intros s. reflexivity. Qed.

Lemma preserves_throw (e : exn) : preserves R (throw e : M A).
Proof. intros s. reflexivity. Qed.

Lemma preserves_lift (r : Res A) : preserves R (lift r).
Proof. intros s. reflexivity. Qed.

Lemma preserves_gets (f : State → A) : preserves R (gets f).
Proof. intros s. reflexivity. Qed.

Lemma preserves_bind (m : M A) (f : A → M B) :
  preserves R m → (∀ a, preserves R (f a)) → preserves R (m ≫= f).
Proof.
  intros Hm Hf s. specialize (Hm s). unfold mbind, M_bind.
  destruct (m s) as [[a|e] s']; [|exact Hm].
  etransitivity; [exact Hm|apply Hf].
Qed.

Lemma preserves_try_catch (body : M A) (handler : exn → M A) :
  preserves R body → (∀ e, preserves R (handler e)) →
  preserves R (try_catch body handler).
Proof.
  intros Hb Hh s. specialize (Hb s). unfold try_catch.
  destruct (body s) as [[a|e] s']; [exact Hb|].
  etransitivity; [exact Hb|apply Hh].
Qed.

Lemma preserves_try_finally (body : M A) (fin : M unit) :
  preserves R body → preserves R fin → preserves R (try_finally body fin).
Proof.
  intros Hb Hf s. specialize (Hb s). unfold try_finally.
  destruct (body s) as [r s']. specialize (Hf s').
  destruct (fin s') as [[[]|e] s'']; (etransitivity; [exact Hb|exact Hf]).
Qed.

End Rules.

Create HintDb frame discriminated.

Section Primitives.
Context (R : relation State) `{!PreOrder R}.

Lemma preserves_modify_trace `{!TraceFrame R} (t : State → list Event) :
  preserves R (modify (λ s, set_trace (t s) s)).
Proof. intros s. apply trace_frame. Qed.

Lemma preserves_emit `{!TraceFrame R} e : preserves R (emit e).
Proof. intros s. apply trace_frame. Qed.

Lemma preserves_alert `{!TraceFrame R} msg : preserves R (alert msg).
Proof. apply preserves_emit. Qed.

Lemma preserves_set_markdown `{!GlobalsFrame R} v :
  preserves R (modify (set_currentMarkdownContent v)).
Proof. intros s. exact (proj1 (globals_frame s v)). Qed.

Lemma preserves_set_info `{!GlobalsFrame R} v :
  preserves R (modify (set_currentExtractedInfo v)).
Proof. intros s. exact (proj1 (proj2 (globals_frame s v))). Qed.

Lemma preserves_set_code `{!GlobalsFrame R} v :
  preserves R (modify (set_currentFactorCode v)).
Proof. intros s. exact (proj2 (proj2 (globals_frame s v))). Qed.

Lemma preserves_set_modal `{!LibraryFrame R} b : preserves R (modify (set_modal b)).
Proof. intros s. exact (proj2 (proj2 (library_frame s)) b). Qed.

Lemma preserves_set_backtestChart `{!LibraryFrame R} b :
  preserves R (modify (set_backtestChart b)).
Proof. intros s. exact (proj1 (proj2 (library_frame s)) b). Qed.

Lemma preserves_Chart_destroy `{!LibraryFrame R} id : preserves R (Chart_destroy id).
Proof. intros s. exact (proj1 (library_frame s) _ _). Qed.

Lemma preserves_Chart_new `{!LibraryFrame R} canvas config :
  preserves R (Chart_new canvas config).
Proof. intros s. exact (proj1 (library_frame s) _ _). Qed.

Lemma preserves_getElementById id : preserves R (getElementById id).
Proof. apply preserves_gets; assumption. Qed.

Lemma preserves_readValue id : preserves R (readValue id).
Proof.
  intros s. unfold readValue, getElementById, gets, mbind, M_bind.
  destruct (dom s !! id); reflexivity.
Qed.

Lemma preserves_withElement `{!ContentFrame R} id f :
  (∀ el, classList (f el) = classList el) → preserves R (withElement id f).
Proof.
  intros Hf s. unfold withElement. destruct (dom s !! id) as [el|] eqn:Hel;
    [|reflexivity].
  apply content_frame; [exact Hel|apply Hf].
Qed.

Lemma preserves_whenElement `{!ContentFrame R} id f :
  (∀ el, classList (f el) = classList el) → preserves R (whenElement id f).
Proof.
  intros Hf s. unfold whenElement. destruct (dom s !! id) as [el|] eqn:Hel;
    [|reflexivity].
  apply content_frame; [exact Hel|apply Hf].
Qed.

Lemma preserves_updateStatus step status `{!StatusFrame R step status} :
  preserves R (updateStatus step status).
Proof.
  intros s. unfold updateStatus, withElement.
  destruct (dom s !! (step +:+ "Status")) as [el|] eqn:Hel; [|reflexivity].
  apply status_frame, Hel.
Qed.

Lemma preserves_setLoading `{!LoadingFrame R} d context :
  preserves R (setLoading d context).
Proof. intros s. apply loading_frame. Qed.

Lemma preserves_showLoading `{!LoadingFrame R} context :
  preserves R (showLoading context).
Proof. apply preserves_setLoading. Qed.

Lemma preserves_hideLoading `{!LoadingFrame R} context :
  preserves R (hideLoading context).
Proof. apply preserves_setLoading. Qed.

Lemma preserves_toggleButton `{!ContentFrame R} id enabled :
  preserves R (toggleButton id enabled).
Proof. apply preserves_whenElement. reflexivity. Qed.

Lemma preserves_toggleInputs `{!ContentFrame R} ids enabled :
  preserves R (toggleInputs ids enabled).
Proof.
  induction ids as [|id ids IH]; [apply preserves_ret; assumption|].
  cbn [toggleInputs]. apply preserves_bind; [assumption| |intros _; exact IH].
  apply preserves_whenElement. reflexivity.
Qed.

Lemma preserves_showResult `{!ContentFrame R} id : preserves R (showResult id).
Proof. apply preserves_whenElement. reflexivity. Qed.

Lemma preserves_setInnerHTML `{!ContentFrame R} id html :
  preserves R (setInnerHTML id html).
Proof. apply preserves_withElement. reflexivity. Qed.

Lemma preserves_assignString_of id v f :
  (∀ text, preserves R (withElement id (f text))) → preserves R (assignString id v f).
Proof.
  intros Hf s. unfold assignString, getElementById, gets, lift, mbind, M_bind.
  destruct (dom s !! id) as [el|] eqn:Hel; [|reflexivity].
  destruct v as [text|e]; [|reflexivity]. apply Hf.
Qed.

Lemma preserves_assignString `{!ContentFrame R} id v f :
  (∀ text el, classList (f text el) = classList el) → preserves R (assignString id v f).
Proof.
  intros Hf. apply preserves_assignString_of. intros text.
  apply preserves_withElement. intros el. apply Hf.
Qed.

Lemma preserves_setTextContent `{!ContentFrame R} id v :
  preserves R (setTextContent id v).
Proof. apply preserves_assignString. reflexivity. Qed.

Lemma preserves_await o : preserves R (await o).
Proof. intros s. destruct o; reflexivity. Qed.

End Primitives.

#[local] Hint Resolve preserves_ret preserves_throw preserves_lift preserves_gets
  preserves_emit preserves_alert preserves_set_markdown preserves_set_info
  preserves_set_code preserves_set_modal preserves_set_backtestChart
  preserves_Chart_destroy preserves_Chart_new preserves_getElementById
  preserves_readValue preserves_updateStatus preserves_showLoading
  preserves_hideLoading preserves_toggleButton preserves_toggleInputs
  preserves_showResult preserves_setInnerHTML preserves_setTextContent
  preserves_await : frame.

(** Splits a handler along its control flow and closes the primitives. *)
Ltac frame :=
  repeat first
    [ progress intros
    | apply preserves_bind; [typeclasses eauto| |]
    | apply preserves_try_catch; [typeclasses eauto| |]
    | apply preserves_try_finally; [typeclasses eauto| |]
    | solve [eauto with frame typeclass_instances]
    | apply preserves_withElement; [typeclasses eauto..|intros ?; reflexivity]
    | apply preserves_assignString; [typeclasses eauto..|intros ? ?; reflexivity]
    | match goal with
      | |- preserves _ (if ?b then _ else _) => destruct b
      | |- preserves _ (match ?x with _ => _ end) => destruct x
      end ].

Section Handlers.
Context (R : relation State) `{!PageFrame R}.

Lemma preserves_displayExtractionResults info :
  preserves R (displayExtractionResults info).
Proof. unfold displayExtractionResults. frame. Qed.

Lemma preserves_drawReturnsChart data : preserves R (drawReturnsChart data).
Proof. unfold drawReturnsChart. frame. Qed.

Lemma preserves_displayBacktestResults results :
  preserves R (displayBacktestResults results).
Proof.
  unfold displayBacktestResults. frame.
Qed.

Lemma preserves_begin op `{!StatusFrame R (stepOf op) "processing"} :
  preserves R (begin op).
Proof.
  destruct op; cbn [begin stepOf] in *;
    unfold uploadPDF_begin, extractContent_begin, generateFactor_begin, runBacktest_begin;
    frame.
Qed.

Lemma preserves_resume op o `{!GlobalsFrame R}
    `{!StatusFrame R (stepOf op) "success"} `{!StatusFrame R (stepOf op) "error"} :
  preserves R (resume op o).
Proof.
  destruct op; cbn [resume stepOf] in *;
    unfold uploadPDF_resume, extractContent_resume, generateFactor_resume,
      runBacktest_resume;
    frame.
Qed.

Lemma preserves_editCode : preserves R editCode.
Proof. unfold editCode. frame. Qed.

Lemma preserves_saveCode `{!GlobalsFrame R} : preserves R saveCode.
Proof. unfold saveCode. frame. Qed.

Lemma preserves_loadDatasets_begin : preserves R loadDatasets_begin.
Proof. unfold loadDatasets_begin. frame. Qed.

Lemma preserves_forEach (f : json → M unit) arr :
  (∀ x, preserves R (f x)) → preserves R (forEach f arr).
Proof.
  intros Hf. induction arr as [|x rest IH]; cbn [forEach]; [frame|].
  apply preserves_bind; [apply _|apply Hf|intros _; exact IH].
Qed.

Lemma preserves_loadDatasets_resume o : preserves R (loadDatasets_resume o).
Proof.
  unfold loadDatasets_resume. frame.
  apply preserves_forEach. intros x. unfold appendOption. frame.
Qed.

End Handlers.

(** ** Relations between the state before and after *)

#[local] Instance same_globals_preorder : PreOrder same_globals.
Proof.
  split.
  - intros s. repeat split.
  - intros s1 s2 s3 (H1 & H2 & H3) (H4 & H5 & H6). repeat split; congruence.
Qed.

#[local] Instance same_globals_page : PageFrame same_globals.
Proof.
  split; [apply _|..].
  - intros s t. repeat split.
  - intros s d context. unfold setLoading.
    destruct (loadingEach d context (loading s)). repeat split.
  - intros s. repeat split.
  - intros s id el f _ _. repeat split.
Qed.

#[local] Instance same_globals_status step status : StatusFrame same_globals step status.
Proof. repeat intro. repeat split. Qed.

Lemma loadingEach_headers d context els :
  map header (loadingEach d context els).1 = map header els.
Proof.
  induction els as [|el rest IH]; [reflexivity|]. cbn [loadingEach].
  destruct (header el) as [h|] eqn:Hh; [|reflexivity].
  destruct (loadingEach d context rest) as [rest' r]. cbn [fst map] in *.
  rewrite IH. f_equal. destruct (includes h (first_word context)); [|reflexivity].
  cbn [header]. congruence.
Qed.

#[local] Instance same_headers_preorder : PreOrder same_headers.
Proof.
  split; [intros s; reflexivity|].
  intros s1 s2 s3 H1 H2. unfold same_headers in *. congruence.
Qed.

#[local] Instance same_headers_page : PageFrame same_headers.
Proof.
  split; [apply _|..].
  - intros s t. reflexivity.
  - intros s d context. unfold same_headers, setLoading.
    pose proof (loadingEach_headers d context (loading s)) as H.
    destruct (loadingEach d context (loading s)) as [els r]. exact H.
  - intros s. repeat split.
  - intros s id el f _ _. reflexivity.
Qed.

#[local] Instance same_headers_globals : GlobalsFrame same_headers.
Proof. repeat intro. repeat split. Qed.

#[local] Instance same_headers_status step status : StatusFrame same_headers step status.
Proof. repeat intro. reflexivity. Qed.

Section DomRel.
Context (P : string → relation Element) `{!∀ id, PreOrder (P id)}.

Lemma dom_rel_same_dom s s' : dom s' = dom s → dom_rel P s s'.
Proof.
  intros Hd id. rewrite Hd. destruct (dom s !! id) as [el|]; [|reflexivity].
  exists el. split; reflexivity.
Qed.

Lemma dom_rel_insert s id el el' :
  dom s !! id = Some el → P id el el' →
  dom_rel P s (set_dom (<[id := el']> (dom s)) s).
Proof.
  intros Hel HP id'. cbn [dom set_dom].
  destruct (decide (id = id')) as [<-|Hne].
  - rewrite Hel, lookup_insert_eq. exists el'. split; [reflexivity|exact HP].
  - rewrite lookup_insert_ne by exact Hne.
    destruct (dom s !! id') as [el0|]; [|reflexivity].
    exists el0. split; reflexivity.
Qed.

#[local] Instance dom_rel_preorder : PreOrder (dom_rel P).
Proof.
  split.
  - intros s. apply dom_rel_same_dom. reflexivity.
  - intros s1 s2 s3 H12 H23 id. specialize (H12 id). specialize (H23 id).
    destruct (dom s1 !! id) as [el1|].
    + destruct H12 as (el2 & Hel2 & HP12). rewrite Hel2 in H23.
      destruct H23 as (el3 & Hel3 & HP23). exists el3.
      split; [exact Hel3|]. etransitivity; eassumption.
    + rewrite H12 in H23. exact H23.
Qed.

#[local] Instance dom_rel_page `{!ClassBlind P} : PageFrame (dom_rel P).
Proof.
  split; [apply _|..].
  - intros s t. apply dom_rel_same_dom. reflexivity.
  - intros s d context. apply dom_rel_same_dom. unfold setLoading.
    destruct (loadingEach d context (loading s)). reflexivity.
  - intros s. repeat split; intros; apply dom_rel_same_dom; reflexivity.
  - intros s id el f Hel Hf. apply (dom_rel_insert s id el (f el) Hel).
    apply class_blind, Hf.
Qed.

#[local] Instance dom_rel_globals : GlobalsFrame (dom_rel P).
Proof. intros s v. repeat split; apply dom_rel_same_dom; reflexivity. Qed.

#[local] Instance dom_rel_status step status `{!StatusStep P step status} :
  StatusFrame (dom_rel P) step status.
Proof.
  intros s el Hel. apply (dom_rel_insert s _ el _ Hel). apply status_step.
Qed.

End DomRel.

(** ** Failure leaves the pipeline state alone *)

Lemma wp_snd {A} (m : M A) (I : State → Prop) s :
  wp m (λ _, I) (λ _, I) s → I (snd (m s)).
Proof. unfold wp. destruct (m s) as [[a|e] s']; intros H; exact H. Qed.

(** The shape of the four asynchronous handlers after the request: on a
    failed outcome only [fail], [handler] and [fin] run. *)
Lemma failed_attempt (R : relation State) `{!PreOrder R}
    (succ fail : jsval → M unit) (handler : exn → M unit) (fin : M unit) o s :
  failed o = true →
  (∀ result, preserves R (fail result)) →
  (∀ e, preserves R (handler e)) →
  preserves R fin →
  R s (snd (try_finally
              (try_catch
                 (result ← await o;
                  success ← lift (getProp result "success");
                  if truthy success then succ result else fail result)
                 handler)
              fin s)).
Proof.
  intros Hfailed Hfail Hhandler Hfin.
  apply (wp_snd _ (R s)). apply wp_try_finally.
  assert (∀ s', R s s' → wp fin (λ _, R s) (λ _, R s) s') as Hafter.
  { intros s' Hs'. apply (wp_preserves R); [exact Hfin|].
    intros s'' Hs''. split; intros _; etransitivity; eassumption. }
  apply (wp_mono _ (λ _, R s) _ (λ _, R s));
    [|intros _ s' Hs'; apply Hafter, Hs'|intros _ s' Hs'; apply Hafter, Hs'].
  apply wp_try_catch.
  apply (wp_mono _ (λ _, R s) _ (λ _, R s)); [|intros _ s' Hs'; exact Hs'|].
  2:{ intros e s' Hs'. apply (wp_preserves R); [apply Hhandler|].
      intros s'' Hs''. split; intros _; etransitivity; eassumption. }
  apply wp_bind. destruct o as [e|result]; cbn [await].
  { apply wp_throw. reflexivity. }
  apply wp_ret, wp_bind, wp_lift. cbn [failed] in Hfailed.
  destruct (getProp (Some result) "success") as [success|e]; [|reflexivity].
  apply negb_true_iff in Hfailed. rewrite Hfailed.
  apply (wp_preserves R); [apply Hfail|].
  intros s' Hs'. split; intros _; exact Hs'.
Qed.

(** C10. For each of the four asynchronous operations, a backend call that
    fails (it throws, or the body's success flag is falsy) leaves
    documentContent, extractedInfo and generatedCode as they were: after the
    handler's second half from any state, and after the whole handler. The
    first half, up to the request, never assigns them. *)
Theorem failure_keeps_pipeline_state op o s :
  failed o = true →
  same_globals s (snd (begin op s))
  ∧ same_globals s (snd (resume op o s))
  ∧ same_globals s (snd (run op o s)).
Proof.
  intros Hfailed.
  assert (∀ s, same_globals s (snd (resume op o s))) as Hresume.
  { intros s0. destruct op; cbn [resume];
      unfold uploadPDF_resume, extractContent_resume, generateFactor_resume,
        runBacktest_resume;
      (apply (failed_attempt same_globals); [exact Hfailed|intros; frame..]). }
  assert (∀ s, same_globals s (snd (begin op s))) as Hbegin.
  { apply preserves_begin; apply _. }
  split; [apply Hbegin|]. split; [apply Hresume|].
  unfold run, mbind, M_bind. specialize (Hbegin s).
  destruct (begin op s) as [[[]|e] s']; cbn [snd] in *; [|exact Hbegin..].
  etransitivity; [exact Hbegin|apply Hresume].
Qed.

(** ** The loading affordance *)

Lemma loadingEach_completed d context els els' :
  loadingEach d context els = (els', None) →
  Forall (λ h, h ≠ None) (map header els').
Proof.
  revert els'. induction els as [|el rest IH]; intros els' H; cbn [loadingEach] in H.
  - injection H as <-. constructor.
  - destruct (header el) as [h|] eqn:Hh; [|discriminate H].
    destruct (loadingEach d context rest) as [rest' r] eqn:Hrest.
    injection H as <- ->. cbn [map]. constructor; [|apply IH; reflexivity].
    destruct (includes h (first_word context)); cbn [header]; congruence.
Qed.

Lemma loadingEach_sets d context els :
  Forall (λ h, h ≠ None) (map header els) →
  ∃ els', loadingEach d context els = (els', None)
    ∧ Forall (λ l, ∀ h, header l = Some h →
                   includes h (first_word context) = true → shown l = d) els'.
Proof.
  induction els as [|el rest IH]; intros H; cbn [loadingEach].
  - exists []. split; [reflexivity|constructor].
  - cbn [map] in H. apply Forall_cons in H as [Hel Hrest].
    destruct (IH Hrest) as (rest' & -> & Hall).
    destruct (header el) as [h|] eqn:Hh; [|congruence].
    eexists. split; [reflexivity|]. constructor; [|exact Hall].
    intros h' Hh' Hin. destruct (includes h (first_word context)) eqn:E.
    + reflexivity.
    + rewrite Hh in Hh'. injection Hh' as <-. congruence.
Qed.

Lemma hideLoading_clears context s :
  headers_ok s →
  ∃ s', hideLoading context s = (Ok tt, s') ∧ cleared context s'.
Proof.
  intros Hok. destruct (loadingEach_sets "none" context _ Hok) as (els & Hels & Hall).
  unfold hideLoading, setLoading. rewrite Hels.
  eexists. split; [reflexivity|exact Hall].
Qed.

Lemma finally_hideLoading {A} (body : M A) context s :
  preserves same_headers body → headers_ok s →
  cleared context (snd (try_finally body (hideLoading context) s)).
Proof.
  intros Hbody Hok. unfold try_finally. specialize (Hbody s).
  destruct (body s) as [r s1]. cbn [snd] in Hbody.
  assert (headers_ok s1) as Hok1 by (unfold headers_ok; rewrite Hbody; exact Hok).
  destruct (hideLoading_clears context s1 Hok1) as (s2 & -> & Hcleared).
  exact Hcleared.
Qed.

Lemma resume_shape op o :
  ∃ body, resume op o = try_finally body (hideLoading (contextOf op))
          ∧ preserves same_headers body.
Proof.
  destruct op; (eexists; split; [reflexivity|frame]).
Qed.

(** The first half of a handler that reaches its request: the status
    element exists and shows processing, [showLoading] went through every
    [.loading] element, and the request is the last effect. *)
Lemma begin_started op s s1 :
  begin op s = (Ok true, s1) →
  ∃ el els body url,
    dom s !! (stepOf op +:+ "Status") = Some el
    ∧ loadingEach "block" (contextOf op) (loading s) = (els, None)
    ∧ s1 = set_trace (trace s ++ [Fetch url "POST" body])
             (set_loading els
                (set_dom (<[stepOf op +:+ "Status" := applyStatus "processing" el]> (dom s)) s)).
Proof.
  intros H. destruct op; cbn [begin stepOf contextOf] in *;
    unfold uploadPDF_begin, extractContent_begin, generateFactor_begin, runBacktest_begin,
      readValue, getElementById, alert, emit, updateStatus, withElement, showLoading,
      setLoading, gets, modify, throw, mbind, M_bind, mret, M_ret in H;
    repeat case_match; simplify_eq;
    repeat eexists; eauto.
Qed.

(** C5. For each of the four asynchronous operations: once its first half
    has passed the precondition check and shown the loading affordance, the
    second half ends with the loading elements of its card hidden, whatever
    the backend's outcome (a rejection, a body that reports failure, a body
    that reports success) and whatever the handler then returns or throws;
    this holds from every state that kept the cards of the loading elements,
    in particular right after the first half. *)
Theorem loading_cleared_on_every_path op o s s1 s2 :
  begin op s = (Ok true, s1) →
  same_headers s1 s2 →
  cleared (contextOf op) (snd (resume op o s2))
  ∧ cleared (contextOf op) (snd (run op o s)).
Proof.
  intros Hbegin Hsame.
  destruct (begin_started _ _ _ Hbegin) as (el & els & body & url & _ & Hels & ->).
  apply loadingEach_completed in Hels.
  destruct (resume_shape op o) as (attempt & -> & Hattempt).
  split.
  - apply finally_hideLoading; [exact Hattempt|].
    unfold headers_ok. rewrite Hsame. exact Hels.
  - unfold run, mbind, M_bind. rewrite Hbegin.
    destruct (resume_shape op o) as (attempt' & -> & Hattempt').
    apply finally_hideLoading; [exact Hattempt'|exact Hels].
Qed.

(** ** runBacktest: the precondition checks *)

(** C4. Invoked with no generated code, or with code and no dataset
    selected, runBacktest returns before any request: its only effect is
    one alert, with the message of the missing precondition (the two
    messages differ); no fetch is issued, the document (so every step's
    status) and the loading elements are unchanged, and the handler's second
    half never runs. *)
Theorem runBacktest_refuses r s :
  refused r s →
  runBacktest_begin s = (Ok false, set_trace (trace s ++ [Alert (refusalMessage r)]) s)
  ∧ (∀ o, run Backtest o s
          = (Ok tt, set_trace (trace s ++ [Alert (refusalMessage r)]) s))
  ∧ dom (snd (runBacktest_begin s)) = dom s
  ∧ loading (snd (runBacktest_begin s)) = loading s
  ∧ refusalMessage NoCode ≠ refusalMessage NoDataset.
Proof.
  intros Hr.
  assert (runBacktest_begin s
          = (Ok false, set_trace (trace s ++ [Alert (refusalMessage r)]) s)) as Heq.
  { destruct r; cbn [refused refusalMessage] in *.
    - unfold runBacktest_begin, gets, mbind, M_bind. rewrite Hr. reflexivity.
    - destruct Hr as (Hcode & (select & Hsel & Hval) & [start Hstart] & [end_ Hend]).
      unfold runBacktest_begin, readValue, getElementById, gets, mbind, M_bind.
      rewrite Hcode. cbn [negb fst snd]. rewrite Hsel. cbn [mret M_ret].
      rewrite Hstart. cbn [mret M_ret]. rewrite Hend, Hval. reflexivity. }
  split; [exact Heq|]. split; [|rewrite Heq; repeat split; discriminate].
  intros o. unfold run, mbind, M_bind. cbn [begin]. rewrite Heq. reflexivity.
Qed.

(** ** The chart *)

Lemma getProp_value v k : nullish v = false → getProp v k = Ok (getPropOpt v k).
Proof. destruct v as [[]|]; intros H; try discriminate H; reflexivity. Qed.

Lemma drawReturnsChart_renders data s :
  nullish data = false →
  is_Some (dom s !! "returnsChart") →
  drawReturnsChart data s
  = (Ok tt,
     set_backtestChart (Some (nextChart s))
       (set_charts (afterDestroy s ++ [mkChart (nextChart s) "returnsChart" (configOf data)])
                   (S (nextChart s)) s)).
Proof.
  intros Hdata [canvas Hcanvas].
  unfold drawReturnsChart, getElementById, gets, mbind, M_bind. rewrite Hcanvas.
  unfold lift. rewrite !(getProp_value _ _ Hdata). unfold afterDestroy, configOf.
  destruct (backtestChart s) as [old|]; reflexivity.
Qed.

Lemma drawReturnsChart_throws data s :
  nullish data = true →
  ∃ e, drawReturnsChart data s
       = (Throw e, match dom s !! "returnsChart" with
                   | Some _ => set_charts (afterDestroy s) (nextChart s) s
                   | None => s
                   end).
Proof.
  intros Hdata. unfold drawReturnsChart, getElementById, gets, mbind, M_bind, afterDestroy.
  destruct (dom s !! "returnsChart") as [canvas|]; [|eexists; reflexivity].
  destruct data as [[]|]; try discriminate Hdata;
    destruct (backtestChart s) as [old|]; eexists; destruct s; reflexivity.
Qed.

Lemma afterDestroy_empty s : chart_inv s → afterDestroy s = [].
Proof.
  intros [Hinv _]. unfold afterDestroy. destruct (backtestChart s) as [old|] eqn:Hold.
  - apply filter_none. intros c Hc. destruct (Hinv c Hc) as [Heq _].
    injection Heq as ->. rewrite Nat.eqb_refl. reflexivity.
  - destruct (charts s) as [|c l] eqn:Hcharts; [reflexivity|].
    destruct (Hinv c (or_introl eq_refl)) as [Heq _]. discriminate Heq.
Qed.

Lemma render_one data s :
  chart_inv s → nullish data = false → is_Some (dom s !! "returnsChart") →
  ∃ s', drawReturnsChart data s = (Ok tt, s')
    ∧ charts s' = [mkChart (nextChart s) "returnsChart" (configOf data)]
    ∧ backtestChart s' = Some (nextChart s)
    ∧ chart_inv s'.
Proof.
  intros Hinv Hdata Hcanvas. eexists. split; [apply drawReturnsChart_renders; assumption|].
  cbn [charts backtestChart nextChart dom set_backtestChart set_charts].
  rewrite (afterDestroy_empty _ Hinv). repeat split; [| |cbn; lia].
  - destruct H as [<-|[]]. reflexivity.
  - destruct H as [<-|[]]. cbn. lia.
Qed.

Lemma drawReturnsChart_dom data s : dom (snd (drawReturnsChart data s)) = dom s.
Proof.
  destruct (dom s !! "returnsChart") as [canvas|] eqn:Hcanvas.
  - destruct (nullish data) eqn:Hdata.
    + destruct (drawReturnsChart_throws data s Hdata) as (e & ->).
      rewrite Hcanvas. reflexivity.
    + rewrite drawReturnsChart_renders; [reflexivity|exact Hdata|].
      rewrite Hcanvas. eexists. reflexivity.
  - unfold drawReturnsChart, getElementById, gets, mbind, M_bind. rewrite Hcanvas.
    reflexivity.
Qed.

(** Whatever it is given, an invocation leaves at most one live chart. *)
Lemma renderer_never_leaks data s :
  chart_inv s → chart_inv (snd (drawReturnsChart data s)).
Proof.
  intros Hinv. destruct (dom s !! "returnsChart") as [canvas|] eqn:Hcanvas.
  - destruct (nullish data) eqn:Hdata.
    + destruct (drawReturnsChart_throws data s Hdata) as (e & ->).
      rewrite Hcanvas. cbn [snd]. unfold chart_inv.
      cbn [charts set_charts]. rewrite (afterDestroy_empty _ Hinv).
      split; [intros c []|cbn; lia].
    + destruct (render_one data s Hinv Hdata) as (s' & -> & _ & _ & Hinv');
        [rewrite Hcanvas; eexists; reflexivity|].
      exact Hinv'.
  - unfold drawReturnsChart, getElementById, gets, mbind, M_bind. rewrite Hcanvas.
    exact Hinv.
Qed.

Lemma renderEach_inv datas s :
  chart_inv s →
  chart_inv (renderEach datas s) ∧ dom (renderEach datas s) = dom s.
Proof.
  revert s. induction datas as [|data rest IH]; intros s Hinv; [split; auto|].
  cbn [renderEach fold_left].
  destruct (IH _ (renderer_never_leaks data s Hinv)) as [Hinv' Hdom].
  split; [exact Hinv'|]. unfold renderEach in Hdom. rewrite Hdom. apply drawReturnsChart_dom.
Qed.

Lemma renderEach_app datas last s :
  renderEach (datas ++ [last]) s = snd (drawReturnsChart last (renderEach datas s)).
Proof. unfold renderEach. rewrite fold_left_app. reflexivity. Qed.

(** C6. On a page with the canvas and a state where the only live chart,
    if any, is the one the global refers to (as at page load), after any
    number of invocations of the renderer, with whatever data, at most one
    chart is alive; and an invocation given a cumulative-returns value
    destroys the chart that was alive before it creates the new one, so that
    after it exactly one chart is attached, the new one. *)
Theorem render_leaves_one_chart datas last s :
  chart_inv s →
  is_Some (dom s !! "returnsChart") →
  nullish last = false →
  (length (charts (renderEach datas s)) ≤ 1)%nat
  ∧ ∃ c,
      charts (renderEach (datas ++ [last]) s) = [c]
      ∧ backtestChart (renderEach (datas ++ [last]) s) = Some (chart_id c)
      ∧ chart_canvas c = "returnsChart"
      ∧ chart_config c = configOf last
      ∧ ∀ old, In old (charts (renderEach datas s)) → chart_id old ≠ chart_id c.
Proof.
  intros Hinv Hcanvas Hlast.
  destruct (renderEach_inv datas s Hinv) as [Hinv' Hdom].
  split; [apply Hinv'|].
  rewrite <- Hdom in Hcanvas.
  destruct (render_one last _ Hinv' Hlast Hcanvas) as (s' & Hrun & Hcharts & Hbt & _).
  rewrite renderEach_app, Hrun. cbn [snd].
  eexists. split; [exact Hcharts|]. split; [exact Hbt|].
  repeat split. intros old Hold. cbn [chart_id].
  destruct Hinv' as [Hlive _]. destruct (Hlive old Hold) as [_ Hlt]. lia.
Qed.

(** ** Multiplication by one hundred *)

Section Rounding.

#[local] Open Scope Z_scope.

Lemma iter_pos_nat {A} (f : A → A) p x :
  SpecFloat.iter_pos f p x = Nat.iter (Pos.to_nat p) f x.
Proof.
  revert x. induction p as [p IH|p IH|]; intros x; cbn [SpecFloat.iter_pos].
  - rewrite !IH, Pos2Nat.inj_xI, <- Nat.iter_add, <- Nat.iter_succ_r. f_equal. lia.
  - rewrite !IH, Pos2Nat.inj_xO, <- Nat.iter_add. f_equal. lia.
  - reflexivity.
Qed.

Lemma shifted_start m0 : 0 ≤ m0 → shifted m0 0 {| shr_m := m0; shr_r := false; shr_s := false |}.
Proof. intros H. split; [exact H|]. exists 0. cbn. lia. Qed.

Lemma shifted_step m0 k mrs : 0 ≤ k → shifted m0 k mrs → shifted m0 (k + 1) (shr_1 mrs).
Proof.
  intros Hk (Hm & rem & Hm0 & Hrem & Hloc).
  assert (0 < 2 ^ k) as Hpow by (apply Z.pow_pos_nonneg; lia).
  assert (2 ^ (k + 1) = 2 * 2 ^ k) as Hsucc by (rewrite Z.pow_add_r by lia; lia).
  destruct mrs as [m r s]. cbv [shr_m shr_r shr_s] in *.
  destruct m as [|[p|p|]|p]; try lia; cbv [shifted shr_1 shr_m shr_r shr_s]; (split; [lia|]).
  - exists rem. rewrite Hsucc. destruct r, s; cbn [orb]; lia.
  - exists (2 ^ k + rem). rewrite Hsucc.
    split; [rewrite Hm0, (Pos2Z.inj_xI p); ring|]. destruct r, s; cbn [orb]; lia.
  - exists rem. rewrite Hsucc.
    split; [rewrite Hm0, (Pos2Z.inj_xO p); ring|]. destruct r, s; cbn [orb]; lia.
  - exists (2 ^ k + rem). rewrite Hsucc.
    split; [rewrite Hm0; ring|]. destruct r, s; cbn [orb]; lia.
Qed.

Lemma shifted_iter m0 n k mrs :
  0 ≤ k → shifted m0 k mrs → shifted m0 (k + Z.of_nat n) (Nat.iter n shr_1 mrs).
Proof.
  intros Hk H. induction n as [|n IH].
  - rewrite Z.add_0_r. exact H.
  - cbn [Nat.iter]. replace (k + Z.of_nat (S n)) with (k + Z.of_nat n + 1) by lia.
    apply shifted_step; [lia|exact IH].
Qed.

Lemma shr_shifted m0 e n :
  0 ≤ m0 →
  ∃ mrs, shr {| shr_m := m0; shr_r := false; shr_s := false |} e n = (mrs, e + Z.max n 0)
         ∧ shifted m0 (Z.max n 0) mrs.
Proof.
  intros Hm0. destruct n as [|p|p]; cbn [shr].
  - eexists. split; [rewrite Z.add_0_r; reflexivity|apply shifted_start, Hm0].
  - eexists. split; [f_equal; lia|].
    rewrite iter_pos_nat. replace (Z.max (Z.pos p) 0) with (0 + Z.of_nat (Pos.to_nat p)) by lia.
    apply shifted_iter; [lia|apply shifted_start, Hm0].
  - eexists. split; [f_equal; lia|apply shifted_start, Hm0].
Qed.

(** Rounding to nearest moves the quotient by at most one and the value by
    at most half a unit. *)
Lemma round_nearest_shifted m0 k mrs :
  0 ≤ k → shifted m0 k mrs →
  let m := round_nearest_even (shr_m mrs) (loc_of_shr_record mrs) in
  shr_m mrs ≤ m ≤ shr_m mrs + 1 ∧ 2 * Z.abs (m * 2 ^ k - m0) ≤ 2 ^ k.
Proof.
  intros Hk (Hm & rem & Hm0 & Hrem & Hloc). destruct mrs as [m r s].
  cbv [shr_m shr_r shr_s] in *.
  destruct r, s; cbv [loc_of_shr_record round_nearest_even shr_m];
    try destruct (Z.even m); split; nia.
Qed.

Lemma digits2_size p : digits2_pos p = Pos.size p.
Proof. induction p as [p IH|p IH|]; cbn; congruence. Qed.

Lemma digits2_bounds p :
  2 ^ (Z.pos (digits2_pos p) - 1) ≤ Z.pos p < 2 ^ Z.pos (digits2_pos p).
Proof.
  rewrite digits2_size. split.
  - pose proof (Pos.size_le p) as H.
    assert (2 ^ Z.pos (Pos.size p) ≤ 2 * Z.pos p) as H'.
    { rewrite <- Pos2Z.inj_pow. change (2 * Z.pos p) with (Z.pos p~0). lia. }
    replace (Z.pos (Pos.size p)) with (Z.pos (Pos.size p) - 1 + 1) in H' by lia.
    rewrite Z.pow_add_r in H' by lia. lia.
  - pose proof (Pos.size_gt p) as H. rewrite <- Pos2Z.inj_pow. lia.
Qed.

(** The product of a binary64 number and one hundred is the nearest
    binary64 number: its exponent is that of the exact product raised by
    the [d] bits dropped, its mantissa has 53 bits (fewer for a subnormal
    number) and is within half a unit of the exact mantissa. *)
Lemma Number_mul_hundred sign m e :
  valid_binary prec emax (S754_finite sign m e) = true →
  ∃ m' d,
    0 ≤ d
    ∧ Z.pos m' < 2 ^ 53
    ∧ (2 ^ 52 ≤ Z.pos m' ∨ e - 46 + d = -1074)
    ∧ 2 * Z.abs (Z.pos m' * 2 ^ d - 100 * 2 ^ 46 * Z.pos m) ≤ 2 ^ d
    ∧ Number_mul (S754_finite sign m e) hundred
      = if e - 46 + d <=? 971 then S754_finite sign m' (e - 46 + d)
        else S754_infinity sign.
Proof.
  intros Hvalid. cbn [valid_binary] in Hvalid. unfold bounded, canonical_mantissa in Hvalid.
  apply andb_prop in Hvalid as [Hcanon _]. apply Z.eqb_eq in Hcanon.
  assert (-1074 ≤ e) as He by (unfold fexp, emin, prec, emax in Hcanon; lia).
  clear Hcanon.
  unfold Number_mul, hundred, SFmul. rewrite xorb_false_r.
  unfold binary_round_aux, shr_fexp. cbn [shr_record_of_loc].
  set (E := e + -46).
  pose proof (digits2_bounds (m * 7036874417766400)) as HD.
  cbn [Zdigits2]. set (D := Z.pos (digits2_pos (m * 7036874417766400))) in *.
  set (M := Z.pos (m * 7036874417766400)) in *.
  assert (M = 100 * 2 ^ 46 * Z.pos m) as HM
    by (unfold M; rewrite Pos2Z.inj_mul; change (2 ^ 46) with 70368744177664; lia).
  assert (2 ^ 52 ≤ M) as HM52 by (rewrite HM; change (2 ^ 52) with (64 * 2 ^ 46); lia).
  assert (53 ≤ D) as HD53.
  { assert (52 < D); [|lia]. apply (Z.pow_lt_mono_r_iff 2); lia. }
  set (n1 := fexp prec emax (D + E) - E).
  assert (0 ≤ n1 ∧ (n1 = D - 53 ∨ (E + n1 = -1074 ∧ n1 ≤ 46 ∧ D - 53 ≤ n1))) as [Hn1 Hcase]
    by (unfold n1, fexp, emin, prec, emax, E; lia).
  destruct (shr_shifted M E n1 ltac:(lia)) as (mrs1 & -> & Hsh1).
  rewrite Z.max_l in * by exact Hn1.
  pose proof (round_nearest_shifted M n1 mrs1 Hn1 Hsh1) as [Hm2 Hnear].
  set (m2 := round_nearest_even (shr_m mrs1) (loc_of_shr_record mrs1)) in *.
  destruct Hsh1 as (Hm1 & rem & Hrem & Hrange & _).
  set (m1 := shr_m mrs1) in *.
  assert (0 < 2 ^ n1) as Hpow by (apply Z.pow_pos_nonneg; lia).
  assert (M < 2 ^ 53 * 2 ^ n1) as Hupper.
  { rewrite <- Z.pow_add_r by lia.
    apply Z.lt_le_trans with (2 ^ D); [lia|]. apply Z.pow_le_mono_r; lia. }
  assert (2 ^ n1 ≤ M) as Hlower.
  { destruct Hcase as [->|(_ & H46 & _)].
    - apply Z.le_trans with (2 ^ (D - 1)); [apply Z.pow_le_mono_r; lia|lia].
    - apply Z.le_trans with (2 ^ 46); [apply Z.pow_le_mono_r; lia|].
      rewrite HM. lia. }
  assert (1 ≤ m1 < 2 ^ 53) as Hm1range by nia.
  assert (2 ^ 52 ≤ m1 ∨ E + n1 = -1074) as Hnormal.
  { destruct Hcase as [Heq|(Hsub & _)]; [left|right; exact Hsub].
    assert (2 ^ 52 * 2 ^ n1 ≤ M); [|nia].
    rewrite <- Z.pow_add_r by lia. replace (52 + n1) with (D - 1) by lia. lia. }
  assert (-1074 ≤ E + n1) as He1 by (unfold n1, fexp, emin, prec, emax; lia).
  destruct m2 as [|p2|p2] eqn:Hp2; try lia. cbn [Zdigits2].
  pose proof (digits2_bounds p2) as HD2.
  set (D2 := Z.pos (digits2_pos p2)) in *.
  set (n2 := fexp prec emax (D2 + (E + n1)) - (E + n1)).
  destruct (shr_shifted (Z.pos p2) (E + n1) n2 ltac:(lia)) as (mrs2 & -> & Hsh2).
  destruct Hsh2 as (Hm3 & rem2 & Hrem2 & Hrange2 & _).
  assert (Z.pos p2 < 2 ^ 53 ∧ Z.max n2 0 = 0 ∨ Z.pos p2 = 2 ^ 53 ∧ Z.max n2 0 = 1) as Hn2.
  { destruct (Z.lt_ge_cases (Z.pos p2) (2 ^ 53)) as [Hlt|Hge].
    - left. split; [exact Hlt|].
      assert (D2 - 1 < 53) by (apply (Z.pow_lt_mono_r_iff 2); lia).
      unfold n2, fexp, emin, prec, emax. lia.
    - right. assert (Z.pos p2 = 2 ^ 53) as Heq by lia. split; [exact Heq|].
      assert (53 < D2) by (apply (Z.pow_lt_mono_r_iff 2); lia).
      assert (D2 - 1 < 54) by (apply (Z.pow_lt_mono_r_iff 2); [lia..|rewrite Heq in HD2; lia]).
      unfold n2, fexp, emin, prec, emax. lia. }
  destruct Hn2 as [[Hlt Hmax]|[Heq Hmax]]; rewrite Hmax in *.
  - change (2 ^ 0) with 1 in *. assert (shr_m mrs2 = Z.pos p2) as -> by lia.
    exists p2, n1. replace (e - 46 + n1) with (E + n1 + 0) by (unfold E; lia).
    split; [lia|]. split; [exact Hlt|]. split; [lia|]. split; [lia|]. reflexivity.
  - change (2 ^ 1) with 2 in *. assert (shr_m mrs2 = 2 ^ 52) as Hm3eq by lia.
    rewrite Hm3eq. change (2 ^ 52) with (Z.pos 4503599627370496).
    exists 4503599627370496%positive, (n1 + 1).
    replace (e - 46 + (n1 + 1)) with (E + n1 + 1) by (unfold E; lia).
    split; [lia|]. split; [lia|]. split; [left; lia|].
    split; [|reflexivity].
    rewrite Z.pow_add_r by lia. change (2 ^ 1) with 2.
    change (Z.pos 4503599627370496) with (2 ^ 52). nia.
Qed.

End Rounding.

(** ** One decimal place *)

Lemma append_cons x a b : String x a +:+ b = String x (a +:+ b).
Proof. reflexivity. Qed.

Lemma append_assoc a b c : (a +:+ b) +:+ c = a +:+ (b +:+ c).
Proof.
  induction a as [|x a IH]; [reflexivity|]. rewrite !append_cons. f_equal. exact IH.
Qed.

Lemma length_append a b :
  String.length (a +:+ b) = (String.length a + String.length b)%nat.
Proof.
  induction a as [|x a IH]; [reflexivity|]. rewrite append_cons.
  cbn [String.length Nat.add]. f_equal. exact IH.
Qed.

Lemma substring_prefix a b : substring 0 (String.length a) (a +:+ b) = a.
Proof.
  induction a as [|x a IH]; [destruct b; reflexivity|]. rewrite append_cons.
  cbn [String.length substring]. f_equal. exact IH.
Qed.

Lemma substring_whole b : substring 0 (String.length b) b = b.
Proof.
  induction b as [|x b IH]; [reflexivity|]. cbn [String.length substring].
  f_equal. exact IH.
Qed.

Lemma substring_suffix a b :
  substring (String.length a) (String.length b) (a +:+ b) = b.
Proof.
  induction a as [|x a IH]; [apply substring_whole|]. rewrite append_cons.
  cbn [String.length substring]. exact IH.
Qed.

Lemma pretty_N_go_app x s : pretty_N_go x s = pretty_N_go x EmptyString +:+ s.
Proof.
  revert s. induction (N.lt_wf_0 x) as [x _ IH]. intros s.
  assert (x = 0 ∨ 0 < x)%N as [->|Hpos] by lia; [reflexivity|].
  assert (x `div` 10 < x)%N as Hlt by (apply N.div_lt; lia).
  rewrite !(pretty_N_go_step x) by exact Hpos.
  rewrite (IH _ Hlt (String _ s)), (IH _ Hlt (String _ EmptyString)).
  rewrite append_assoc. reflexivity.
Qed.

(** The digits of [n]: those of [n / 10], when there are any, and the
    last one. *)
Lemma pretty_N_digits (n : N) :
  pretty n
  = (if (n <? 10)%N then EmptyString else pretty (n `div` 10)%N)
    +:+ String (pretty_N_char (n `mod` 10)%N) EmptyString.
Proof.
  unfold pretty at 1, pretty_N. destruct (decide (n = 0%N)) as [->|Hn]; [reflexivity|].
  rewrite pretty_N_go_step by lia. rewrite pretty_N_go_app.
  destruct (n <? 10)%N eqn:Hlt.
  - apply N.ltb_lt in Hlt. rewrite N.div_small by exact Hlt. reflexivity.
  - apply N.ltb_ge in Hlt. unfold pretty, pretty_N.
    destruct (decide ((n `div` 10)%N = 0%N)) as [H0|_]; [|reflexivity].
    apply N.div_small_iff in H0; lia.
Qed.

Lemma pretty_N_length (n : N) : (1 ≤ String.length (pretty n))%nat.
Proof. rewrite pretty_N_digits, length_append. cbn. lia. Qed.

Lemma fixedDigits_one n :
  fixedDigits n 1
  = pretty (n `div` 10)%N +:+ "." +:+ String (pretty_N_char (n `mod` 10)%N) EmptyString.
Proof.
  unfold fixedDigits. cbn [Nat.eqb]. cbv zeta. rewrite (pretty_N_digits n).
  destruct (n <? 10)%N eqn:Hlt.
  - apply N.ltb_lt in Hlt. rewrite N.div_small by exact Hlt. reflexivity.
  - pose proof (pretty_N_length (n `div` 10)%N) as Hlen.
    set (a := pretty (n `div` 10)%N) in *.
    set (c := String (pretty_N_char (n `mod` 10)%N) EmptyString).
    rewrite !length_append.
    replace (Nat.leb (String.length a + String.length c) 1) with false
      by (symmetry; apply Nat.leb_gt; cbn; lia).
    rewrite !length_append.
    replace (String.length a + String.length c - 1)%nat with (String.length a)
      by (cbn; lia).
    rewrite substring_prefix.
    change 1%nat with (String.length c). rewrite substring_suffix. reflexivity.
Qed.

(** [roundScaled m e f] is the integer nearest to [m * 2^e * 10^f], the
    larger one of two. *)
Lemma roundScaled_nearest m e f :
  let X := (Z.pos m * 2 ^ Z.max e 0)%Z in
  let D := (2 ^ Z.max (- e) 0)%Z in
  let n := roundScaled m e f in
  (0 ≤ n ∧ 2 * D * n ≤ 2 * X * 10 ^ Z.of_nat f + D < 2 * D * (n + 1))%Z.
Proof.
  intros X D n.
  assert (0 < D)%Z as HD by (apply Z.pow_pos_nonneg; lia).
  assert (0 < X)%Z as HX by (apply Z.mul_pos_pos; [lia|apply Z.pow_pos_nonneg; lia]).
  assert (0 < 10 ^ Z.of_nat f)%Z as HT by (apply Z.pow_pos_nonneg; lia).
  assert (n = ((2 * X * 10 ^ Z.of_nat f + D) `div` (2 * D))%Z) as Hn.
  { unfold n, roundScaled, X, D. f_equal. ring. }
  assert (0 < 2 * D)%Z as H2D by lia.
  pose proof (Z.mul_div_le (2 * X * 10 ^ Z.of_nat f + D) (2 * D) H2D) as Hle.
  pose proof (Z.mul_succ_div_gt (2 * X * 10 ^ Z.of_nat f + D) (2 * D) H2D) as Hgt.
  rewrite <- Hn in Hle, Hgt.
  split; [|split; lia].
  rewrite Hn. apply Z.div_pos; nia.
Qed.

(** A tick below 10^21 in one decimal place: the sign, the digits of the
    nearest number of tenths [n] before its last digit, a point, the last
    digit, and the percent sign. *)
Lemma tickCallback_one_decimal value sign m e :
  Number_mul value hundred = S754_finite sign m e →
  (Z.pos m * 2 ^ Z.max e 0 < 10 ^ 21 * 2 ^ Z.max (- e) 0)%Z →
  ∃ n : N,
    (2 * 2 ^ Z.max (- e) 0 * Z.of_N n
       ≤ 2 * (Z.pos m * 2 ^ Z.max e 0) * 10 + 2 ^ Z.max (- e) 0
       < 2 * 2 ^ Z.max (- e) 0 * (Z.of_N n + 1))%Z
    ∧ tickCallback value
      = (if sign then "-" else EmptyString)
        +:+ pretty (n `div` 10)%N +:+ "."
        +:+ String (pretty_N_char (n `mod` 10)%N) EmptyString +:+ "%".
Proof.
  intros Hp Hsmall. exists (Z.to_N (roundScaled m e 1)).
  destruct (roundScaled_nearest m e 1) as (Hpos & Hnear).
  rewrite Z2N.id by exact Hpos. split; [exact Hnear|].
  unfold tickCallback. rewrite Hp. cbn [Number_toFixed].
  replace (10 ^ 21 * 2 ^ Z.max (- e) 0 <=? Z.pos m * 2 ^ Z.max e 0)%Z with false
    by (symmetry; apply Z.leb_gt; exact Hsmall).
  rewrite fixedDigits_one, !append_assoc. reflexivity.
Qed.

(** C7. For every cumulative-returns value (any value but [null] and
    [undefined]) on a page with the canvas, the renderer creates a chart
    with exactly six series, labelled and ordered Q1, Q2, Q3, Q4, Q5,
    long_short, whose data are the input's series as they are, over the
    input's dates as labels. Its y-axis tick callback prints
    [(value * 100).toFixed(1)] and a percent sign. The product is the
    ratio times one hundred, rounded to the nearest binary64 number ([d]
    bits of the exact mantissa are dropped, within half a unit), and
    infinite only beyond the largest exponent; a product below 10^21 is
    printed as its nearest number of tenths, with exactly one digit after
    the point; a zero is printed as 0.0%. Rendering changes neither the
    document nor the pipeline state. *)
Theorem chart_renders_six_series data s :
  nullish data = false →
  is_Some (dom s !! "returnsChart") →
  ∃ s' c,
    drawReturnsChart data s = (Ok tt, s')
    ∧ In c (charts s') ∧ backtestChart s' = Some (chart_id c)
    ∧ map ds_label (cfg_datasets (chart_config c))
      = ["Q1 (最低)"; "Q2"; "Q3"; "Q4"; "Q5 (最高)"; "多空策略"]
    ∧ map ds_data (cfg_datasets (chart_config c))
      = [getPropOpt data "Q1"; getPropOpt data "Q2"; getPropOpt data "Q3";
         getPropOpt data "Q4"; getPropOpt data "Q5"; getPropOpt data "long_short"]
    ∧ cfg_labels (chart_config c) = getPropOpt data "dates"
    ∧ (∀ value,
         opt_y_ticks_callback (cfg_options (chart_config c)) value
         = Number_toFixed (Number_mul value hundred) 1 +:+ "%")
    ∧ (∀ value sign m e,
         Number_mul value hundred = S754_finite sign m e →
         (Z.pos m * 2 ^ Z.max e 0 < 10 ^ 21 * 2 ^ Z.max (- e) 0)%Z →
         ∃ n : N,
           (2 * 2 ^ Z.max (- e) 0 * Z.of_N n
              ≤ 2 * (Z.pos m * 2 ^ Z.max e 0) * 10 + 2 ^ Z.max (- e) 0
              < 2 * 2 ^ Z.max (- e) 0 * (Z.of_N n + 1))%Z
           ∧ opt_y_ticks_callback (cfg_options (chart_config c)) value
             = (if sign then "-" else EmptyString)
               +:+ pretty (n `div` 10)%N +:+ "."
               +:+ String (pretty_N_char (n `mod` 10)%N) EmptyString +:+ "%")
    ∧ (∀ sign m e,
         valid_binary prec emax (S754_finite sign m e) = true →
         ∃ m' d,
           (0 ≤ d)%Z
           ∧ (Z.pos m' < 2 ^ 53)%Z
           ∧ (2 ^ 52 ≤ Z.pos m' ∨ e - 46 + d = -1074)%Z
           ∧ (2 * Z.abs (Z.pos m' * 2 ^ d - 100 * 2 ^ 46 * Z.pos m) ≤ 2 ^ d)%Z
           ∧ Number_mul (S754_finite sign m e) hundred
             = if (e - 46 + d <=? 971)%Z then S754_finite sign m' (e - 46 + d)
               else S754_infinity sign)
    ∧ (∀ sign,
         opt_y_ticks_callback (cfg_options (chart_config c)) (S754_zero sign) = "0.0%")
    ∧ dom s' = dom s ∧ same_globals s s'.
Proof.
  intros Hdata Hcanvas.
  eexists. exists (mkChart (nextChart s) "returnsChart" (configOf data)).
  split; [apply drawReturnsChart_renders; assumption|].
  cbn [charts backtestChart dom set_backtestChart set_charts chart_config chart_id].
  split; [apply in_or_app; right; left; reflexivity|].
  split; [reflexivity|]. split; [reflexivity|]. split; [reflexivity|].
  split; [reflexivity|]. split; [reflexivity|].
  split; [intros value sign m e; apply tickCallback_one_decimal|].
  split; [intros sign m e; apply Number_mul_hundred|].
  split; [intros []; vm_compute; reflexivity|].
  repeat split.
Qed.

(** ** The normalizer on the page *)

Lemma wp_withElement id f (Q : unit → State → Prop) E s :
  (∃ el, dom s !! id = Some el ∧ Q tt (set_dom (<[id := f el]> (dom s)) s)) →
  wp (withElement id f) Q E s.
Proof. intros (el & Hel & HQ). unfold wp, withElement. rewrite Hel. exact HQ. Qed.

Lemma wp_emit e (Q : unit → State → Prop) E s :
  Q tt (set_trace (trace s ++ [e]) s) → wp (emit e) Q E s.
Proof. intros HQ. exact HQ. Qed.

Lemma wp_returns {A} (m : M A) (Q : A → State → Prop) s :
  wp m Q (λ _ _, False) s → ∃ a s', m s = (Ok a, s') ∧ Q a s'.
Proof.
  unfold wp. destruct (m s) as [[a|e] s']; intros H; [|destruct H].
  exists a, s'. split; [reflexivity|exact H].
Qed.

Lemma normalize_returns key_factors :
  given_mappable key_factors = true → ∃ view, normalize key_factors = Ok view.
Proof.
  destruct key_factors as [[| | | text | elems |]|]; cbn -[mapM]; intros H;
    try (eexists; reflexivity).
  - destruct (String.eqb text EmptyString); [eexists; reflexivity|].
    destruct (JSON_parse text) as [[| | | | parsed |]|]; eexists; reflexivity.
  - destruct (mapM_mappable _ H) as [records ->]. eexists. reflexivity.
Qed.

Lemma infoText_printable v k :
  printable (getPropOpt v k) = true → ∃ text, infoText v k = Ok text.
Proof. apply ToString_orDefault. Qed.

(** The two templates of three lines, when their substitutions can be
    printed. *)
Lemma infoBlock_returns info k l1 f1 l2 f2 l3 f3 :
  nullish info = false →
  printable (getPropOpt (getPropOpt info k) f1) = true →
  printable (getPropOpt (getPropOpt info k) f2) = true →
  printable (getPropOpt (getPropOpt info k) f3) = true →
  ∃ t1 t2 t3,
    infoText (getPropOpt info k) f1 = Ok t1
    ∧ infoText (getPropOpt info k) f2 = Ok t2
    ∧ infoText (getPropOpt info k) f3 = Ok t3
    ∧ infoBlock info k [(l1, f1); (l2, f2); (l3, f3)]
      = Ok (nl +:+ join_empty [infoLine l1 t1; infoLine l2 t2; infoLine l3 t3]
               +:+ spaces 4).
Proof.
  intros Hinfo H1 H2 H3.
  destruct (infoText_printable _ _ H1) as [t1 Ht1].
  destruct (infoText_printable _ _ H2) as [t2 Ht2].
  destruct (infoText_printable _ _ H3) as [t3 Ht3].
  exists t1, t2, t3. repeat split; try assumption.
  unfold infoBlock. cbn [mapM]. rewrite (getProp_value _ _ Hinfo).
  cbn [mbind Res_bind]. rewrite Ht1, Ht2, Ht3. reflexivity.
Qed.

Lemma infoFields_printable info :
  forallb printable (infoFields info) = true →
  (printable (getPropOpt (getPropOpt info "datasets") "primary") = true
   ∧ printable (getPropOpt (getPropOpt info "datasets") "time_range") = true
   ∧ printable (getPropOpt (getPropOpt info "datasets") "frequency") = true)
  ∧ printable (getPropOpt info "core_problem") = true
  ∧ (printable (getPropOpt (getPropOpt info "solution") "method") = true
     ∧ printable (getPropOpt (getPropOpt info "solution") "algorithm") = true
     ∧ printable (getPropOpt (getPropOpt info "solution") "strategy") = true).
Proof.
  unfold infoFields. cbn [forallb]. intros H.
  repeat (apply andb_prop in H as [? H]). repeat split; assumption.
Qed.


(** ** The status of a step *)

Lemma frame_preorder (ids : list string) (id : string) :
  PreOrder (λ a b : Element, In id ids ∨ classList b = classList a).
Proof.
  split.
  - intros a. right. reflexivity.
  - intros a b c [H|H1] [H'|H2]; auto. right. congruence.
Qed.

Lemma noadd_preorder (c : string) :
  PreOrder (λ a b : Element, In c (classList b) → In c (classList a)).
Proof. split; [intros a H; exact H|intros x y z H1 H2 H; auto]. Qed.

#[local] Instance frame_rel_preorder ids : PreOrder (frame_rel ids).
Proof. apply dom_rel_preorder. intros id. apply frame_preorder. Qed.

#[local] Instance frame_rel_page ids : PageFrame (frame_rel ids).
Proof.
  apply dom_rel_page; [intros id; apply frame_preorder|].
  intros id a b H. right. exact H.
Qed.

#[local] Instance frame_rel_globals ids : GlobalsFrame (frame_rel ids).
Proof. apply dom_rel_globals. intros id. apply frame_preorder. Qed.

Lemma frame_rel_status ids step status :
  In (step +:+ "Status") ids → StatusFrame (frame_rel ids) step status.
Proof.
  intros Hin. apply dom_rel_status; [intros id; apply frame_preorder|].
  intros el. left. exact Hin.
Qed.

#[local] Instance noadd_rel_preorder c : PreOrder (noadd_rel c).
Proof. apply dom_rel_preorder. intros id. apply noadd_preorder. Qed.

#[local] Instance noadd_rel_page c : PageFrame (noadd_rel c).
Proof.
  apply dom_rel_page; [intros id; apply noadd_preorder|].
  intros id a b H Hin. rewrite <- H. exact Hin.
Qed.

#[local] Instance noadd_rel_globals c : GlobalsFrame (noadd_rel c).
Proof. apply dom_rel_globals. intros id. apply noadd_preorder. Qed.

Lemma applyStatus_In c status el :
  In c (classList (applyStatus status el)) →
  c = default "undefined" (table_get statusClasses status) ∨ In c (classList el).
Proof.
  rewrite applyStatus_classList. unfold classList_add.
  destruct (existsb _ _); intros Hin.
  - right. apply List.filter_In in Hin as [Hin _]. exact Hin.
  - apply in_app_or in Hin as [Hin|[<-|[]]]; [right|left; reflexivity].
    apply List.filter_In in Hin as [Hin _]. exact Hin.
Qed.

Lemma noadd_rel_status c step status :
  default "undefined" (table_get statusClasses status) ≠ c →
  StatusFrame (noadd_rel c) step status.
Proof.
  intros Hne. apply dom_rel_status; [intros id; apply noadd_preorder|].
  intros el Hin. apply applyStatus_In in Hin as [->|Hin]; [congruence|exact Hin].
Qed.

(** Every action leaves the page related by a relation its handler's
    writes respect. *)
Lemma perform_preserves (R : relation State) `{!PageFrame R} `{!GlobalsFrame R} a sys sys' :
  (∀ op, a = Invoke op → StatusFrame R (stepOf op) "processing") →
  (∀ op o, a = Settle (Workflow op) o →
     StatusFrame R (stepOf op) "success" ∧ StatusFrame R (stepOf op) "error") →
  perform a sys = Some sys' →
  R (page sys) (page sys').
Proof.
  intros Hbegin Hresume Hstep. destruct a as [op|t o| | | |id v|id fs]; cbn [perform] in Hstep.
  - injection Hstep as <-. unfold launch.
    pose proof (preserves_begin R op (StatusFrame0 := Hbegin op eq_refl) (page sys)) as H.
    destruct (begin op (page sys)) as [[[]|e] s']; exact H.
  - destruct (existsb (task_eqb t) (pending sys)); [|discriminate Hstep].
    injection Hstep as <-. cbn [page]. destruct t as [op|]; cbn [settle].
    + destruct (Hresume op o eq_refl) as [Hs He].
      apply (preserves_resume R op o).
    + apply preserves_loadDatasets_resume. apply _.
  - injection Hstep as <-. unfold launch.
    pose proof (preserves_loadDatasets_begin R (page sys)) as H.
    destruct (loadDatasets_begin (page sys)) as [[[]|e] s']; exact H.
  - injection Hstep as <-. cbn [turn page]. apply preserves_editCode. apply _.
  - injection Hstep as <-. cbn [turn page]. apply preserves_saveCode; apply _.
  - injection Hstep as <-. cbn [turn page].
    apply preserves_whenElement; [apply _..|reflexivity].
  - injection Hstep as <-. cbn [turn page].
    apply preserves_whenElement; [apply _..|reflexivity].
Qed.

(** The first half of a handler writes the document once at most: the
    processing status on its own status element. *)
Lemma begin_dom op s :
  dom (snd (begin op s)) = dom s
  ∨ ∃ el, dom s !! (stepOf op +:+ "Status") = Some el
      ∧ dom (snd (begin op s))
        = <[stepOf op +:+ "Status" := applyStatus "processing" el]> (dom s).
Proof.
  destruct (begin op s) as [r s'] eqn:H. cbn [snd].
  destruct op; cbn [begin stepOf contextOf] in *;
    unfold uploadPDF_begin, extractContent_begin, generateFactor_begin, runBacktest_begin,
      readValue, getElementById, alert, emit, updateStatus, withElement, showLoading,
      setLoading, gets, modify, throw, mbind, M_bind, mret, M_ret in H;
    repeat case_match; simplify_eq; cbn [dom set_dom set_trace set_loading]; eauto.
Qed.

Lemma statusId_inj op op' :
  stepOf op +:+ "Status" = stepOf op' +:+ "Status" → op = op'.
Proof. destruct op, op'; intros H; try reflexivity; discriminate H. Qed.

Lemma remove_first_In t x l : In x (remove_first t l) → In x l.
Proof.
  induction l as [|y l IH]; cbn [remove_first]; [auto|].
  destruct (task_eqb t y); intros H; [right; exact H|].
  destruct H as [->|H]; [left; reflexivity|right; apply IH, H].
Qed.

Lemma task_eqb_eq t t' : task_eqb t t' = true → t = t'.
Proof.
  destruct t as [op|], t' as [op'|]; try discriminate; [|reflexivity].
  destruct op, op'; try discriminate; reflexivity.
Qed.

Lemma applyStatus_processing_classes el :
  classList (applyStatus "processing" el)
  = List.filter (λ c, negb (is_status_class c)) (classList el) ++ ["bg-warning"].
Proof. apply applyStatus_classes; reflexivity. Qed.

Lemma perform_noadd_pending a sys sys' :
  perform a sys = Some sys' → noadd_rel "bg-secondary" (page sys) (page sys').
Proof.
  apply perform_preserves; try apply _.
  - intros op _. apply noadd_rel_status. discriminate.
  - intros op o _. split; apply noadd_rel_status; discriminate.
Qed.

Lemma in_flight_step a sys sys' :
  in_flight_not_pending sys → perform a sys = Some sys' → in_flight_not_pending sys'.
Proof.
  intros Hinv Hstep op Hin.
  pose proof (perform_noadd_pending _ _ _ Hstep) as Hrel.
  assert (In (Workflow op) (pending sys) →
          ∃ el, statusElement (page sys') op = Some el
                ∧ ¬ In "bg-secondary" (classList el)) as Hold.
  { intros Hin0. destruct (Hinv op Hin0) as (el & Hel & Hno).
    specialize (Hrel (stepOf op +:+ "Status")). unfold statusElement in *.
    rewrite Hel in Hrel. destruct Hrel as (el' & Hel' & Himp).
    exists el'. split; [exact Hel'|]. intros H. apply Hno, Himp, H. }
  destruct a as [op'|t o| | | |id v|id fs]; cbn [perform] in Hstep.
  - injection Hstep as <-. unfold launch in *.
    destruct (begin op' (page sys)) as [[[]|e] s'] eqn:Hb; cbn [pending page] in *;
      try (apply Hold, Hin).
    apply in_app_or in Hin as [Hin|[Heq|[]]]; [apply Hold, Hin|].
    injection Heq as ->.
    destruct (begin_started _ _ _ Hb) as (el & els & body & url & Hel & _ & ->).
    exists (applyStatus "processing" el). unfold statusElement.
    cbn [dom set_dom set_trace set_loading]. rewrite lookup_insert_eq.
    split; [reflexivity|]. rewrite applyStatus_processing_classes. intros H.
    apply in_app_or in H as [H|[H|[]]]; [|discriminate H].
    apply List.filter_In in H as [_ H]. discriminate H.
  - destruct (existsb (task_eqb t) (pending sys)); [|discriminate Hstep].
    injection Hstep as <-. cbn [pending page] in *.
    apply Hold. eapply remove_first_In, Hin.
  - injection Hstep as <-. unfold launch in *.
    destruct (loadDatasets_begin (page sys)) as [[[]|e] s']; cbn [pending page] in *;
      try (apply Hold, Hin).
    apply in_app_or in Hin as [Hin|[Heq|[]]]; [apply Hold, Hin|discriminate Heq].
  - injection Hstep as <-. apply Hold, Hin.
  - injection Hstep as <-. apply Hold, Hin.
  - injection Hstep as <-. apply Hold, Hin.
  - injection Hstep as <-. apply Hold, Hin.
Qed.

Lemma reachable_in_flight sys0 sys :
  pending sys0 = [] → reachable sys0 sys → in_flight_not_pending sys.
Proof.
  intros H0 Hreach. induction Hreach as [|sys a sys' _ IH Hstep].
  - intros op Hin. rewrite H0 in Hin. destruct Hin.
  - eapply in_flight_step; eassumption.
Qed.

Lemma frame_rel_element ids s s' op :
  frame_rel ids s s' → ¬ In (stepOf op +:+ "Status") ids →
  match statusElement s op with
  | Some el => ∃ el', statusElement s' op = Some el' ∧ classList el' = classList el
  | None => statusElement s' op = None
  end.
Proof.
  intros Hrel Hout. specialize (Hrel (stepOf op +:+ "Status")). unfold statusElement.
  destruct (dom s !! (stepOf op +:+ "Status")) as [el|]; [|exact Hrel].
  destruct Hrel as (el' & Hel' & [Hin|Hcls]); [contradiction|].
  exists el'. split; assumption.
Qed.

Lemma shows_frame ids s s' op status :
  frame_rel ids s s' → ¬ In (stepOf op +:+ "Status") ids →
  shows s op status → shows s' op status.
Proof.
  intros Hrel Hout (el & cls & Hel & Hcls & Hactive).
  pose proof (frame_rel_element _ _ _ op Hrel Hout) as H. rewrite Hel in H.
  destruct H as (el' & Hel' & Hsame). exists el', cls.
  repeat split; try assumption. unfold activeClasses. rewrite Hsame. exact Hactive.
Qed.

Lemma has_class_frame ids s s' op c :
  frame_rel ids s s' → ¬ In (stepOf op +:+ "Status") ids →
  has_class s' op c → has_class s op c.
Proof.
  intros Hrel Hout (el' & Hel' & Hin).
  pose proof (frame_rel_element _ _ _ op Hrel Hout) as H.
  destruct (statusElement s op) as [el|] eqn:Hel; [|congruence].
  destruct H as (el0 & Hel0 & Hsame). exists el. split; [exact Hel|].
  rewrite Hel' in Hel0. injection Hel0 as <-. rewrite <- Hsame. exact Hin.
Qed.

Lemma applyStatus_shows status cls el :
  table_get statusClasses status = Some cls → is_status_class cls = true →
  activeClasses (applyStatus status el) = [cls].
Proof.
  intros Hget Hcls. unfold activeClasses.
  rewrite (applyStatus_classes _ _ _ Hget Hcls), List.filter_app, filter_filter.
  cbn [List.filter]. rewrite Hcls. rewrite filter_none; [reflexivity|].
  intros c _. destruct (is_status_class c); reflexivity.
Qed.

(** ** The second half of a handler ends in success or error *)

Lemma marked_present op s : marked op s → present op s.
Proof. intros [(el & _ & Hel & _)|(el & _ & Hel & _)]; exists el; exact Hel. Qed.

Lemma present_frame op s s' : frame_rel [] s s' → present op s → present op s'.
Proof.
  intros Hrel [el Hel]. pose proof (frame_rel_element _ _ _ op Hrel (λ H, H)) as H.
  rewrite Hel in H. destruct H as (el' & Hel' & _). exists el'. exact Hel'.
Qed.

Lemma marked_frame op s s' : frame_rel [] s s' → marked op s → marked op s'.
Proof.
  intros Hrel [H|H]; [left|right]; exact (shows_frame _ _ _ _ _ Hrel (λ H, H) H).
Qed.

Lemma ends_prefix op {A B} (m : M A) (f : A → M B) :
  preserves (frame_rel []) m → (∀ a, ends_marked op (f a)) → ends_marked op (m ≫= f).
Proof.
  intros Hm Hf s Hs. apply wp_bind. apply (wp_preserves (frame_rel [])); [exact Hm|].
  intros s' Hrel. pose proof (present_frame op _ _ Hrel Hs) as Hs'.
  split; [intros a; apply Hf, Hs'|intros _; exact Hs'].
Qed.

Lemma ends_suffix op {A B} (m : M A) (f : A → M B) :
  ends_marked op m → (∀ a, preserves (frame_rel []) (f a)) → ends_marked op (m ≫= f).
Proof.
  intros Hm Hf s Hs. apply wp_bind. eapply wp_mono; [apply Hm, Hs| |intros e s' H; exact H].
  intros a s' Hmarked. apply (wp_preserves (frame_rel [])); [apply Hf|].
  intros s'' Hrel. pose proof (marked_frame op _ _ Hrel Hmarked) as H.
  split; intros _; [exact H|apply marked_present, H].
Qed.

Lemma updateStatus_marks op status s :
  status = "success" ∨ status = "error" →
  present op s →
  wp (updateStatus (stepOf op) status) (λ _, marked op) (λ _ _, False) s.
Proof.
  intros Hstatus [el Hel]. unfold updateStatus. apply wp_withElement.
  exists el. split; [exact Hel|].
  assert (∃ cls, table_get statusClasses status = Some cls ∧ is_status_class cls = true)
    as (cls & Hget & Hcls)
    by (destruct Hstatus as [->| ->]; eexists; split; reflexivity).
  assert (shows (set_dom (<[stepOf op +:+ "Status" := applyStatus status el]> (dom s)) s)
            op status) as Hshows.
  { exists (applyStatus status el), cls. unfold statusElement. cbn [dom set_dom].
    rewrite lookup_insert_eq. repeat split; [exact Hget|].
    apply applyStatus_shows; assumption. }
  destruct Hstatus as [->| ->]; [left|right]; exact Hshows.
Qed.

Lemma ends_updateStatus op status :
  status = "success" ∨ status = "error" →
  ends_marked op (updateStatus (stepOf op) status).
Proof.
  intros Hstatus s Hs.
  eapply wp_mono; [apply updateStatus_marks; assumption|auto|intros e s' []].
Qed.

(** Splits the body of a handler around its [updateStatus]. *)
Ltac marks :=
  repeat first
    [ progress intros
    | lazymatch goal with
      | |- ends_marked ?op (updateStatus _ _ ≫= _) =>
          apply ends_suffix; [apply (ends_updateStatus op); auto|intros; frame]
      | |- ends_marked ?op (updateStatus _ _) => apply (ends_updateStatus op); auto
      | |- ends_marked _ (if ?b then _ else _) => destruct b
      | |- ends_marked _ (match ?x with _ => _ end) => destruct x
      | |- ends_marked _ (_ ≫= _) => apply ends_prefix; [frame|intros]
      end ].

Lemma handler_marks op msg s :
  present op s →
  wp (alert msg;; updateStatus (stepOf op) "error") (λ _, marked op) (λ _, marked op) s.
Proof.
  intros Hs. apply wp_bind. unfold alert. apply wp_emit.
  eapply wp_mono; [apply (updateStatus_marks op "error"); [auto|exact Hs]|auto|].
  intros e s' [].
Qed.

Lemma attempt_marks op {A} (body : M A) (handler : exn → M A) (fin : M unit) s :
  ends_marked op body →
  (∀ e s1, present op s1 → wp (handler e) (λ _, marked op) (λ _, marked op) s1) →
  preserves (frame_rel []) fin →
  present op s →
  marked op (snd (try_finally (try_catch body handler) fin s)).
Proof.
  intros Hbody Hhandler Hfin Hs. apply (wp_snd _ (marked op)). apply wp_try_finally.
  assert (∀ s', marked op s' → wp fin (λ _, marked op) (λ _, marked op) s') as Hafter.
  { intros s' Hs'. apply (wp_preserves (frame_rel [])); [exact Hfin|].
    intros s'' Hrel. split; intros _; exact (marked_frame op _ _ Hrel Hs'). }
  apply (wp_mono _ (λ _, marked op) _ (λ _, marked op));
    [|intros _ s' Hs'; apply Hafter, Hs'|intros _ s' Hs'; apply Hafter, Hs'].
  apply wp_try_catch.
  eapply wp_mono; [apply Hbody, Hs|auto|].
  intros e s' Hs'. apply Hhandler, Hs'.
Qed.

(** From a page with the step's status element, the second half of the
    handler ends with the step marked as success or as error. *)
Lemma resume_marks op o s :
  present op s → marked op (snd (resume op o s)).
Proof.
  intros Hs. destruct op; cbn [resume];
    unfold uploadPDF_resume, extractContent_resume, generateFactor_resume,
      runBacktest_resume;
    (apply attempt_marks;
     [marks
     |intros e s1 Hs1;
      lazymatch goal with
      | |- wp _ (λ _, marked ?op) _ _ => apply (handler_marks op), Hs1
      end
     |frame|exact Hs]).
Qed.

(** ** Status transitions *)

Lemma launch_page t first sys : page (launch t first sys) = snd (first (page sys)).
Proof. unfold launch. destruct (first (page sys)) as [[[]|e] s']; reflexivity. Qed.

Lemma perform_frame a sys sys' :
  perform a sys = Some sys' → frame_rel (written a) (page sys) (page sys').
Proof.
  apply perform_preserves; try apply _.
  - intros op ->. apply frame_rel_status. left. reflexivity.
  - intros op o ->. split; apply frame_rel_status; left; reflexivity.
Qed.

Lemma written_own a op :
  In (stepOf op +:+ "Status") (written a) →
  a = Invoke op ∨ ∃ o, a = Settle (Workflow op) o.
Proof.
  destruct a as [op'|[op'|] o| | | |id v|id fs]; cbn [written In]; intros H;
    try contradiction.
  - destruct H as [H|[]]. apply statusId_inj in H as <-. left. reflexivity.
  - destruct H as [H|[]]. apply statusId_inj in H as <-. right. eexists. reflexivity.
Qed.

Lemma settle_in_flight t o sys sys' :
  perform (Settle t o) sys = Some sys' →
  In t (pending sys) ∧ page sys' = snd (settle t o (page sys)).
Proof.
  cbn [perform]. destruct (existsb (task_eqb t) (pending sys)) eqn:Hex; [|discriminate].
  intros H. injection H as <-. split; [|reflexivity].
  apply existsb_exists in Hex as (t' & Hin & Heq).
  apply task_eqb_eq in Heq as ->. exact Hin.
Qed.

(** After the first half of the handler of [op], the step still shows
    what it showed, or it shows processing. *)
Lemma invoke_status op s status :
  shows s op status →
  shows (snd (begin op s)) op status ∨ shows (snd (begin op s)) op "processing".
Proof.
  intros (el & cls & Hel & Hcls & Hactive). unfold shows, statusElement in *.
  destruct (begin_dom op s) as [->|(el0 & Hel0 & ->)].
  - left. exists el, cls. repeat split; assumption.
  - right. exists (applyStatus "processing" el0), "bg-warning".
    rewrite lookup_insert_eq. repeat split. apply applyStatus_shows; reflexivity.
Qed.

Lemma invoke_classes op s c :
  c ≠ "bg-warning" → has_class (snd (begin op s)) op c → has_class s op c.
Proof.
  intros Hc (el' & Hel' & Hin). unfold has_class, statusElement in *.
  destruct (begin_dom op s) as [Hdom|(el0 & Hel0 & Hdom)]; rewrite Hdom in Hel'.
  - exists el'. split; assumption.
  - rewrite lookup_insert_eq in Hel'. injection Hel' as <-.
    apply applyStatus_In in Hin as [->|Hin]; [contradiction Hc; reflexivity|].
    exists el0. split; assumption.
Qed.

Lemma started_shows_processing op s :
  fst (begin op s) = Ok true → shows (snd (begin op s)) op "processing".
Proof.
  intros H. destruct (begin op s) as [r s1] eqn:Hb. cbn [fst snd] in *. subst r.
  destruct (begin_started _ _ _ Hb) as (el & els & body & url & Hel & _ & ->).
  exists (applyStatus "processing" el), "bg-warning". unfold statusElement.
  cbn [dom set_dom set_trace set_loading]. rewrite lookup_insert_eq.
  repeat split. apply applyStatus_shows; reflexivity.
Qed.

Lemma shows_pending_class s op el :
  shows s op "pending" → statusElement s op = Some el → In "bg-secondary" (classList el).
Proof.
  intros (el' & cls & Hel' & Hcls & Hactive) Hel. rewrite Hel in Hel'.
  injection Hel' as <-. cbn in Hcls. injection Hcls as <-.
  assert (In "bg-secondary" (activeClasses el)) as H by (rewrite Hactive; left; reflexivity).
  apply List.filter_In in H as [H _]. exact H.
Qed.

(** C8. In every run of the page from a state with no request in flight,
    whatever the order of clicks, responses and edits: (1) a click that
    starts the backend call of a step leaves the step showing processing;
    (2) a step's status element gains the success or the error class only in
    the turn that completes a call of that step; (3) that turn ends with the
    step showing success or error; (4) a step that shows pending shows
    pending or processing after any turn, so it never moves from pending to
    success or error directly. *)
Theorem status_passes_through_processing sys0 sys a sys' op :
  pending sys0 = [] →
  reachable sys0 sys →
  perform a sys = Some sys' →
  (a = Invoke op → fst (begin op (page sys)) = Ok true →
     shows (page sys') op "processing")
  ∧ (∀ c, c = "bg-success" ∨ c = "bg-danger" →
       has_class (page sys') op c → ¬ has_class (page sys) op c →
       ∃ o, a = Settle (Workflow op) o)
  ∧ (∀ o, a = Settle (Workflow op) o →
       shows (page sys') op "success" ∨ shows (page sys') op "error")
  ∧ (shows (page sys) op "pending" →
       (shows (page sys') op "pending" ∨ shows (page sys') op "processing")
       ∧ ¬ shows (page sys') op "success" ∧ ¬ shows (page sys') op "error").
Proof.
  intros H0 Hreach Hstep.
  pose proof (reachable_in_flight _ _ H0 Hreach) as Hinv.
  pose proof (perform_frame _ _ _ Hstep) as Hframe.
  split; [|split; [|split]].
  - intros -> Hstarted. cbn [perform] in Hstep. injection Hstep as <-.
    rewrite launch_page. apply started_shows_processing, Hstarted.
  - intros c Hc Hnew Hold.
    destruct (in_dec string_dec (stepOf op +:+ "Status") (written a)) as [Hin|Hout].
    + apply written_own in Hin as [->|Hsettle]; [|exact Hsettle].
      exfalso. apply Hold. cbn [perform] in Hstep. injection Hstep as <-.
      rewrite launch_page in Hnew.
      apply (invoke_classes op _ c); [destruct Hc as [->| ->]; discriminate|exact Hnew].
    + exfalso. apply Hold. exact (has_class_frame _ _ _ _ _ Hframe Hout Hnew).
  - intros o ->. apply settle_in_flight in Hstep as [Hin ->].
    destruct (Hinv op Hin) as (el & Hel & _).
    apply resume_marks. exists el. exact Hel.
  - intros Hpending.
    assert (shows (page sys') op "pending" ∨ shows (page sys') op "processing") as Hnext.
    { destruct (in_dec string_dec (stepOf op +:+ "Status") (written a)) as [Hin|Hout].
      - apply written_own in Hin as [->|[o ->]].
        + cbn [perform] in Hstep. injection Hstep as <-. rewrite launch_page.
          apply invoke_status, Hpending.
        + exfalso. apply settle_in_flight in Hstep as [Hin _].
          destruct (Hinv op Hin) as (el & Hel & Hno).
          apply Hno. exact (shows_pending_class _ _ _ Hpending Hel).
      - left. exact (shows_frame _ _ _ _ _ Hframe Hout Hpending). }
    split; [exact Hnext|].
    split; intros (el & cls & Hel & Hcls & Hactive);
      cbn in Hcls; injection Hcls as <-;
      destruct Hnext as [(el' & cls' & Hel' & Hcls' & Hactive')
                        |(el' & cls' & Hel' & Hcls' & Hactive')];
      cbn in Hcls'; injection Hcls' as <-;
      rewrite Hel in Hel'; injection Hel' as <-;
      rewrite Hactive in Hactive'; discriminate Hactive'.
Qed.

(** ** The first half of a handler: refusals and requests *)

(** Unfolds the first half of a handler in [H] down to the state it builds. *)
Ltac run_begin H :=
  unfold uploadPDF_begin, extractContent_begin, generateFactor_begin, runBacktest_begin,
    readValue, getElementById, alert, emit, updateStatus, withElement, showLoading,
    setLoading, gets, modify, throw, mbind, M_bind, mret, M_ret in H.

Lemma noKeys_test v :
  noKeys v ↔ negb (truthy v) || Nat.eqb (Object_keys_length v) 0 = true.
Proof.
  destruct v as [[| b |n|str|[|x l]|[|p l]]|]; cbn; try tauto; try (split; [intros []|discriminate]).
  - destruct b; tauto.
  - destruct (number_truthy n); tauto.
  - destruct str; cbn; [tauto|]. split; [discriminate|discriminate].
Qed.

(** X1. The first half of a handler returns before its request exactly
    when its precondition fails: no file chosen (uploadPDF), no converted
    text (extractContent), no key in the extracted information
    (generateFactor), no code or no dataset (runBacktest). *)
Theorem returns_early_iff op s : fst (begin op s) = Ok false ↔ blocked op s.
Proof.
  destruct (begin op s) as [r s'] eqn:H. cbn [fst].
  destruct op; cbn [begin blocked] in *.
  - run_begin H. repeat case_match; simplify_eq;
      (split; [intros Hr; simplify_eq; eauto|intros (f & Hf & Hfiles); simplify_eq]);
      congruence.
  - run_begin H. repeat case_match; simplify_eq;
      (split; intros Hr; simplify_eq; try reflexivity);
      try (apply negb_true_iff; assumption);
      try (rewrite Hr in *; discriminate).
  - pose proof (noKeys_test (currentExtractedInfo s)) as Hk.
    run_begin H. repeat case_match; simplify_eq;
      (split; intros Hr; simplify_eq; try reflexivity; try tauto);
      apply Hk in Hr; discriminate Hr.
  - run_begin H. unfold refused. repeat case_match; simplify_eq;
      repeat match goal with
      | H : negb _ = true |- _ => apply negb_true_iff in H
      | H : negb _ = false |- _ => apply negb_false_iff in H
      | H : String.eqb _ _ = true |- _ => apply String.eqb_eq in H
      | H : String.eqb _ _ = false |- _ => apply String.eqb_neq in H
      end; unfold is_Some;
      (split;
       [intros Hr; simplify_eq; first [left; assumption|right; eauto 10]
       |intros [?|(? & (? & ? & ?) & (? & ?) & (? & ?))]; simplify_eq; congruence]).
Qed.

(** X2. The first half of a handler sends a request exactly when it
    returns [true]: then one POST to the endpoint of the operation is the
    only new effect, the step shows processing and the globals are as they
    were; when it returns [false] its only effect is one alert; when it
    throws it has sent nothing. *)
Theorem request_iff_started op s :
  match begin op s with
  | (Ok true, s') =>
      (∃ body, trace s' = trace s ++ [Fetch (endpoint op) "POST" body])
      ∧ shows s' op "processing" ∧ same_globals s s'
  | (Ok false, s') => ∃ msg, s' = set_trace (trace s ++ [Alert msg]) s
  | (Throw _, s') => trace s' = trace s
  end.
Proof.
  destruct (begin op s) as [[[]|e] s'] eqn:H.
  - split; [|split].
    + destruct op; cbn [begin endpoint] in H; run_begin H;
        repeat case_match; simplify_eq; eexists; reflexivity.
    + destruct (begin_started _ _ _ H) as (el & els & body & url & Hel & _ & ->).
      exists (applyStatus "processing" el), "bg-warning". unfold statusElement.
      cbn [dom set_dom set_trace set_loading]. rewrite lookup_insert_eq.
      repeat split. apply applyStatus_shows; reflexivity.
    + destruct (begin_started _ _ _ H) as (el & els & body & url & Hel & _ & ->).
      repeat split.
  - destruct op; cbn [begin] in H; run_begin H;
      repeat case_match; simplify_eq; eexists; reflexivity.
  - destruct op; cbn [begin] in H; run_begin H;
      repeat case_match; simplify_eq; reflexivity.
Qed.

(** X3. On a page that was just loaded, whatever its document, the
    handlers of extract, generate and backtest return with an alert and
    nothing else: only an upload can start. *)
Theorem fresh_page_only_upload d l op :
  op ≠ Upload →
  ∃ msg, begin op (initialState d l)
         = (Ok false, set_trace [Alert msg] (initialState d l)).
Proof.
  intros Hop. destruct op; [contradiction|..]; eexists; reflexivity.
Qed.

(** ** The second half of a handler: what a failed call does *)

Lemma setLoading_ok d context s :
  headers_ok s →
  setLoading d context s
  = (Ok tt, set_loading (loadingEach d context (loading s)).1 s).
Proof.
  intros Hok. destruct (loadingEach_sets d context _ Hok) as (els & Hels & _).
  unfold setLoading. rewrite Hels. reflexivity.
Qed.

Lemma failed_attempt_state (succ : jsval → M unit) pre1 pre2 step context o s el :
  failed o = true →
  dom s !! (step +:+ "Status") = Some el →
  headers_ok s →
  ∃ msg,
    try_finally
      (try_catch
         (result ← await o;
          success ← lift (getProp result "success");
          if truthy success then succ result
          else
            error ← lift (getProp result "error");
            error ← lift (ToString error);
            alert (pre1 +:+ error);;
            updateStatus step "error")
         (λ error, alert (pre2 +:+ message error);; updateStatus step "error"))
      (hideLoading context) s
    = (Ok tt,
       set_loading (loadingEach "none" context (loading s)).1
         (set_dom (<[step +:+ "Status" := applyStatus "error" el]> (dom s))
            (set_trace (trace s ++ [Alert msg]) s))).
Proof.
  intros Hfailed Hel Hok.
  destruct o as [e|result]; cbn [failed] in Hfailed.
  - exists (pre2 +:+ message e).
    unfold try_finally, try_catch, await, throw, alert, emit, modify, updateStatus,
      withElement, hideLoading, mbind, M_bind.
    cbn [dom set_trace]. rewrite Hel. rewrite setLoading_ok by exact Hok. reflexivity.
  - destruct (getProp (Some result) "success") as [success|e] eqn:Hs.
    + apply negb_true_iff in Hfailed.
      destruct (getProp (Some result) "error") as [error|e] eqn:He;
        [|destruct result; discriminate].
      destruct (ToString error) as [text|e] eqn:Ht;
        [exists (pre1 +:+ text)|exists (pre2 +:+ message e)];
        unfold try_finally, try_catch, await, lift, alert, emit, modify, updateStatus,
          withElement, hideLoading, mbind, M_bind, mret, M_ret;
        rewrite Hs, Hfailed, He, Ht; cbn [dom set_trace]; rewrite Hel;
        rewrite setLoading_ok by exact Hok; reflexivity.
    + exists (pre2 +:+ message e).
      unfold try_finally, try_catch, await, lift, alert, emit, modify, updateStatus,
        withElement, hideLoading, mbind, M_bind, mret, M_ret.
      rewrite Hs. cbn [dom set_trace]. rewrite Hel.
      rewrite setLoading_ok by exact Hok. reflexivity.
Qed.

(** X4. A call that fails (the request is rejected, the body is [null],
    or its success flag is falsy) has three effects, on a page with the
    status element of the step and a header in every card: one alert, the
    status of the step set to error, the loading elements of its card
    hidden. Nothing else in the state changes. *)
Theorem failed_call_effect op o s el :
  failed o = true →
  statusElement s op = Some el →
  headers_ok s →
  ∃ msg,
    resume op o s
    = (Ok tt,
       set_loading (loadingEach "none" (contextOf op) (loading s)).1
         (set_dom (<[stepOf op +:+ "Status" := applyStatus "error" el]> (dom s))
            (set_trace (trace s ++ [Alert msg]) s))).
Proof.
  intros Hfailed Hel Hok. unfold statusElement in Hel.
  destruct op; cbn [resume stepOf contextOf] in *;
    unfold uploadPDF_resume, extractContent_resume, generateFactor_resume,
      runBacktest_resume;
    eapply failed_attempt_state; eassumption.
Qed.

(** ** showLoading and hideLoading on any page *)

Lemma loadingEach_split d context els :
  ∃ before rest,
    els = before ++ rest
    ∧ Forall (λ l, header l ≠ None) before
    ∧ (∀ l, head rest = Some l → header l = None)
    ∧ loadingEach d context els
      = (map (displayIn d context) before ++ rest,
         match rest with
         | [] => None
         | _ => Some (TypeError "Cannot read properties of null")
         end).
Proof.
  induction els as [|el els IH].
  - exists [], []. repeat split; [constructor|intros l H; discriminate H].
  - destruct (header el) as [h|] eqn:Hh.
    + destruct IH as (before & rest & -> & Hall & Hrest & Heq).
      exists (el :: before), rest. split; [reflexivity|].
      split; [constructor; [congruence|exact Hall]|]. split; [exact Hrest|].
      cbn [loadingEach]. rewrite Hh, Heq. cbn [map app]. unfold displayIn at 2, inCard.
      rewrite Hh. reflexivity.
    + exists [], (el :: els). split; [reflexivity|]. split; [constructor|].
      split; [intros l H; injection H as <-; exact Hh|].
      cbn [loadingEach]. rewrite Hh. reflexivity.
Qed.

(** X5. [showLoading] and [hideLoading] go through the [.loading]
    elements in order: they set the display of those in the card of the
    context, up to the first element without a card header, where they
    throw; they return exactly when every element has a header. *)
Theorem setLoading_effect d context s :
  ∃ before rest,
    loading s = before ++ rest
    ∧ Forall (λ l, header l ≠ None) before
    ∧ (∀ l, head rest = Some l → header l = None)
    ∧ snd (setLoading d context s)
      = set_loading (map (displayIn d context) before ++ rest) s
    ∧ (fst (setLoading d context s) = Ok tt ↔ rest = [])
    ∧ (rest = [] ↔ headers_ok s).
Proof.
  destruct (loadingEach_split d context (loading s))
    as (before & rest & Hsplit & Hall & Hrest & Heq).
  exists before, rest. split; [exact Hsplit|]. split; [exact Hall|].
  split; [exact Hrest|]. unfold setLoading. rewrite Heq. split; [reflexivity|].
  split.
  - destruct rest; cbn [fst]; split; intros H; try reflexivity; discriminate H.
  - unfold headers_ok. rewrite Hsplit. split.
    + intros ->. rewrite app_nil_r. apply Forall_map. exact Hall.
    + intros H. destruct rest as [|l rest]; [reflexivity|].
      rewrite map_app in H. apply Forall_app in H as [_ H].
      cbn [map] in H. apply Forall_cons in H as [H _].
      contradiction H. apply Hrest. reflexivity.
Qed.

Lemma loadingEach_twice d1 d2 context els :
  loadingEach d2 context (loadingEach d1 context els).1 = loadingEach d2 context els.
Proof.
  induction els as [|el els IH]; [reflexivity|]. cbn [loadingEach].
  destruct (header el) as [h|] eqn:Hh.
  - destruct (loadingEach d1 context els) as [els1 r1] eqn:H1. cbn [fst] in *.
    destruct (includes h (first_word context)) eqn:Hin;
      cbn [loadingEach header]; rewrite ?Hh; rewrite Hin, IH;
      destruct (loadingEach d2 context els) as [els2 r2]; reflexivity.
  - cbn [fst loadingEach]. rewrite Hh. reflexivity.
Qed.

(** X6. Setting the display of the loading elements of a card twice is
    setting it once: [hideLoading] after [showLoading] of the same context
    is [hideLoading] alone. *)
Theorem setLoading_absorbs d1 d2 context s :
  setLoading d2 context (snd (setLoading d1 context s)) = setLoading d2 context s.
Proof.
  unfold setLoading.
  pose proof (loadingEach_twice d1 d2 context (loading s)) as H.
  destruct (loadingEach d1 context (loading s)) as [els1 r1]. cbn [fst snd] in *.
  cbn [loading set_loading]. rewrite H.
  destruct (loadingEach d2 context (loading s)) as [els2 r2].
  destruct s; reflexivity.
Qed.
(** ** Writes to the document *)

Lemma insert_alter (f : Element → Element) id el (m : gmap string Element) :
  m !! id = Some el → <[id := f el]> m = alter f id m.
Proof.
  intros Hel. apply map_eq. intros j. destruct (decide (id = j)) as [<-|Hne].
  - rewrite lookup_insert_eq, lookup_alter_eq, Hel. reflexivity.
  - rewrite lookup_insert_ne, lookup_alter_ne by exact Hne. reflexivity.
Qed.

Lemma alter_absent (f : Element → Element) id (m : gmap string Element) :
  m !! id = None → alter f id m = m.
Proof.
  intros Hel. apply map_eq. intros j. destruct (decide (id = j)) as [<-|Hne].
  - rewrite lookup_alter_eq, Hel. reflexivity.
  - rewrite lookup_alter_ne by exact Hne. reflexivity.
Qed.

Lemma set_dom_same s : set_dom (dom s) s = s.
Proof. destruct s; reflexivity. Qed.

Lemma whenElement_alter id f s :
  whenElement id f s = (Ok tt, set_dom (alter f id (dom s)) s).
Proof.
  unfold whenElement. destruct (dom s !! id) as [el|] eqn:Hel.
  - rewrite (insert_alter f id el _ Hel). reflexivity.
  - rewrite (alter_absent f id _ Hel), set_dom_same. reflexivity.
Qed.

Lemma withElement_alter id f s :
  is_Some (dom s !! id) →
  withElement id f s = (Ok tt, set_dom (alter f id (dom s)) s).
Proof.
  intros [el Hel]. unfold withElement. rewrite Hel, (insert_alter f id el _ Hel).
  reflexivity.
Qed.

Lemma assignString_alter id v f text s :
  is_Some (dom s !! id) → v = Ok text →
  assignString id v f s = (Ok tt, set_dom (alter (f text) id (dom s)) s).
Proof.
  intros Hel ->. unfold assignString, getElementById, gets, lift, mbind, M_bind.
  destruct Hel as [el Hel]. rewrite Hel. cbv beta iota.
  apply withElement_alter. eexists. exact Hel.
Qed.

Lemma set_disabled_twice b el : set_disabled b (set_disabled b el) = set_disabled b el.
Proof. reflexivity. Qed.

(** X7. [toggleInputs] never throws: it sets [disabled] on the elements
    of the list that are in the document, skips the others and changes
    nothing else; [toggleButton] is [toggleInputs] on one id. *)
Theorem toggleInputs_lookup inputIds enabled s :
  ∃ s',
    toggleInputs inputIds enabled s = (Ok tt, s')
    ∧ (∀ id,
         dom s' !! id
         = if decide (id ∈ inputIds) then set_disabled (negb enabled) <$> dom s !! id
           else dom s !! id)
    ∧ s' = set_dom (dom s') s
    ∧ (∀ buttonId, toggleButton buttonId enabled s = toggleInputs [buttonId] enabled s).
Proof.
  assert (∀ buttonId, toggleButton buttonId enabled s = toggleInputs [buttonId] enabled s)
    as Hbutton.
  { intros buttonId. cbn [toggleInputs]. unfold toggleButton, mbind, M_bind.
    rewrite whenElement_alter. reflexivity. }
  revert s Hbutton. induction inputIds as [|id0 rest IH]; intros s Hbutton.
  - exists s. split; [reflexivity|]. split; [intros id; reflexivity|].
    split; [symmetry; apply set_dom_same|exact Hbutton].
  - cbn [toggleInputs]. unfold mbind, M_bind. rewrite whenElement_alter.
    destruct (IH (set_dom (alter (set_disabled (negb enabled)) id0 (dom s)) s))
      as (s' & -> & Hlookup & Hrest & _).
    { intros buttonId. cbn [toggleInputs]. unfold toggleButton, mbind, M_bind.
      rewrite whenElement_alter. reflexivity. }
    exists s'. split; [reflexivity|]. split; [|split; [|exact Hbutton]].
    + intros id. rewrite Hlookup. cbn [dom set_dom].
      destruct (decide (id0 = id)) as [<-|Hne].
      * rewrite lookup_alter_eq.
        destruct (decide (id0 ∈ id0 :: rest)) as [_|Hout]; [|contradiction Hout; left].
        destruct (decide (id0 ∈ rest)); [|reflexivity].
        destruct (dom s !! id0); reflexivity.
      * rewrite lookup_alter_ne by exact Hne.
        destruct (decide (id ∈ rest)) as [Hin|Hout];
          destruct (decide (id ∈ id0 :: rest)) as [Hin'|Hout']; try reflexivity.
        -- contradiction Hout'. right. exact Hin.
        -- apply elem_of_cons in Hin' as [->|Hin']; [contradiction Hne|contradiction Hout];
             reflexivity.
    + rewrite Hrest at 1. destruct s, s'; reflexivity.
Qed.

(** ** editCode and saveCode *)

Lemma assignString_ok id v f text el s :
  dom s !! id = Some el → v = Ok text →
  assignString id v f s = (Ok tt, set_dom (<[id := f text el]> (dom s)) s).
Proof.
  intros Hel ->. unfold assignString, getElementById, gets, lift, withElement, mbind, M_bind.
  rewrite Hel. cbv beta iota. rewrite ?Hel. reflexivity.
Qed.

Lemma assignString_throws id v f e el s :
  dom s !! id = Some el → v = Throw e → assignString id v f s = (Throw e, s).
Proof.
  intros Hel ->. unfold assignString, getElementById, gets, lift, withElement, mbind, M_bind.
  rewrite Hel. cbv beta iota. rewrite ?Hel. reflexivity.
Qed.

Lemma setTextContent_ok id v text el s :
  dom s !! id = Some el → textOf v = Ok text →
  setTextContent id v s = (Ok tt, set_dom (<[id := set_content (Text text) el]> (dom s)) s).
Proof. intros Hel Hv. exact (assignString_ok _ _ _ _ _ _ Hel Hv). Qed.

(** X8. [saveCode] stores the text of the editor as the code and shows
    it, also when it then throws because no modal instance exists; the empty
    text leaves a code with which runBacktest refuses. *)
Theorem saveCode_stores_editor s editor :
  dom s !! "codeEditor" = Some editor →
  is_Some (dom s !! "factorCode") →
  currentFactorCode (snd (saveCode s)) = Some (JStr (value editor))
  ∧ content <$> dom (snd (saveCode s)) !! "factorCode" = Some (Text (value editor))
  ∧ (fst (saveCode s) = Ok tt ↔ modal s = true)
  ∧ (value editor = EmptyString → blocked Backtest (snd (saveCode s))).
Proof.
  intros Heditor [code Hcode].
  unfold saveCode, readValue, getElementById, emit, modify,
    gets, throw, mbind, M_bind, mret, M_ret.
  rewrite Heditor.
  rewrite (setTextContent_ok "factorCode" _ (value editor) code) by (exact Hcode || reflexivity).
  cbn [modal set_trace set_dom set_currentFactorCode].
  destruct (modal s) eqn:Hmodal; cbn [fst snd currentFactorCode set_trace set_dom dom].
  all: rewrite (lookup_insert_eq (dom s) "factorCode"); (split; [reflexivity|]); (split; [reflexivity|]);
    (split; [split; intros H; first [reflexivity|discriminate H]|]);
    intros Hempty; left; cbn; rewrite Hempty; reflexivity.
Qed.

(** X9. On a page with the editor and the code element: when the stored
    code can be put into the editor (it is printable), [editCode] returns
    and [saveCode] after it returns too: the modal that [editCode] created
    is the one hidden, and [editCode] itself assigns no global. When the
    stored code cannot be printed, [editCode] throws and changes
    nothing. *)
Theorem save_after_edit_returns s :
  is_Some (dom s !! "codeEditor") →
  is_Some (dom s !! "factorCode") →
  match valueOf (currentFactorCode s) with
  | Ok text =>
      ∃ s1 s2,
        editCode s = (Ok tt, s1)
        ∧ saveCode s1 = (Ok tt, s2)
        ∧ same_globals s s1
        ∧ trace s2 = trace s ++ [ModalShow "codeEditModal"; PrismHighlight "factorCode";
                                 ModalHide "codeEditModal"]
  | Throw e => editCode s = (Throw e, s)
  end.
Proof.
  intros [editor Heditor] [code Hcode].
  destruct (valueOf (currentFactorCode s)) as [text|e] eqn:Hvalue.
  2:{ unfold editCode, gets, mbind, M_bind.
      rewrite (assignString_throws _ _ _ e editor) by assumption. reflexivity. }
  assert (editCode s
          = (Ok tt,
             set_trace (trace s ++ [ModalShow "codeEditModal"])
               (set_modal true
                  (set_dom (<["codeEditor" := set_value text editor]> (dom s)) s)))) as Hedit.
  { unfold editCode, emit, modify, gets, mbind, M_bind.
    rewrite (assignString_ok _ _ _ text editor) by assumption. reflexivity. }
  rewrite Hedit. eexists _, _. split; [reflexivity|].
  unfold saveCode, readValue, getElementById, emit, modify, gets, throw, mbind, M_bind,
    mret, M_ret.
  cbn [dom set_dom set_modal set_trace set_currentFactorCode modal].
  rewrite lookup_insert_eq.
  rewrite (setTextContent_ok "factorCode" _ text code);
    [|cbn [dom set_dom set_modal set_trace set_currentFactorCode];
      rewrite lookup_insert_ne by discriminate; exact Hcode
     |reflexivity].
  cbn [dom set_dom set_modal set_trace set_currentFactorCode modal].
  split; [reflexivity|]. split; [repeat split|].
  cbn [trace set_trace set_dom set_currentFactorCode set_modal].
  rewrite <- !app_assoc. reflexivity.
Qed.

(** ** loadDatasets *)

(** X10. [loadDatasets] never throws: whatever the response and the
    page, its failure is logged on the console; a rejected request has no
    other effect. *)
Theorem loadDatasets_never_throws o s :
  fst (loadDatasets_resume o s) = Ok tt
  ∧ (∀ e, o = Rejected e →
          loadDatasets_resume o s
          = (Ok tt, set_trace (trace s ++ [ConsoleError "加载数据集失败:" e]) s)).
Proof.
  split.
  - unfold loadDatasets_resume, try_catch.
    match goal with |- context [?body s] => destruct (body s) as [[[]|e] s'] end;
      reflexivity.
  - intros e ->. reflexivity.
Qed.

Lemma set_options_app (sel : Element) more :
  set_options (λ os, (os ++ more)%list) sel
  = mkElement (classList sel) (content sel) (disabled sel) (display sel) (value sel)
              (files sel) (options sel ++ more).
Proof. reflexivity. Qed.

Lemma datasetOption_listable x :
  match datasetOption x with
  | Ok _ => listable x = true
  | Throw _ => listable x = false
  end.
Proof.
  unfold datasetOption, listable. destruct (is_null x); [reflexivity|]. cbn [negb andb].
  destruct (printable (fieldOf x "id")) eqn:Hid.
  2:{ destruct (unprintable_ToString _ Hid) as [e ->]. reflexivity. }
  destruct (printable_ToString _ Hid) as [id ->]. cbn -[ToString fieldOf printable].
  destruct (printable (fieldOf x "name")) eqn:Hname.
  2:{ destruct (unprintable_ToString _ Hname) as [e ->]. reflexivity. }
  destruct (printable_ToString _ Hname) as [name ->]. cbn -[ToString fieldOf printable].
  destruct (printable (fieldOf x "description")) eqn:Hd.
  2:{ destruct (unprintable_ToString _ Hd) as [e ->]. reflexivity. }
  destruct (printable_ToString _ Hd) as [d ->]. reflexivity.
Qed.

Lemma appendOption_element x s sel :
  dom s !! "datasetSelect" = Some sel →
  appendOption x s
  = match datasetOption x with
    | Ok o =>
        (Ok tt,
         set_dom (<["datasetSelect" := set_options (λ os, (os ++ [o])%list) sel]> (dom s)) s)
    | Throw e => (Throw e, s)
    end.
Proof.
  intros Hsel. unfold appendOption, datasetOption, lift, withElement, mbind, M_bind.
  destruct (is_null x) eqn:Hnull.
  - destruct x; try discriminate Hnull. reflexivity.
  - rewrite !(getProp_fieldOf _ _ Hnull).
    destruct (ToString (fieldOf x "id")); [|reflexivity]. cbn -[ToString fieldOf].
    destruct (ToString (fieldOf x "name")); [|reflexivity]. cbn -[ToString fieldOf].
    destruct (ToString (fieldOf x "description")); [|reflexivity]. cbn -[ToString fieldOf].
    rewrite Hsel. reflexivity.
Qed.

Lemma forEach_appendOption elems s sel :
  dom s !! "datasetSelect" = Some sel →
  ∃ r,
    forEach appendOption elems s
    = (r, set_dom (<["datasetSelect" :=
                      set_options (λ os, (os ++ optionsOf elems)%list) sel]>
                     (dom s)) s)
    ∧ (r = Ok tt ↔ forallb listable elems = true).
Proof.
  revert s sel. induction elems as [|x rest IH]; intros s sel Hsel.
  - exists (Ok tt). split; [|split; reflexivity]. cbn [forEach optionsOf].
    rewrite set_options_app, app_nil_r.
    replace (mkElement _ _ _ _ _ _ _) with sel by (destruct sel; reflexivity).
    rewrite insert_id by exact Hsel. rewrite set_dom_same. reflexivity.
  - cbn [forEach optionsOf forallb]. unfold mbind, M_bind.
    rewrite (appendOption_element x s sel Hsel).
    pose proof (datasetOption_listable x) as Hx.
    destruct (datasetOption x) as [o|e]; rewrite Hx.
    + cbn [andb].
      destruct (IH (set_dom (<["datasetSelect" := set_options (λ os, (os ++ [o])%list) sel]>
                               (dom s)) s)
                   (set_options (λ os, (os ++ [o])%list) sel))
        as (r & Heq & Hr).
      { cbn [dom set_dom]. apply lookup_insert_eq. }
      exists r. split; [|exact Hr]. rewrite Heq. f_equal.
      cbn [dom set_dom]. rewrite insert_insert_eq.
      rewrite !set_options_app. cbn [classList content disabled display value files options].
      rewrite <- app_assoc. destruct s; reflexivity.
    + eexists. split.
      * rewrite set_options_app, app_nil_r.
        replace (mkElement _ _ _ _ _ _ _) with sel by (destruct sel; reflexivity).
        rewrite insert_id by exact Hsel. rewrite set_dom_same. reflexivity.
      * split; intros H; discriminate H.
Qed.

(** X11. When the response carries a sequence of datasets, the select
    is reset to its placeholder and gets one option per dataset, in order,
    up to the first dataset that is [null] or whose id, name or
    description cannot be printed (the exception of that one is logged and
    ends the loop); the value and the text of an option are the printed id
    and the printed name and description. The value of the select is
    empty, no other element and no global changes, and nothing is logged
    when every dataset has an option. *)
Theorem loadDatasets_fills_select result elems s select :
  getProp (Some result) "datasets" = Ok (Some (JArr elems)) →
  dom s !! "datasetSelect" = Some select →
  ∃ s' select',
    loadDatasets_resume (Resolved result) s = (Ok tt, s')
    ∧ dom s' !! "datasetSelect" = Some select'
    ∧ options select' = (EmptyString, "请选择数据集") :: optionsOf elems
    ∧ value select' = EmptyString
    ∧ (∀ id, id ≠ "datasetSelect" → dom s' !! id = dom s !! id)
    ∧ (forallb listable elems = true → trace s' = trace s)
    ∧ (forallb listable elems = false →
       ∃ e, trace s' = trace s ++ [ConsoleError "加载数据集失败:" e])
    ∧ same_globals s s'.
Proof.
  intros Hdatasets Hselect.
  unfold loadDatasets_resume, try_catch, await, withElement, lift, mbind, M_bind, mret, M_ret.
  rewrite Hselect, Hdatasets.
  match goal with
  | |- context [forEach appendOption elems (set_dom (<["datasetSelect" := ?el]> _) _)] =>
      destruct (forEach_appendOption elems (set_dom (<["datasetSelect" := el]> (dom s)) s) el)
        as (r & Heq & Hr); [cbn [dom set_dom]; apply lookup_insert_eq|]
  end.
  rewrite Heq. cbn [dom set_dom]. rewrite insert_insert_eq.
  destruct r as [[]|e].
  - eexists _, _. split; [reflexivity|]. cbn [dom set_dom]. rewrite lookup_insert_eq.
    split; [reflexivity|]. split; [reflexivity|]. split; [reflexivity|].
    split; [intros id Hne; apply lookup_insert_ne; congruence|].
    split; [reflexivity|]. split; [|repeat split].
    intros Hbad. rewrite (proj1 Hr eq_refl) in Hbad. discriminate Hbad.
  - eexists _, _. unfold emit, modify. split; [reflexivity|].
    cbn [dom set_dom set_trace]. rewrite lookup_insert_eq.
    split; [reflexivity|]. split; [reflexivity|]. split; [reflexivity|].
    split; [intros id Hne; apply lookup_insert_ne; congruence|].
    split; [|split; [|repeat split]].
    + intros Hgood. apply Hr in Hgood. discriminate Hgood.
    + intros _. exists e. reflexivity.
Qed.

(** ** The renderer without its canvas or its data *)

(** X12. Without its canvas the renderer throws before it destroys
    anything; with the canvas and without data it throws after it has
    destroyed the chart the global refers to, and creates none. *)
Theorem render_without_canvas_or_data data s :
  (dom s !! "returnsChart" = None → ∃ e, drawReturnsChart data s = (Throw e, s))
  ∧ (is_Some (dom s !! "returnsChart") → nullish data = true →
     ∃ e, drawReturnsChart data s
          = (Throw e, set_charts (afterDestroy s) (nextChart s) s)).
Proof.
  split.
  - intros Hcanvas. unfold drawReturnsChart, getElementById, gets, throw, mbind, M_bind.
    rewrite Hcanvas. eexists. reflexivity.
  - intros [canvas Hcanvas] Hdata.
    destruct (drawReturnsChart_throws data s Hdata) as (e & ->). rewrite Hcanvas.
    exists e. reflexivity.
Qed.

(** ** Responses that report success without their payload *)

Lemma displayBacktestResults_throws results s :
  nullish results = true ∨ nullish (getPropOpt results "performance_stats") = true →
  ∃ e, displayBacktestResults results s = (Throw e, s).
Proof.
  intros H. unfold displayBacktestResults, lift, mbind, M_bind.
  destruct results as [[]|]; try (eexists; reflexivity);
    destruct H as [H|H]; try discriminate H; cbn [getProp getPropOpt] in *;
    destruct (assoc "performance_stats" props) as [[]|]; try discriminate H;
    eexists; reflexivity.
Qed.

(** X13. A backtest response that reports success without results, or
    without statistics, is handled as a failure: one alert, the step set to
    error, the loading elements hidden; the statistics on the page and the
    chart are untouched. *)
Theorem backtest_without_results result s el :
  failed (Resolved result) = false →
  nullish (getPropOpt (Some result) "results") = true
  ∨ nullish (getPropOpt (getPropOpt (Some result) "results") "performance_stats") = true →
  statusElement s Backtest = Some el →
  headers_ok s →
  ∃ msg,
    runBacktest_resume (Resolved result) s
    = (Ok tt,
       set_loading (loadingEach "none" "回测分析" (loading s)).1
         (set_dom (<["backtestStatus" := applyStatus "error" el]> (dom s))
            (set_trace (trace s ++ [Alert msg]) s))).
Proof.
  intros Hsuccess Hmissing Hel Hok. unfold statusElement in Hel. cbn [stepOf] in Hel.
  cbn [failed] in Hsuccess.
  destruct (getProp (Some result) "success") as [success|e] eqn:Hs; [|discriminate Hsuccess].
  apply negb_false_iff in Hsuccess.
  assert (getProp (Some result) "results" = Ok (getPropOpt (Some result) "results")) as Hr
    by (destruct result; try discriminate Hs; reflexivity).
  destruct (displayBacktestResults_throws _ s Hmissing) as (e & He).
  exists ("回测失败: " +:+ message e).
  unfold runBacktest_resume, try_finally, try_catch, await, lift, alert, emit, modify,
    updateStatus, withElement, hideLoading, mbind, M_bind, mret, M_ret.
  rewrite Hs, Hsuccess, Hr, He. cbn [dom set_trace]. rewrite Hel.
  rewrite setLoading_ok by exact Hok. reflexivity.
Qed.

Lemma displayExtractionResults_throws info s :
  nullish info = true → ∃ e, displayExtractionResults info s = (Throw e, s).
Proof.
  intros H. destruct info as [[]|]; try discriminate H; eexists; reflexivity.
Qed.

(** X14. An extract response that reports success without extracted
    information ends in error as well, but the stored information has been
    overwritten with the missing value, so that generateFactor refuses
    afterwards. *)
Theorem extract_without_info result s el :
  failed (Resolved result) = false →
  nullish (getPropOpt (Some result) "extracted_info") = true →
  statusElement s Extract = Some el →
  headers_ok s →
  ∃ msg s',
    extractContent_resume (Resolved result) s = (Ok tt, s')
    ∧ s' = set_loading (loadingEach "none" "内容提取" (loading s)).1
             (set_dom (<["extractStatus" := applyStatus "error" el]> (dom s))
                (set_trace (trace s ++ [Alert msg])
                   (set_currentExtractedInfo (getPropOpt (Some result) "extracted_info") s)))
    ∧ blocked Generate s'.
Proof.
  intros Hsuccess Hmissing Hel Hok. unfold statusElement in Hel. cbn [stepOf] in Hel.
  cbn [failed] in Hsuccess.
  destruct (getProp (Some result) "success") as [success|e] eqn:Hs; [|discriminate Hsuccess].
  apply negb_false_iff in Hsuccess.
  assert (getProp (Some result) "extracted_info"
          = Ok (getPropOpt (Some result) "extracted_info")) as Hr
    by (destruct result; try discriminate Hs; reflexivity).
  destruct (displayExtractionResults_throws _
              (set_currentExtractedInfo (getPropOpt (Some result) "extracted_info") s)
              Hmissing) as (e & He).
  exists ("提取失败: " +:+ message e). eexists. split; [|split; [reflexivity|]].
  - unfold extractContent_resume, try_finally, try_catch, await, lift, alert, emit, modify,
      updateStatus, withElement, hideLoading, mbind, M_bind, mret, M_ret.
    rewrite Hs, Hsuccess, Hr, He.
    cbn [dom set_trace set_currentExtractedInfo]. rewrite Hel.
    rewrite setLoading_ok by exact Hok. reflexivity.
  - cbn [blocked currentExtractedInfo set_loading set_dom set_trace set_currentExtractedInfo].
    destruct (getPropOpt (Some result) "extracted_info") as [[]|];
      try discriminate Hmissing; exact I.
Qed.

(** ** What an action never changes *)

Lemma preserves_runBacktest_resume (R : relation State) `{!PageFrame R}
    `{!StatusFrame R "backtest" "success"} `{!StatusFrame R "backtest" "error"} o :
  preserves R (runBacktest_resume o).
Proof. unfold runBacktest_resume. frame. Qed.

(** X15. The globals of the pipeline are assigned by a response that
    reports success to upload, extract or generate, and by the save button;
    every other action (a click on a step, a failed response, a backtest
    response, the page load, the dataset response, the edit button, an
    input) leaves them as they were. *)
Theorem globals_assigned_only_by a sys sys' :
  perform a sys = Some sys' →
  assigns a = false →
  same_globals (page sys) (page sys').
Proof.
  intros Hstep Hassigns.
  destruct a as [op|t o| | | |id v|id fs]; cbn [perform assigns] in *.
  - injection Hstep as <-. rewrite launch_page. apply preserves_begin; apply _.
  - destruct (existsb (task_eqb t) (pending sys)); [|discriminate Hstep].
    injection Hstep as <-. cbn [page]. destruct t as [op|]; cbn [settle].
    + destruct op; cbn [resume];
        try (apply negb_false_iff in Hassigns;
             unfold uploadPDF_resume, extractContent_resume, generateFactor_resume;
             apply (failed_attempt same_globals); [exact Hassigns|intros; frame..]).
      apply preserves_runBacktest_resume; apply _.
    + apply preserves_loadDatasets_resume. apply _.
  - injection Hstep as <-. rewrite launch_page. apply preserves_loadDatasets_begin. apply _.
  - injection Hstep as <-. cbn [turn page]. apply preserves_editCode. apply _.
  - discriminate Hassigns.
  - injection Hstep as <-. cbn [turn page].
    apply preserves_whenElement; [apply _..|reflexivity].
  - injection Hstep as <-. cbn [turn page].
    apply preserves_whenElement; [apply _..|reflexivity].
Qed.

(** ** One chart in every state *)

#[local] Instance keeps_one_chart_preorder : PreOrder keeps_one_chart.
Proof. split; [intros s H; exact H|intros s1 s2 s3 H1 H2 H; auto]. Qed.

#[local] Instance keeps_one_chart_trace : TraceFrame keeps_one_chart.
Proof. intros s t H. exact H. Qed.

#[local] Instance keeps_one_chart_loading : LoadingFrame keeps_one_chart.
Proof.
  intros s d context H. unfold setLoading.
  destruct (loadingEach d context (loading s)). exact H.
Qed.

#[local] Instance keeps_one_chart_content : ContentFrame keeps_one_chart.
Proof. intros s id el f _ _ H. exact H. Qed.

#[local] Instance keeps_one_chart_globals : GlobalsFrame keeps_one_chart.
Proof. intros s v. repeat apply conj; intros Hinv; exact Hinv. Qed.

#[local] Instance keeps_one_chart_status step status :
  StatusFrame keeps_one_chart step status.
Proof. intros s el _ H. exact H. Qed.

Lemma keeps_one_chart_modal b : preserves keeps_one_chart (modify (set_modal b)).
Proof. intros s H. exact H. Qed.

Lemma keeps_one_chart_render data : preserves keeps_one_chart (drawReturnsChart data).
Proof. intros s Hinv. apply renderer_never_leaks, Hinv. Qed.

#[local] Hint Resolve keeps_one_chart_modal keeps_one_chart_render : frame.

(** As [frame], for a relation that the library calls respect only as a
    whole: a handler the hints close is not split. *)
Ltac frame_whole :=
  repeat first
    [ progress intros
    | solve [eauto with frame typeclass_instances]
    | apply preserves_bind; [typeclasses eauto| |]
    | apply preserves_try_catch; [typeclasses eauto| |]
    | apply preserves_try_finally; [typeclasses eauto| |]
    | apply preserves_withElement; [typeclasses eauto..|intros ?; reflexivity]
    | apply preserves_assignString; [typeclasses eauto..|intros ? ?; reflexivity]
    | match goal with
      | |- preserves _ (if ?b then _ else _) => destruct b
      | |- preserves _ (match ?x with _ => _ end) => destruct x
      end ].

Lemma perform_keeps_one_chart a sys sys' :
  perform a sys = Some sys' → keeps_one_chart (page sys) (page sys').
Proof.
  intros Hstep. destruct a as [op|t o| | | |id v|id fs]; cbn [perform] in Hstep.
  - injection Hstep as <-. rewrite launch_page. generalize (page sys).
    change (preserves keeps_one_chart (begin op)).
    destruct op; cbn [begin];
      unfold uploadPDF_begin, extractContent_begin, generateFactor_begin, runBacktest_begin;
      frame_whole.
  - destruct (existsb (task_eqb t) (pending sys)); [|discriminate Hstep].
    injection Hstep as <-. cbn [page]. generalize (page sys).
    change (preserves keeps_one_chart (settle t o)).
    destruct t as [op|]; cbn [settle].
    + destruct op; cbn [resume];
        unfold uploadPDF_resume, extractContent_resume, generateFactor_resume,
          runBacktest_resume;
        frame_whole.
    + unfold loadDatasets_resume. frame_whole.
      induction elems as [|x rest IH]; cbn [forEach]; [frame_whole|].
      apply preserves_bind; [apply _|unfold appendOption; frame_whole|intros _; exact IH].
  - injection Hstep as <-. rewrite launch_page. generalize (page sys).
    change (preserves keeps_one_chart loadDatasets_begin).
    unfold loadDatasets_begin. frame_whole.
  - injection Hstep as <-. cbn [turn page]. generalize (page sys).
    change (preserves keeps_one_chart editCode). unfold editCode. frame_whole.
  - injection Hstep as <-. cbn [turn page]. generalize (page sys).
    change (preserves keeps_one_chart saveCode). unfold saveCode. frame_whole.
  - injection Hstep as <-. cbn [turn page].
    apply preserves_whenElement; [apply _..|reflexivity].
  - injection Hstep as <-. cbn [turn page].
    apply preserves_whenElement; [apply _..|reflexivity].
Qed.

(** X16. In every state the page reaches, by clicks, responses, edits
    and inputs in any order, at most one chart is alive and it is the one
    the global refers to, provided this held at the start. *)
Theorem one_chart_in_every_state sys0 sys :
  chart_inv (page sys0) → reachable sys0 sys → chart_inv (page sys).
Proof.
  intros Hinv Hreach. induction Hreach as [|sys a sys' _ IH Hstep]; [exact Hinv|].
  exact (perform_keeps_one_chart _ _ _ Hstep IH).
Qed.

(** ** One status class in every state *)

Lemma status_kept_preorder : PreOrder status_kept.
Proof.
  split.
  - intros a. left. reflexivity.
  - intros a b c [Hab|Hab] [Hbc|Hbc]; unfold status_kept.
    + left. congruence.
    + right. exact Hbc.
    + right. destruct Hab as (cls & Hcls & Hb). exists cls. split; [exact Hcls|congruence].
    + right. exact Hbc.
Qed.

Lemma applyStatus_kept status el :
  In status (map fst statusClasses) → status_kept el (applyStatus status el).
Proof.
  intros Hin. right. destruct (status_in_table status Hin) as (cls & Hget & Hcls).
  exists cls. split; [exact Hcls|]. apply applyStatus_shows; assumption.
Qed.

Lemma perform_status_kept a sys sys' :
  perform a sys = Some sys' → dom_rel (λ _, status_kept) (page sys) (page sys').
Proof.
  assert (∀ id : string, PreOrder ((λ _, status_kept) id)) as Hpre
    by (intros _; apply status_kept_preorder).
  assert (∀ step status, In status (map fst statusClasses) →
            StatusFrame (dom_rel (λ _, status_kept)) step status) as Hstatus.
  { intros step status Hin. apply dom_rel_status; [exact Hpre|].
    intros el. apply applyStatus_kept, Hin. }
  assert (PageFrame (dom_rel (λ _ : string, status_kept))) as Hpage.
  { apply dom_rel_page; [exact Hpre|]. intros id x y Hsame. left.
    unfold activeClasses. rewrite Hsame. reflexivity. }
  assert (GlobalsFrame (dom_rel (λ _ : string, status_kept))) as Hglobals
    by (apply dom_rel_globals; exact Hpre).
  apply perform_preserves; try assumption.
  - intros op _. apply Hstatus. cbn. auto.
  - intros op o _. split; apply Hstatus; cbn; auto.
Qed.

(** X17. In every state the page reaches, an element of the document is
    still in the document, and its status classes are those it started
    with or exactly one of the four. *)
Theorem one_status_class_in_every_state sys0 sys id el :
  reachable sys0 sys →
  dom (page sys0) !! id = Some el →
  ∃ el',
    dom (page sys) !! id = Some el'
    ∧ (activeClasses el' = activeClasses el
       ∨ ∃ cls, is_status_class cls = true ∧ activeClasses el' = [cls]).
Proof.
  intros Hreach Hel. induction Hreach as [|sys a sys' _ IH Hstep].
  - exists el. split; [exact Hel|left; reflexivity].
  - destruct IH as (el1 & Hel1 & H1).
    pose proof (perform_status_kept _ _ _ Hstep id) as H. rewrite Hel1 in H.
    destruct H as (el2 & Hel2 & H2). exists el2. split; [exact Hel2|].
    destruct H2 as [H2|H2]; [|right; exact H2].
    destruct H1 as [H1|H1]; [left; congruence|right].
    destruct H1 as (cls & Hcls & H1). exists cls. split; [exact Hcls|congruence].
Qed.

(** ** The elements an action writes *)

Section OutsideFrame.
Context (ids : list string).

#[local] Instance outside_preorder : PreOrder (outside ids).
Proof.
  split; [intros s id _; reflexivity|].
  intros s1 s2 s3 H12 H23 id Hout. rewrite (H23 id Hout). apply H12, Hout.
Qed.

#[local] Instance outside_trace : TraceFrame (outside ids).
Proof. intros s t id _. reflexivity. Qed.

#[local] Instance outside_loading : LoadingFrame (outside ids).
Proof.
  intros s d context id _. unfold setLoading.
  destruct (loadingEach d context (loading s)). reflexivity.
Qed.

#[local] Instance outside_library : LibraryFrame (outside ids).
Proof. intros s. repeat split; intros; intros id _; reflexivity. Qed.

#[local] Instance outside_globals : GlobalsFrame (outside ids).
Proof. intros s v. repeat split; intros id _; reflexivity. Qed.

Lemma outside_withElement id f : In id ids → preserves (outside ids) (withElement id f).
Proof.
  intros Hin s id' Hout. unfold withElement.
  destruct (dom s !! id) as [el|]; [|reflexivity]. cbn [snd dom set_dom].
  apply lookup_insert_ne. intros ->. contradiction.
Qed.

Lemma outside_whenElement id f : In id ids → preserves (outside ids) (whenElement id f).
Proof.
  intros Hin s id' Hout. unfold whenElement.
  destruct (dom s !! id) as [el|]; [|reflexivity]. cbn [snd dom set_dom].
  apply lookup_insert_ne. intros ->. contradiction.
Qed.

Lemma outside_updateStatus step status :
  In (step +:+ "Status") ids → preserves (outside ids) (updateStatus step status).
Proof. apply outside_withElement. Qed.

Lemma outside_setInnerHTML id html :
  In id ids → preserves (outside ids) (setInnerHTML id html).
Proof. apply outside_withElement. Qed.

Lemma outside_assignString id v f :
  In id ids → preserves (outside ids) (assignString id v f).
Proof.
  intros H. apply preserves_assignString_of; [apply _|].
  intros text. apply outside_withElement, H.
Qed.

Lemma outside_setTextContent id v :
  In id ids → preserves (outside ids) (setTextContent id v).
Proof. apply outside_assignString. Qed.

Lemma outside_showResult id : In id ids → preserves (outside ids) (showResult id).
Proof. apply outside_whenElement. Qed.

Lemma outside_toggleButton id enabled :
  In id ids → preserves (outside ids) (toggleButton id enabled).
Proof. apply outside_whenElement. Qed.

Lemma outside_toggleInputs inputIds enabled :
  (∀ id, In id inputIds → In id ids) →
  preserves (outside ids) (toggleInputs inputIds enabled).
Proof.
  induction inputIds as [|id rest IH]; intros Hall; cbn [toggleInputs].
  - apply preserves_ret. apply _.
  - apply preserves_bind; [apply _| |intros _].
    + apply outside_whenElement, Hall. left. reflexivity.
    + apply IH. intros id' Hin. apply Hall. right. exact Hin.
Qed.

End OutsideFrame.

#[local] Existing Instances outside_preorder outside_trace outside_loading
  outside_library outside_globals.

#[local] Hint Resolve outside_withElement outside_whenElement outside_updateStatus
  outside_setInnerHTML outside_setTextContent outside_showResult outside_toggleButton
  outside_toggleInputs : frame.

#[local] Hint Extern 1 (In _ _) => cbn; tauto : frame.
#[local] Hint Extern 1 (∀ id, In id _ → In id _) => cbn; tauto : frame.

Lemma perform_outside a sys sys' :
  perform a sys = Some sys' → outside (footprint a) (page sys) (page sys').
Proof.
  intros Hstep. destruct a as [op|t o| | | |id v|id fs]; cbn [perform] in Hstep.
  - injection Hstep as <-. rewrite launch_page. generalize (page sys).
    change (preserves (outside (footprint (Invoke op))) (begin op)).
    destruct op; cbn [begin footprint stepOf];
      unfold uploadPDF_begin, extractContent_begin, generateFactor_begin, runBacktest_begin;
      frame_whole.
  - destruct (existsb (task_eqb t) (pending sys)); [|discriminate Hstep].
    injection Hstep as <-. cbn [page]. generalize (page sys).
    change (preserves (outside (footprint (Settle t o))) (settle t o)).
    destruct t as [op|]; cbn [settle].
    + destruct op; cbn [resume footprint];
        unfold uploadPDF_resume, extractContent_resume, generateFactor_resume,
          runBacktest_resume;
        frame_whole.
    + cbn [footprint]. unfold loadDatasets_resume. frame_whole.
      induction elems as [|x rest IH]; cbn [forEach]; [frame_whole|].
      apply preserves_bind; [apply _|unfold appendOption; frame_whole|intros _; exact IH].
  - injection Hstep as <-. rewrite launch_page. generalize (page sys).
    change (preserves (outside []) loadDatasets_begin).
    unfold loadDatasets_begin. frame_whole.
  - injection Hstep as <-. cbn [turn page]. generalize (page sys).
    change (preserves (outside ["codeEditor"]) editCode). unfold editCode. frame_whole.
  - injection Hstep as <-. cbn [turn page]. generalize (page sys).
    change (preserves (outside ["factorCode"]) saveCode). unfold saveCode. frame_whole.
  - injection Hstep as <-. cbn [turn page footprint].
    apply outside_whenElement. left. reflexivity.
  - injection Hstep as <-. cbn [turn page footprint].
    apply outside_whenElement. left. reflexivity.
Qed.

(** X18. An action writes the elements of its own step only: of the
    elements main.js reaches by id, every one outside the footprint of the
    action is as it was. *)
Theorem writes_only_footprint a sys sys' id :
  perform a sys = Some sys' →
  ¬ In id (footprint a) →
  dom (page sys') !! id = dom (page sys) !! id.
Proof.
  intros Hstep. apply perform_outside, Hstep.
Qed.

(** ** What a successful call does *)

Lemma cleared_hidden context s :
  headers_ok s →
  cleared context (set_loading (loadingEach "none" context (loading s)).1 s).
Proof.
  intros Hok. destruct (loadingEach_sets "none" context _ Hok) as (els & Hels & Hall).
  rewrite Hels. exact Hall.
Qed.

Lemma success_flag result :
  failed (Resolved result) = false →
  ∃ success, getProp (Some result) "success" = Ok success ∧ truthy success = true
             ∧ ∀ k, getProp (Some result) k = Ok (getPropOpt (Some result) k).
Proof.
  cbn [failed]. destruct (getProp (Some result) "success") as [success|e] eqn:Hs;
    [|discriminate]. intros H. apply negb_false_iff in H. exists success.
  split; [reflexivity|]. split; [exact H|].
  intros k. destruct result; try discriminate Hs; reflexivity.
Qed.

Lemma upload_success_state result text s :
  failed (Resolved result) = false →
  textOf (getPropOpt (Some result) "markdown_content") = Ok text →
  is_Some (dom s !! "markdownContent") →
  is_Some (dom s !! "pdfStatus") →
  headers_ok s →
  uploadPDF_resume (Resolved result) s
  = (Ok tt,
     set_loading (loadingEach "none" "PDF上传" (loading s)).1
       (set_dom
          (alter (set_disabled false) "extractBtn"
             (alter (applyStatus "success") "pdfStatus"
                (alter (set_display "block") "markdownResult"
                   (alter (set_content (Text text)) "markdownContent" (dom s)))))
          (set_trace (trace s ++ [PrismHighlight "markdownContent"])
             (set_currentMarkdownContent (getPropOpt (Some result) "markdown_content") s)))).
Proof.
  intros Hsuccess Htext Hcontent Hstatus Hok.
  destruct (success_flag _ Hsuccess) as (success & Hs & Htruthy & Hget).
  unfold uploadPDF_resume, try_finally, try_catch, await, lift, setTextContent, showResult,
    updateStatus, toggleButton, emit, modify, hideLoading, mbind, M_bind, mret, M_ret.
  rewrite Hs, Htruthy, Hget.
  rewrite (assignString_alter _ _ _ text) by assumption.
  rewrite whenElement_alter. cbn [dom set_dom set_trace].
  rewrite withElement_alter
    by (cbn [dom set_dom]; rewrite !lookup_alter_ne by discriminate; exact Hstatus).
  rewrite whenElement_alter. rewrite setLoading_ok by exact Hok.
  reflexivity.
Qed.

(** X19. A response that reports success to the upload with a content
    that can be shown as text, on a page with the text element and the
    status element of the step: the handler returns, the converted text is
    stored and shown, the step shows success, the extract button is
    enabled, the result region is displayed, the loading elements of the
    card are hidden, and no alert is raised. *)
Theorem upload_success_effect result text s :
  failed (Resolved result) = false →
  textOf (getPropOpt (Some result) "markdown_content") = Ok text →
  is_Some (dom s !! "markdownContent") →
  is_Some (dom s !! "pdfStatus") →
  headers_ok s →
  ∃ s',
    uploadPDF_resume (Resolved result) s = (Ok tt, s')
    ∧ currentMarkdownContent s' = getPropOpt (Some result) "markdown_content"
    ∧ content <$> dom s' !! "markdownContent" = Some (Text text)
    ∧ shows s' Upload "success"
    ∧ disabled <$> dom s' !! "extractBtn" = (λ _, false) <$> dom s !! "extractBtn"
    ∧ display <$> dom s' !! "markdownResult" = (λ _, "block") <$> dom s !! "markdownResult"
    ∧ trace s' = trace s ++ [PrismHighlight "markdownContent"]
    ∧ cleared "PDF上传" s'.
Proof.
  intros Hsuccess Htext [c Hcontent] [el Hstatus] Hok. eexists. split.
  { apply (upload_success_state result text);
      [exact Hsuccess|exact Htext|eexists..|exact Hok]; eassumption. }
  cbn [currentMarkdownContent dom trace set_loading set_dom set_trace
         set_currentMarkdownContent].
  split; [reflexivity|]. split.
  { rewrite !lookup_alter_ne by discriminate. rewrite lookup_alter_eq, Hcontent. reflexivity. }
  split.
  { exists (applyStatus "success" el), "bg-success". unfold statusElement.
    cbn [stepOf dom set_loading set_dom].
    rewrite lookup_alter_ne by discriminate. rewrite lookup_alter_eq.
    rewrite !lookup_alter_ne by discriminate. rewrite Hstatus.
    split; [reflexivity|]. split; [reflexivity|]. apply applyStatus_shows; reflexivity. }
  split.
  { rewrite lookup_alter_eq. rewrite !lookup_alter_ne by discriminate.
    destruct (dom s !! "extractBtn"); reflexivity. }
  split.
  { rewrite !lookup_alter_ne by discriminate. rewrite lookup_alter_eq.
    rewrite !lookup_alter_ne by discriminate.
    destruct (dom s !! "markdownResult"); reflexivity. }
  split; [reflexivity|].
  apply (cleared_hidden "PDF上传"
           (set_dom _ (set_trace _ (set_currentMarkdownContent _ s)))). exact Hok.
Qed.

Lemma generate_success_state result text s :
  failed (Resolved result) = false →
  textOf (getPropOpt (Some result) "factor_code") = Ok text →
  is_Some (dom s !! "factorCode") →
  is_Some (dom s !! "factorStatus") →
  headers_ok s →
  generateFactor_resume (Resolved result) s
  = (Ok tt,
     set_loading (loadingEach "none" "因子生成" (loading s)).1
       (set_dom
          (alter (set_disabled false) "endDate"
             (alter (set_disabled false) "startDate"
                (alter (set_disabled false) "datasetSelect"
                   (alter (set_disabled false) "backtestBtn"
                      (alter (set_disabled false) "editBtn"
                         (alter (applyStatus "success") "factorStatus"
                            (alter (set_display "block") "factorResult"
                               (alter (set_content (Text text)) "factorCode"
                                  (dom s)))))))))
          (set_trace (trace s ++ [PrismHighlight "factorCode"])
             (set_currentFactorCode (getPropOpt (Some result) "factor_code") s)))).
Proof.
  intros Hsuccess Htext Hcode Hstatus Hok.
  destruct (success_flag _ Hsuccess) as (success & Hs & Htruthy & Hget).
  unfold generateFactor_resume, try_finally, try_catch, await, lift, setTextContent,
    showResult, updateStatus, toggleButton, emit, modify, hideLoading.
  cbn [toggleInputs]. unfold mbind, M_bind, mret, M_ret.
  rewrite Hs, Htruthy, Hget.
  rewrite (assignString_alter _ _ _ text) by assumption.
  rewrite whenElement_alter. cbn [dom set_dom set_trace].
  rewrite withElement_alter
    by (cbn [dom set_dom]; rewrite !lookup_alter_ne by discriminate; exact Hstatus).
  rewrite !whenElement_alter. cbn [dom set_dom set_trace].
  rewrite setLoading_ok by exact Hok. reflexivity.
Qed.

(** X20. A response that reports success to generate with a code that
    can be shown as text: the code is stored and shown, the step shows
    success, the edit and backtest buttons and the three inputs of the
    backtest card are enabled, the result region is displayed and the
    loading elements of the card are hidden. *)
Theorem generate_success_effect result text s :
  failed (Resolved result) = false →
  textOf (getPropOpt (Some result) "factor_code") = Ok text →
  is_Some (dom s !! "factorCode") →
  is_Some (dom s !! "factorStatus") →
  headers_ok s →
  ∃ s',
    generateFactor_resume (Resolved result) s = (Ok tt, s')
    ∧ currentFactorCode s' = getPropOpt (Some result) "factor_code"
    ∧ content <$> dom s' !! "factorCode" = Some (Text text)
    ∧ shows s' Generate "success"
    ∧ (∀ id, In id ["editBtn"; "backtestBtn"; "datasetSelect"; "startDate"; "endDate"] →
         disabled <$> dom s' !! id = (λ _, false) <$> dom s !! id)
    ∧ display <$> dom s' !! "factorResult" = (λ _, "block") <$> dom s !! "factorResult"
    ∧ trace s' = trace s ++ [PrismHighlight "factorCode"]
    ∧ cleared "因子生成" s'.
Proof.
  intros Hsuccess Htext [c Hcode] [el Hstatus] Hok. eexists. split.
  { apply (generate_success_state result text);
      [exact Hsuccess|exact Htext|eexists..|exact Hok]; eassumption. }
  cbn [currentFactorCode dom trace set_loading set_dom set_trace set_currentFactorCode].
  split; [reflexivity|]. split.
  { rewrite !lookup_alter_ne by discriminate. rewrite lookup_alter_eq, Hcode. reflexivity. }
  split.
  { exists (applyStatus "success" el), "bg-success". unfold statusElement.
    cbn [stepOf dom set_loading set_dom].
    rewrite !lookup_alter_ne by discriminate. rewrite lookup_alter_eq.
    rewrite !lookup_alter_ne by discriminate. rewrite Hstatus.
    split; [reflexivity|]. split; [reflexivity|]. apply applyStatus_shows; reflexivity. }
  split.
  { intros id Hin. cbn [In] in Hin.
    destruct Hin as [<-|[<-|[<-|[<-|[<-|[]]]]]];
      rewrite ?lookup_alter_ne by discriminate;
      rewrite lookup_alter_eq; rewrite ?lookup_alter_ne by discriminate;
      match goal with |- context [dom s !! ?i] => destruct (dom s !! i) end; reflexivity. }
  split.
  { rewrite !lookup_alter_ne by discriminate. rewrite lookup_alter_eq.
    rewrite !lookup_alter_ne by discriminate.
    destruct (dom s !! "factorResult"); reflexivity. }
  split; [reflexivity|].
  apply (cleared_hidden "因子生成"
           (set_dom _ (set_trace _ (set_currentFactorCode _ s)))). exact Hok.
Qed.

Lemma statsCard_reportable strategy stats :
  reportable stats = true → ∃ card, statsCard (strategy, stats) = Ok card.
Proof.
  unfold reportable. intros H.
  apply andb_prop in H as [H H4]. apply andb_prop in H as [H H3].
  apply andb_prop in H as [H H2]. apply andb_prop in H as [Hnull H1].
  apply negb_true_iff in Hnull.
  destruct (printable_ToString _ H1) as [t1 Ht1], (printable_ToString _ H2) as [t2 Ht2],
    (printable_ToString _ H3) as [t3 Ht3], (printable_ToString _ H4) as [t4 Ht4].
  unfold statsCard. rewrite !(getProp_fieldOf _ _ Hnull).
  cbn [mbind Res_bind]. rewrite Ht1. cbn [mbind Res_bind]. rewrite Ht2.
  cbn [mbind Res_bind]. rewrite Ht3. cbn [mbind Res_bind]. rewrite Ht4.
  eexists. reflexivity.
Qed.

Lemma mapJoinEntries_statsCard props :
  forallb (λ entry : string * json, reportable (snd entry)) props = true →
  ∃ html, mapJoinEntries statsCard props = Ok html.
Proof.
  induction props as [|[strategy stats] rest IH]; intros Hall.
  - eexists. reflexivity.
  - cbn [forallb snd] in Hall. apply andb_prop in Hall as [Hstats Hrest].
    destruct (IH Hrest) as (html & Hhtml).
    destruct (statsCard_reportable strategy stats Hstats) as (card & Hcard).
    cbn [mapJoinEntries]. rewrite Hhtml, Hcard. eexists. reflexivity.
Qed.

(** X21. A response that reports success to the backtest, with
    statistics for each strategy (none of them [null], their four figures
    printable) and cumulative returns: the cards of the statistics are
    shown, the chart of the returns replaces the one the global referred to,
    the step shows success, and neither an alert nor a global changes. *)
Theorem backtest_success_effect result props s :
  failed (Resolved result) = false →
  getPropOpt (getPropOpt (Some result) "results") "performance_stats" = Some (JObj props) →
  forallb (λ entry : string * json, reportable (snd entry)) props = true →
  nullish (getPropOpt (getPropOpt (Some result) "results") "cumulative_returns") = false →
  is_Some (dom s !! "performanceStats") →
  is_Some (dom s !! "returnsChart") →
  is_Some (dom s !! "backtestStatus") →
  headers_ok s →
  ∃ s' html,
    runBacktest_resume (Resolved result) s = (Ok tt, s')
    ∧ mapJoinEntries statsCard props = Ok html
    ∧ content <$> dom s' !! "performanceStats" = Some (Html html)
    ∧ charts s'
      = afterDestroy s
        ++ [mkChart (nextChart s) "returnsChart"
              (configOf (getPropOpt (getPropOpt (Some result) "results")
                           "cumulative_returns"))]
    ∧ backtestChart s' = Some (nextChart s)
    ∧ shows s' Backtest "success"
    ∧ display <$> dom s' !! "backtestResult" = (λ _, "block") <$> dom s !! "backtestResult"
    ∧ trace s' = trace s
    ∧ same_globals s s'
    ∧ cleared "回测分析" s'.
Proof.
  intros Hsuccess Hstats Hall Hreturns [stats Hstatsel] Hcanvas [el Hstatus] Hok.
  destruct (success_flag _ Hsuccess) as (success & Hs & Htruthy & Hget).
  destruct (mapJoinEntries_statsCard props Hall) as (html & Hhtml).
  set (results := getPropOpt (Some result) "results") in *.
  assert (nullish results = false) as Hresults
    by (destruct results as [[]|]; try discriminate Hstats; reflexivity).
  assert (runBacktest_resume (Resolved result) s
          = (Ok tt,
             set_loading (loadingEach "none" "回测分析" (loading s)).1
               (set_dom
                  (alter (applyStatus "success") "backtestStatus"
                     (alter (set_display "block") "backtestResult"
                        (alter (set_content (Html html)) "performanceStats" (dom s))))
                  (set_backtestChart (Some (nextChart s))
                     (set_charts
                        (afterDestroy s
                         ++ [mkChart (nextChart s) "returnsChart"
                               (configOf (getPropOpt results "cumulative_returns"))])
                        (S (nextChart s)) s))))) as Hrun.
  { unfold runBacktest_resume, displayBacktestResults, try_finally, try_catch, await, lift,
      setInnerHTML, showResult, updateStatus, hideLoading, mbind, M_bind, mret, M_ret.
    rewrite Hs, Htruthy, Hget. fold results.
    rewrite !(getProp_value _ _ Hresults), Hstats. cbn [Object_entries_of]. rewrite Hhtml.
    rewrite withElement_alter by (eexists; exact Hstatsel).
    rewrite drawReturnsChart_renders;
      [|exact Hreturns
       |cbn [dom set_dom]; rewrite lookup_alter_ne by discriminate; exact Hcanvas].
    rewrite whenElement_alter.
    rewrite withElement_alter
      by (cbn [dom set_dom set_backtestChart set_charts];
          rewrite !lookup_alter_ne by discriminate; eexists; exact Hstatus).
    rewrite setLoading_ok by exact Hok.
    unfold afterDestroy. cbn [dom set_dom set_backtestChart set_charts backtestChart charts
                                nextChart loading].
    destruct s; reflexivity. }
  eexists _, html. split; [exact Hrun|]. split; [exact Hhtml|].
  cbn [dom trace charts backtestChart set_loading set_dom set_backtestChart set_charts].
  split.
  { rewrite !lookup_alter_ne by discriminate. rewrite lookup_alter_eq, Hstatsel.
    reflexivity. }
  split; [reflexivity|]. split; [reflexivity|]. split.
  { exists (applyStatus "success" el), "bg-success". unfold statusElement.
    cbn [stepOf dom set_loading set_dom].
    rewrite lookup_alter_eq. rewrite !lookup_alter_ne by discriminate. rewrite Hstatus.
    split; [reflexivity|]. split; [reflexivity|]. apply applyStatus_shows; reflexivity. }
  split.
  { rewrite lookup_alter_ne by discriminate. rewrite lookup_alter_eq.
    rewrite lookup_alter_ne by discriminate.
    destruct (dom s !! "backtestResult"); reflexivity. }
  split; [reflexivity|]. split; [repeat split|].
  apply (cleared_hidden "回测分析"
           (set_dom _ (set_backtestChart _ (set_charts _ _ s)))). exact Hok.
Qed.

(** ** The loading elements after a call *)

Section SameLoadingFrame.

#[local] Instance same_loading_preorder : PreOrder same_loading.
Proof.
  split; [intros s; reflexivity|].
  intros s1 s2 s3 H12 H23. unfold same_loading in *. congruence.
Qed.

#[local] Instance same_loading_trace : TraceFrame same_loading.
Proof. intros s t. reflexivity. Qed.

#[local] Instance same_loading_library : LibraryFrame same_loading.
Proof. intros s. repeat split. Qed.

#[local] Instance same_loading_content : ContentFrame same_loading.
Proof. intros s id el f _ _. reflexivity. Qed.

#[local] Instance same_loading_globals : GlobalsFrame same_loading.
Proof. intros s v. repeat split. Qed.

#[local] Instance same_loading_status step status : StatusFrame same_loading step status.
Proof. intros s el _. reflexivity. Qed.

Lemma resume_loading op o :
  ∃ body, resume op o = try_finally body (hideLoading (contextOf op))
          ∧ preserves same_loading body.
Proof.
  destruct op; (eexists; split; [reflexivity|frame_whole]).
Qed.

End SameLoadingFrame.

Lemma loadingEach_all d context els :
  Forall (λ h, h ≠ None) (map header els) →
  loadingEach d context els = (map (displayIn d context) els, None).
Proof.
  induction els as [|el rest IH]; intros Hall; [reflexivity|].
  cbn [map] in Hall. apply Forall_cons in Hall as [Hel Hrest].
  cbn [loadingEach map]. rewrite (IH Hrest).
  destruct (header el) as [h|] eqn:Hh; [|congruence].
  unfold displayIn, inCard. rewrite Hh. reflexivity.
Qed.

Lemma loadingEach_done d context els els' :
  loadingEach d context els = (els', None) → els' = map (displayIn d context) els.
Proof.
  revert els'. induction els as [|el rest IH]; intros els' H; cbn [loadingEach] in H.
  - injection H as <-. reflexivity.
  - destruct (header el) as [h|] eqn:Hh; [|discriminate H].
    destruct (loadingEach d context rest) as [rest' r] eqn:Hrest.
    injection H as <- ->. cbn [map]. rewrite (IH _ eq_refl).
    unfold displayIn, inCard. rewrite Hh. reflexivity.
Qed.

Lemma displayIn_twice d1 d2 context l :
  displayIn d2 context (displayIn d1 context l) = displayIn d2 context l.
Proof.
  unfold displayIn at 2. destruct (inCard context l) eqn:Hin; [|reflexivity].
  unfold displayIn, inCard in *. cbn [header]. rewrite Hin. reflexivity.
Qed.

Lemma displayIn_header d context l : header (displayIn d context l) = header l.
Proof. unfold displayIn. destruct (inCard context l); reflexivity. Qed.

(** X22. Across a call, only the loading elements of the card of the
    operation change: shown when the request is sent, hidden when the
    response is handled, whatever the outcome; every other loading element
    keeps its display. *)
Theorem loaders_after_call op o s :
  headers_ok s →
  loading (snd (resume op o s)) = map (displayIn "none" (contextOf op)) (loading s)
  ∧ (∀ s1, begin op s = (Ok true, s1) →
       loading s1 = map (displayIn "block" (contextOf op)) (loading s)
       ∧ loading (snd (run op o s)) = map (displayIn "none" (contextOf op)) (loading s)).
Proof.
  assert (∀ s0, headers_ok s0 →
            loading (snd (resume op o s0))
            = map (displayIn "none" (contextOf op)) (loading s0)) as Hresume.
  { intros s0 Hok0. destruct (resume_loading op o) as (body & -> & Hbody).
    unfold try_finally. specialize (Hbody s0).
    destruct (body s0) as [r s1]. cbn [snd] in Hbody. unfold same_loading in Hbody.
    unfold hideLoading, setLoading. rewrite Hbody.
    rewrite loadingEach_all by exact Hok0.
    destruct r; reflexivity. }
  intros Hok. split; [apply Hresume, Hok|]. intros s1 Hbegin.
  destruct (begin_started _ _ _ Hbegin) as (el & els & body & url & _ & Hels & ->).
  apply loadingEach_done in Hels. cbn [loading set_trace set_loading].
  split; [exact Hels|]. unfold run, mbind, M_bind. rewrite Hbegin.
  rewrite Hresume.
  - cbn [loading set_trace set_loading]. rewrite Hels, map_map.
    apply map_ext. intros l. apply displayIn_twice.
  - unfold headers_ok. cbn [loading set_trace set_loading]. rewrite Hels, map_map.
    erewrite map_ext; [exact Hok|]. intros l. apply displayIn_header.
Qed.

(** ** Requests are sent by clicks and by the page load only *)

Section SameRequestsFrame.

#[local] Instance same_requests_preorder : PreOrder same_requests.
Proof.
  split; [intros s; reflexivity|].
  intros s1 s2 s3 H12 H23. unfold same_requests in *. congruence.
Qed.

#[local] Instance same_requests_loading : LoadingFrame same_requests.
Proof.
  intros s d context. unfold setLoading.
  destruct (loadingEach d context (loading s)). reflexivity.
Qed.

#[local] Instance same_requests_library : LibraryFrame same_requests.
Proof. intros s. repeat split. Qed.

#[local] Instance same_requests_content : ContentFrame same_requests.
Proof. intros s id el f _ _. reflexivity. Qed.

#[local] Instance same_requests_globals : GlobalsFrame same_requests.
Proof. intros s v. repeat split. Qed.

#[local] Instance same_requests_status step status : StatusFrame same_requests step status.
Proof. intros s el _. reflexivity. Qed.

Lemma same_requests_emit e : is_request e = false → preserves same_requests (emit e).
Proof.
  intros He s. unfold same_requests, requests, emit, modify. cbn [snd trace set_trace].
  rewrite List.filter_app. cbn [List.filter]. rewrite He. apply app_nil_r.
Qed.

Lemma same_requests_alert msg : preserves same_requests (alert msg).
Proof. apply same_requests_emit. reflexivity. Qed.

#[local] Hint Resolve same_requests_emit same_requests_alert : frame.
#[local] Hint Extern 1 (is_request _ = false) => reflexivity : frame.

Lemma perform_same_requests a sys sys' :
  perform a sys = Some sys' →
  (∀ op, a ≠ Invoke op) → a ≠ PageLoaded →
  same_requests (page sys) (page sys').
Proof.
  intros Hstep Hclick Hload.
  destruct a as [op|t o| | | |id v|id fs]; cbn [perform] in Hstep.
  - contradiction (Hclick op). reflexivity.
  - destruct (existsb (task_eqb t) (pending sys)); [|discriminate Hstep].
    injection Hstep as <-. cbn [page]. generalize (page sys).
    change (preserves same_requests (settle t o)).
    destruct t as [op|]; cbn [settle].
    + destruct op; cbn [resume];
        unfold uploadPDF_resume, extractContent_resume, generateFactor_resume,
          runBacktest_resume;
        frame_whole.
    + unfold loadDatasets_resume. frame_whole.
      induction elems as [|x rest IH]; cbn [forEach]; [frame_whole|].
      apply preserves_bind; [apply _|unfold appendOption; frame_whole|intros _; exact IH].
  - contradiction Hload. reflexivity.
  - injection Hstep as <-. cbn [turn page]. generalize (page sys).
    change (preserves same_requests editCode). unfold editCode. frame_whole.
  - injection Hstep as <-. cbn [turn page]. generalize (page sys).
    change (preserves same_requests saveCode). unfold saveCode. frame_whole.
  - injection Hstep as <-. cbn [turn page].
    apply preserves_whenElement; [apply _..|reflexivity].
  - injection Hstep as <-. cbn [turn page].
    apply preserves_whenElement; [apply _..|reflexivity].
Qed.

End SameRequestsFrame.

(** X23. A response, the two buttons of the editor and an input never
    send a request: only a click on a step and the page load do. *)
Theorem requests_only_on_click a sys sys' :
  perform a sys = Some sys' →
  (∀ op, a ≠ Invoke op) → a ≠ PageLoaded →
  requests (page sys') = requests (page sys).
Proof. apply perform_same_requests. Qed.

(** ** The code shown is the code stored *)

Section CodeShownFrame.

#[local] Instance keeps_code_shown_preorder : PreOrder keeps_code_shown.
Proof. split; [intros s H; exact H|intros s1 s2 s3 H1 H2 H; auto]. Qed.

#[local] Instance keeps_code_shown_trace : TraceFrame keeps_code_shown.
Proof. intros s t H. exact H. Qed.

#[local] Instance keeps_code_shown_loading : LoadingFrame keeps_code_shown.
Proof.
  intros s d context H. unfold setLoading.
  destruct (loadingEach d context (loading s)). exact H.
Qed.

#[local] Instance keeps_code_shown_library : LibraryFrame keeps_code_shown.
Proof. intros s. repeat apply conj; intros; intros H; exact H. Qed.

Lemma keeps_code_shown_markdown v :
  preserves keeps_code_shown (modify (set_currentMarkdownContent v)).
Proof. intros s H. exact H. Qed.

Lemma keeps_code_shown_info v :
  preserves keeps_code_shown (modify (set_currentExtractedInfo v)).
Proof. intros s H. exact H. Qed.

Lemma keeps_code_shown_insert s id el el' :
  dom s !! id = Some el →
  id ≠ "factorCode" ∨ content el' = content el →
  keeps_code_shown s (set_dom (<[id := el']> (dom s)) s).
Proof.
  intros Hel Hcase Hshown shown text. cbn [dom set_dom currentFactorCode].
  destruct (decide (id = "factorCode")) as [->|Hne].
  - rewrite lookup_insert_eq. intros [= <-] Htext.
    destruct Hcase as [Hne|Hsame]; [congruence|].
    rewrite Hsame. exact (Hshown el text Hel Htext).
  - rewrite lookup_insert_ne by exact Hne. apply Hshown.
Qed.

Lemma keeps_code_shown_withElement id f :
  id ≠ "factorCode" ∨ (∀ el, content (f el) = content el) →
  preserves keeps_code_shown (withElement id f).
Proof.
  intros Hcase s. unfold withElement. destruct (dom s !! id) as [el|] eqn:Hel.
  - apply (keeps_code_shown_insert s id el (f el) Hel). destruct Hcase; auto.
  - intros H. exact H.
Qed.

Lemma keeps_code_shown_whenElement id f :
  id ≠ "factorCode" ∨ (∀ el, content (f el) = content el) →
  preserves keeps_code_shown (whenElement id f).
Proof.
  intros Hcase s. unfold whenElement. destruct (dom s !! id) as [el|] eqn:Hel.
  - apply (keeps_code_shown_insert s id el (f el) Hel). destruct Hcase; auto.
  - intros H. exact H.
Qed.

Lemma keeps_code_shown_updateStatus step status :
  step +:+ "Status" ≠ "factorCode" →
  preserves keeps_code_shown (updateStatus step status).
Proof. intros H. apply keeps_code_shown_withElement. left. exact H. Qed.

Lemma keeps_code_shown_setInnerHTML id html :
  id ≠ "factorCode" → preserves keeps_code_shown (setInnerHTML id html).
Proof. intros H. apply keeps_code_shown_withElement. left. exact H. Qed.

Lemma keeps_code_shown_assignString id v f :
  id ≠ "factorCode" → preserves keeps_code_shown (assignString id v f).
Proof.
  intros H. apply preserves_assignString_of; [apply _|].
  intros text. apply keeps_code_shown_withElement. left. exact H.
Qed.

Lemma keeps_code_shown_setTextContent id v :
  id ≠ "factorCode" → preserves keeps_code_shown (setTextContent id v).
Proof. apply keeps_code_shown_assignString. Qed.

Lemma keeps_code_shown_showResult id : preserves keeps_code_shown (showResult id).
Proof. apply keeps_code_shown_whenElement. right. reflexivity. Qed.

Lemma keeps_code_shown_toggleButton id enabled :
  preserves keeps_code_shown (toggleButton id enabled).
Proof. apply keeps_code_shown_whenElement. right. reflexivity. Qed.

Lemma keeps_code_shown_toggleInputs inputIds enabled :
  preserves keeps_code_shown (toggleInputs inputIds enabled).
Proof.
  induction inputIds as [|id rest IH]; cbn [toggleInputs].
  - apply preserves_ret. apply _.
  - apply preserves_bind; [apply _| |intros _; exact IH].
    apply keeps_code_shown_whenElement. right. reflexivity.
Qed.

(** The two assignments of a new code, and what follows them: the code
    is stored first; when it cannot be shown, the assignment of the text
    throws and the stored code has no text. *)
Lemma keeps_code_shown_store {A} code (rest : M A) :
  preserves keeps_code_shown rest →
  preserves keeps_code_shown
    (modify (set_currentFactorCode code);; setTextContent "factorCode" code;; rest).
Proof.
  intros Hrest s _. unfold modify, setTextContent, mbind, M_bind.
  destruct (dom s !! "factorCode") as [el|] eqn:Hel.
  - destruct (textOf code) as [text|e] eqn:Htext.
    + rewrite (assignString_ok _ _ _ text el) by (exact Hel || reflexivity).
      apply Hrest. intros shown text'.
      cbn [dom set_dom currentFactorCode set_currentFactorCode].
      rewrite lookup_insert_eq. intros [= <-] Htext'. cbn [content set_content].
      congruence.
    + rewrite (assignString_throws _ _ _ e el) by (exact Hel || reflexivity).
      cbn [snd]. intros shown text'. cbn [currentFactorCode set_currentFactorCode].
      intros _ Htext'. congruence.
  - unfold assignString, getElementById, gets, throw, mbind, M_bind.
    cbn [dom set_currentFactorCode]. rewrite Hel. cbn [snd].
    intros shown text'. cbn [dom set_currentFactorCode]. rewrite Hel. discriminate.
Qed.

#[local] Hint Resolve keeps_code_shown_markdown keeps_code_shown_info
  keeps_code_shown_withElement keeps_code_shown_whenElement keeps_code_shown_updateStatus
  keeps_code_shown_setInnerHTML keeps_code_shown_assignString
  keeps_code_shown_setTextContent keeps_code_shown_showResult
  keeps_code_shown_toggleButton keeps_code_shown_toggleInputs : frame.
#[local] Hint Extern 1 (_ ≠ "factorCode") => (intros Heq; cbv in Heq; discriminate Heq) : frame.
#[local] Hint Extern 1 (_ ≠ "factorCode" ∨ _) =>
  (left; intros Heq; cbv in Heq; discriminate Heq) : frame.

Ltac frame_code :=
  repeat first
    [ progress intros
    | apply keeps_code_shown_store
    | solve [eauto with frame typeclass_instances]
    | apply preserves_bind; [typeclasses eauto| |]
    | apply preserves_try_catch; [typeclasses eauto| |]
    | apply preserves_try_finally; [typeclasses eauto| |]
    | match goal with
      | |- preserves _ (if ?b then _ else _) => destruct b
      | |- preserves _ (match ?x with _ => _ end) => destruct x
      end ].

Lemma perform_keeps_code_shown a sys sys' :
  perform a sys = Some sys' → keeps_code_shown (page sys) (page sys').
Proof.
  intros Hstep. destruct a as [op|t o| | | |id v|id fs]; cbn [perform] in Hstep.
  - injection Hstep as <-. rewrite launch_page. generalize (page sys).
    change (preserves keeps_code_shown (begin op)).
    destruct op; cbn [begin];
      unfold uploadPDF_begin, extractContent_begin, generateFactor_begin, runBacktest_begin;
      frame_code.
  - destruct (existsb (task_eqb t) (pending sys)); [|discriminate Hstep].
    injection Hstep as <-. cbn [page]. generalize (page sys).
    change (preserves keeps_code_shown (settle t o)).
    destruct t as [op|]; cbn [settle].
    + destruct op; cbn [resume];
        unfold uploadPDF_resume, extractContent_resume, generateFactor_resume,
          runBacktest_resume;
        frame_code.
    + unfold loadDatasets_resume. frame_code.
      induction elems as [|x rest IH]; cbn [forEach]; [frame_code|].
      apply preserves_bind; [apply _|unfold appendOption; frame_code|intros _; exact IH].
  - injection Hstep as <-. rewrite launch_page. generalize (page sys).
    change (preserves keeps_code_shown loadDatasets_begin).
    unfold loadDatasets_begin. frame_code.
  - injection Hstep as <-. cbn [turn page]. generalize (page sys).
    change (preserves keeps_code_shown editCode). unfold editCode. frame_code.
  - injection Hstep as <-. cbn [turn page]. generalize (page sys).
    change (preserves keeps_code_shown saveCode). unfold saveCode. frame_code.
  - injection Hstep as <-. cbn [turn page].
    apply keeps_code_shown_whenElement. right. reflexivity.
  - injection Hstep as <-. cbn [turn page].
    apply keeps_code_shown_whenElement. right. reflexivity.
Qed.

End CodeShownFrame.

(** X24. In every state the page reaches, the text of [#factorCode] is
    the text of the stored code whenever the stored code has a text (it is
    printable), provided it was so at the start: what the page shows is
    what a backtest sends. *)
Theorem shown_code_is_stored_code sys0 sys :
  code_shown (page sys0) → reachable sys0 sys → code_shown (page sys).
Proof.
  intros Hshown Hreach. induction Hreach as [|sys a sys' _ IH Hstep]; [exact Hshown|].
  exact (perform_keeps_code_shown _ _ _ Hstep IH).
Qed.

(** ** The extracted information on the page *)

Lemma displayExtractionResults_state info html s :
  nullish info = false →
  forallb printable (infoFields info) = true →
  keyFactorsHtml (getPropOpt info "key_factors") = Ok html →
  Forall (λ id, is_Some (dom s !! id)) ["datasetInfo"; "coreProblem"; "solution"; "keyFactors"] →
  ∃ datasetHtml problemHtml solutionHtml,
    displayExtractionResults info s
    = (Ok tt,
       set_trace
         (trace s
          ++ [ConsoleLog "提取的信息:" info;
              ConsoleLog "key_factors类型:"
                (Some (JStr (typeof (getPropOpt info "key_factors"))));
              ConsoleLog "key_factors内容:" (getPropOpt info "key_factors")])
         (set_dom
            (alter (set_content (Html html)) "keyFactors"
               (alter (set_content (Html solutionHtml)) "solution"
                  (alter (set_content (Html problemHtml)) "coreProblem"
                     (alter (set_content (Html datasetHtml)) "datasetInfo" (dom s)))))
            s)).
Proof.
  intros Hinfo Hfields Hhtml Hpage.
  apply Forall_cons in Hpage as [H1 Hpage]. apply Forall_cons in Hpage as [H2 Hpage].
  apply Forall_cons in Hpage as [H3 Hpage]. apply Forall_cons in Hpage as [H4 _].
  apply infoFields_printable in Hfields as ((Hd1 & Hd2 & Hd3) & Hcore & Hs1 & Hs2 & Hs3).
  destruct (infoBlock_returns info "datasets" "主要数据源" "primary" "时间范围" "time_range"
              "数据频率" "frequency" Hinfo Hd1 Hd2 Hd3) as (? & ? & ? & _ & _ & _ & Hdatasets).
  destruct (infoBlock_returns info "solution" "方法" "method" "算法" "algorithm"
              "策略" "strategy" Hinfo Hs1 Hs2 Hs3) as (? & ? & ? & _ & _ & _ & Hsolution).
  destruct (ToString_orDefault _ "未提取到核心问题" Hcore) as [core Hcore'].
  eexists _, _, _.
  unfold displayExtractionResults, setInnerHTML, lift, emit, modify, mbind, M_bind.
  rewrite Hdatasets, Hsolution, !(getProp_value _ _ Hinfo), Hcore', Hhtml.
  rewrite withElement_alter by exact H1. cbn [dom set_dom].
  rewrite withElement_alter
    by (cbn [dom set_dom]; rewrite !lookup_alter_ne by discriminate; exact H2).
  cbn [dom set_dom].
  rewrite withElement_alter
    by (cbn [dom set_dom]; rewrite !lookup_alter_ne by discriminate; exact H3).
  cbn [dom set_dom].
  rewrite withElement_alter
    by (cbn [dom set_dom]; rewrite !lookup_alter_ne by discriminate; exact H4).
  cbn [dom set_dom trace set_trace]. rewrite <- !app_assoc. destruct s; reflexivity.
Qed.

(** X25. A response that reports success to extract, with extracted
    information whose key factors render and whose other shown fields (the
    core problem, and primary, time range and frequency of the datasets,
    method, algorithm and strategy of the solution) are printable, on a
    page with the four result elements and the status element: the
    information is stored, the key factors are shown, the step shows
    success, the generate button is enabled, the result region is
    displayed, the loading elements of the card are hidden, and the only
    other effects are the three console logs. *)
Theorem extract_success_effect result html s :
  failed (Resolved result) = false →
  nullish (getPropOpt (Some result) "extracted_info") = false →
  forallb printable (infoFields (getPropOpt (Some result) "extracted_info")) = true →
  keyFactorsHtml (getPropOpt (getPropOpt (Some result) "extracted_info") "key_factors")
  = Ok html →
  Forall (λ id, is_Some (dom s !! id))
    ["datasetInfo"; "coreProblem"; "solution"; "keyFactors"; "extractStatus"] →
  headers_ok s →
  ∃ s',
    extractContent_resume (Resolved result) s = (Ok tt, s')
    ∧ currentExtractedInfo s' = getPropOpt (Some result) "extracted_info"
    ∧ content <$> dom s' !! "keyFactors" = Some (Html html)
    ∧ shows s' Extract "success"
    ∧ disabled <$> dom s' !! "generateBtn" = (λ _, false) <$> dom s !! "generateBtn"
    ∧ display <$> dom s' !! "extractionResult"
      = (λ _, "block") <$> dom s !! "extractionResult"
    ∧ trace s'
      = trace s
        ++ [ConsoleLog "提取的信息:" (currentExtractedInfo s');
            ConsoleLog "key_factors类型:"
              (Some (JStr (typeof (getPropOpt (currentExtractedInfo s') "key_factors"))));
            ConsoleLog "key_factors内容:"
              (getPropOpt (currentExtractedInfo s') "key_factors")]
    ∧ cleared "内容提取" s'.
Proof.
  intros Hsuccess Hinfo Hfields Hhtml Hpage Hok.
  destruct (success_flag _ Hsuccess) as (success & Hs & Htruthy & Hget).
  set (info := getPropOpt (Some result) "extracted_info") in *.
  assert (Forall (λ id, is_Some (dom s !! id))
            ["datasetInfo"; "coreProblem"; "solution"; "keyFactors"]) as Hfour.
  { repeat (apply Forall_cons in Hpage as [? Hpage]). repeat constructor; assumption. }
  assert (∃ el, dom s !! "extractStatus" = Some el) as [el Hstatus].
  { repeat (apply Forall_cons in Hpage as [? Hpage]). assumption. }
  destruct (displayExtractionResults_state info html (set_currentExtractedInfo info s)
              Hinfo Hfields Hhtml Hfour) as (h1 & h2 & h3 & Hdisplay).
  assert (extractContent_resume (Resolved result) s
          = (Ok tt,
             set_loading (loadingEach "none" "内容提取" (loading s)).1
               (set_dom
                  (alter (set_disabled false) "generateBtn"
                     (alter (applyStatus "success") "extractStatus"
                        (alter (set_display "block") "extractionResult"
                           (alter (set_content (Html html)) "keyFactors"
                              (alter (set_content (Html h3)) "solution"
                                 (alter (set_content (Html h2)) "coreProblem"
                                    (alter (set_content (Html h1)) "datasetInfo"
                                       (dom s))))))))
                  (set_trace
                     (trace s
                      ++ [ConsoleLog "提取的信息:" info;
                          ConsoleLog "key_factors类型:"
                            (Some (JStr (typeof (getPropOpt info "key_factors"))));
                          ConsoleLog "key_factors内容:" (getPropOpt info "key_factors")])
                     (set_currentExtractedInfo info s))))) as Hrun.
  { unfold extractContent_resume, try_finally, try_catch, await, lift, showResult,
      updateStatus, toggleButton, modify, hideLoading, mbind, M_bind, mret, M_ret.
    rewrite Hs, Htruthy, Hget. fold info. rewrite Hdisplay.
    rewrite whenElement_alter.
    rewrite withElement_alter
      by (cbn [dom set_dom set_trace set_currentExtractedInfo];
          rewrite !lookup_alter_ne by discriminate; eexists; exact Hstatus).
    rewrite whenElement_alter. rewrite setLoading_ok by exact Hok.
    cbn [dom set_dom set_trace set_currentExtractedInfo trace loading].
    destruct s; reflexivity. }
  eexists. split; [exact Hrun|].
  cbn [currentExtractedInfo dom trace set_loading set_dom set_trace
         set_currentExtractedInfo].
  split; [reflexivity|]. split.
  { rewrite !lookup_alter_ne by discriminate. rewrite lookup_alter_eq.
    rewrite !lookup_alter_ne by discriminate.
    apply Forall_cons in Hfour as [_ Hfour]. apply Forall_cons in Hfour as [_ Hfour].
    apply Forall_cons in Hfour as [_ Hfour]. apply Forall_cons in Hfour as [[kf ->] _].
    reflexivity. }
  split.
  { exists (applyStatus "success" el), "bg-success". unfold statusElement.
    cbn [stepOf dom set_loading set_dom].
    rewrite lookup_alter_ne by discriminate. rewrite lookup_alter_eq.
    rewrite !lookup_alter_ne by discriminate. rewrite Hstatus.
    split; [reflexivity|]. split; [reflexivity|]. apply applyStatus_shows; reflexivity. }
  split.
  { rewrite lookup_alter_eq. rewrite !lookup_alter_ne by discriminate.
    destruct (dom s !! "generateBtn"); reflexivity. }
  split.
  { rewrite !lookup_alter_ne by discriminate. rewrite lookup_alter_eq.
    rewrite !lookup_alter_ne by discriminate.
    destruct (dom s !! "extractionResult"); reflexivity. }
  split; [reflexivity|].
  apply (cleared_hidden "内容提取"
           (set_dom _ (set_trace _ (set_currentExtractedInfo _ s)))). exact Hok.
Qed.

(** ** When the key factors throw *)

(** X26. The key factors throw in one case only: a given sequence with
    an element that is [null] or has a name, a description or a type that
    cannot be printed (an object with an own [toString] key, or an array
    that holds one). Text is safe whatever it parses to, and so are a
    mapping and every other value. *)
Theorem keyFactorsHtml_throws_iff key_factors :
  (∃ e, keyFactorsHtml key_factors = Throw e)
  ↔ ∃ elems, key_factors = Some (JArr elems) ∧ forallb mappable elems = false.
Proof.
  rewrite keyFactorsHtml_normalize. split.
  - intros (e & H).
    destruct key_factors as [[| b | n | text | elems | props]|]; try discriminate H.
    + unfold normalize in H. destruct (String.eqb text EmptyString); [discriminate H|].
      destruct (JSON_parse text) as [[]|]; discriminate H.
    + exists elems. split; [reflexivity|]. unfold normalize in H.
      destruct (forallb mappable elems) eqn:Hm; [|reflexivity].
      destruct (mapM_mappable _ Hm) as [records Hrecords].
      rewrite Hrecords in H. discriminate H.
  - intros (elems & -> & Hm). unfold normalize.
    destruct (mapM_unmappable _ Hm) as [e ->]. eexists. reflexivity.
Qed.

End Properties.

(** * Examples *)

#[local] Existing Instance exampleBuiltins.

(** C1, as stated, fails on the empty text: the specification's branch
    parses it (the parse fails) and shows the format-error marker with the
    raw text; the code shows the nothing-extracted marker. *)
Lemma empty_text_is_not_parsed :
  normalize_spec (Some (JStr EmptyString)) = Ok (ParseFailed EmptyString)
  ∧ keyFactorsHtml (Some (JStr EmptyString)) = Ok nothingExtractedMarker
  ∧ ¬ four_way_as_stated (Some (JStr EmptyString)).
Proof.
  split; [reflexivity|]. split; [reflexivity|].
  unfold four_way_as_stated. intros H. vm_compute in H. discriminate H.
Qed.

(** Under no builtins does C1 hold as stated: whatever [JSON.parse] makes
    of the empty text, the specification's branch does not end in the
    nothing-extracted marker. *)
Lemma empty_text_under_any_builtins :
  ∀ builtins : Builtins,
    ¬ four_way_as_stated (builtins := builtins) (Some (JStr EmptyString)).
Proof.
  intros builtins H. unfold four_way_as_stated in H.
  cbn -[nothingExtractedMarker formatErrorMarker parseFailedMarker join_empty recordHtml
        mapM] in H.
  destruct (JSON_parse EmptyString) as [[| | | | elems |]|];
    cbn -[mapM] in H; try discriminate H.
  destruct (mapM recordOf elems) as [[|r records]|]; cbn in H; discriminate H.
Qed.

(** C1 on the scenario of the specification: the text of one factor named
    mom gives one record with the two placeholders, as the specification's
    branch has it. *)
Example normalizer_scenario :
  well_shaped (Some (JStr text_mom)) = true
  ∧ normalize (Some (JStr text_mom))
    = Ok (Factors [mkFactor "mom" "无描述" "未分类"])
  ∧ four_way_as_stated (Some (JStr text_mom)).
Proof.
  split; [reflexivity|]. split; [reflexivity|].
  apply key_factors_four_way.
  reflexivity.
Defined.

(** C2, as stated, fails on an element whose name is present and empty:
    the field is there, and the output holds the placeholder instead. *)
Lemma present_falsy_field_replaced :
  fieldOf (JObj [("name", JStr EmptyString)]) "name" = Some (JStr EmptyString)
  ∧ renderFactor 16 (JObj [("name", JStr EmptyString)])
    = Ok (factorDiv 16 "未知因子" "无描述" "未分类")
  ∧ ¬ default_when_missing (fieldOf (JObj [("name", JStr EmptyString)]) "name")
        "未知因子" "未知因子".
Proof.
  repeat split. intros H. cbn in H. discriminate H.
Qed.

(** C2 on a sequence of three elements: a name alone, an empty
    description with a zero type, and an element that is no object. *)
Example defaults_example :
  forallb mappable
    [JObj [("name", JStr "mom")];
     JObj [("description", JStr EmptyString); ("type", JNum (S754_zero false))];
     JStr "momentum"] = true
  ∧ ∃ records,
      keyFactorsHtml
        (Some (JArr [JObj [("name", JStr "mom")];
                     JObj [("description", JStr EmptyString);
                           ("type", JNum (S754_zero false))];
                     JStr "momentum"]))
      = Ok (join_empty (map (recordHtml 16) records))
      ∧ Forall2 (λ e r,
          renderFactor 16 e = Ok (recordHtml 16 r)
          ∧ defaulted (fieldOf e "name") "未知因子" (f_name r)
          ∧ defaulted (fieldOf e "description") "无描述" (f_description r)
          ∧ defaulted (fieldOf e "type") "未分类" (f_type r))
          [JObj [("name", JStr "mom")];
           JObj [("description", JStr EmptyString); ("type", JNum (S754_zero false))];
           JStr "momentum"] records.
Proof.
  split; [reflexivity|].
  apply sequence_elements_defaulted.
  reflexivity.
Defined.


(** So does a sequence with an element whose name is an object with a
    [toString] key: the template cannot print it. As text, the same
    sequence gives the marker of a failed parse. *)
Example unprintable_name_throws :
  keyFactorsHtml (Some (JArr [JObj [("name", JObj [("toString", JNum one)])]]))
  = Throw (TypeError "Cannot convert object to primitive value")
  ∧ keyFactorsHtml (Some (JStr text_unprintable))
    = Ok (parseFailedMarker text_unprintable).
Proof. split; vm_compute; reflexivity. Qed.


(** C4 with code and no dataset chosen. *)
Example runBacktest_refuses_example :
  refused NoDataset codeState
  ∧ runBacktest_begin codeState
    = (Ok false,
       set_trace (trace codeState ++ [Alert (refusalMessage NoDataset)]) codeState)
  ∧ (∀ o, run Backtest o codeState
          = (Ok tt,
             set_trace (trace codeState ++ [Alert (refusalMessage NoDataset)]) codeState))
  ∧ dom (snd (runBacktest_begin codeState)) = dom codeState
  ∧ loading (snd (runBacktest_begin codeState)) = loading codeState
  ∧ refusalMessage NoCode ≠ refusalMessage NoDataset.
Proof.
  assert (refused NoDataset codeState) as Hr.
  { split; [reflexivity|]. split; [eexists; split; vm_compute; reflexivity|].
    split; vm_compute; eexists; reflexivity. }
  split; [exact Hr|].
  apply (runBacktest_refuses NoDataset codeState Hr).
Defined.

(** C5 on an upload whose request is rejected. *)
Example loading_cleared_example :
  begin Upload exampleState = (Ok true, uploadingState)
  ∧ same_headers uploadingState uploadingState
  ∧ cleared (contextOf Upload)
      (snd (resume Upload (Rejected (TypeError "Failed to fetch")) uploadingState))
  ∧ cleared (contextOf Upload)
      (snd (run Upload (Rejected (TypeError "Failed to fetch")) exampleState)).
Proof.
  assert (begin Upload exampleState = (Ok true, uploadingState)) as Hb
    by (vm_compute; reflexivity).
  split; [exact Hb|]. split; [reflexivity|].
  apply (loading_cleared_on_every_path Upload _ exampleState uploadingState
           uploadingState Hb).
  reflexivity.
Defined.

(** C6 on three invocations in a row, the second one without data. *)
Example render_again_example :
  chart_inv exampleState
  ∧ is_Some (dom exampleState !! "returnsChart")
  ∧ nullish exampleReturns = false
  ∧ (length (charts (renderEach [exampleReturns; None] exampleState)) ≤ 1)%nat
  ∧ ∃ c,
      charts (renderEach ([exampleReturns; None] ++ [exampleReturns]) exampleState)
      = [c]
      ∧ backtestChart
          (renderEach ([exampleReturns; None] ++ [exampleReturns]) exampleState)
        = Some (chart_id c)
      ∧ chart_canvas c = "returnsChart"
      ∧ chart_config c = configOf exampleReturns
      ∧ ∀ old,
          In old (charts (renderEach [exampleReturns; None] exampleState)) →
          chart_id old ≠ chart_id c.
Proof.
  assert (chart_inv exampleState) as Hinv by (split; [intros c []|cbn; lia]).
  assert (is_Some (dom exampleState !! "returnsChart")) as Hcanvas
    by (vm_compute; eexists; reflexivity).
  split; [exact Hinv|]. split; [exact Hcanvas|]. split; [reflexivity|].
  exact (render_leaves_one_chart [exampleReturns; None] exampleReturns exampleState
           Hinv Hcanvas eq_refl).
Defined.

(** An invocation without data after a render: the chart is destroyed and
    none is created. *)
Example render_without_data :
  charts (renderEach [exampleReturns; None] exampleState) = []
  ∧ backtestChart (renderEach [exampleReturns; None] exampleState)
    = Some 0%nat.
Proof. split; reflexivity. Qed.

(** The tick of the ratio 0.15 reads 15.0%. *)
Example tick_example : tickCallback ratio15 = "15.0%".
Proof. vm_compute. reflexivity. Qed.

(** C7 on the example returns. *)
Example six_series_example :
  nullish exampleReturns = false
  ∧ is_Some (dom exampleState !! "returnsChart")
  ∧ ∃ s' c,
      drawReturnsChart exampleReturns exampleState = (Ok tt, s')
      ∧ In c (charts s') ∧ backtestChart s' = Some (chart_id c)
      ∧ map ds_label (cfg_datasets (chart_config c))
        = ["Q1 (最低)"; "Q2"; "Q3"; "Q4"; "Q5 (最高)"; "多空策略"]
      ∧ map ds_data (cfg_datasets (chart_config c))
        = [getPropOpt exampleReturns "Q1"; getPropOpt exampleReturns "Q2";
           getPropOpt exampleReturns "Q3"; getPropOpt exampleReturns "Q4";
           getPropOpt exampleReturns "Q5"; getPropOpt exampleReturns "long_short"]
      ∧ cfg_labels (chart_config c) = getPropOpt exampleReturns "dates"
      ∧ (∀ value,
           opt_y_ticks_callback (cfg_options (chart_config c)) value
           = Number_toFixed (Number_mul value hundred) 1 +:+ "%")
      ∧ (∀ value sign m e,
           Number_mul value hundred = S754_finite sign m e →
           (Z.pos m * 2 ^ Z.max e 0 < 10 ^ 21 * 2 ^ Z.max (- e) 0)%Z →
           ∃ n : N,
             (2 * 2 ^ Z.max (- e) 0 * Z.of_N n
                ≤ 2 * (Z.pos m * 2 ^ Z.max e 0) * 10 + 2 ^ Z.max (- e) 0
                < 2 * 2 ^ Z.max (- e) 0 * (Z.of_N n + 1))%Z
             ∧ opt_y_ticks_callback (cfg_options (chart_config c)) value
               = (if sign then "-" else EmptyString)
                 +:+ pretty (n `div` 10)%N +:+ "."
                 +:+ String (pretty_N_char (n `mod` 10)%N) EmptyString +:+ "%")
      ∧ (∀ sign m e,
           valid_binary prec emax (S754_finite sign m e) = true →
           ∃ m' d,
             (0 ≤ d)%Z
             ∧ (Z.pos m' < 2 ^ 53)%Z
             ∧ (2 ^ 52 ≤ Z.pos m' ∨ e - 46 + d = -1074)%Z
             ∧ (2 * Z.abs (Z.pos m' * 2 ^ d - 100 * 2 ^ 46 * Z.pos m) ≤ 2 ^ d)%Z
             ∧ Number_mul (S754_finite sign m e) hundred
               = if (e - 46 + d <=? 971)%Z then S754_finite sign m' (e - 46 + d)
                 else S754_infinity sign)
      ∧ (∀ sign,
           opt_y_ticks_callback (cfg_options (chart_config c)) (S754_zero sign) = "0.0%")
      ∧ dom s' = dom exampleState ∧ same_globals exampleState s'.
Proof.
  assert (is_Some (dom exampleState !! "returnsChart")) as Hcanvas
    by (vm_compute; eexists; reflexivity).
  split; [reflexivity|]. split; [exact Hcanvas|].
  exact (chart_renders_six_series exampleReturns exampleState eq_refl Hcanvas).
Defined.

(** C9 on the upload badge. *)
Example updateStatus_example :
  In "success" (map fst statusClasses)
  ∧ dom exampleState !! ("pdf" +:+ "Status") = Some badge
  ∧ ∃ cls s' el',
      table_get statusClasses "success" = Some cls
      ∧ updateStatus "pdf" "success" exampleState = (Ok tt, s')
      ∧ dom s' !! ("pdf" +:+ "Status") = Some el'
      ∧ activeClasses el' = [cls]
      ∧ (∀ c, is_status_class c = true → c ≠ cls → ¬ In c (classList el'))
      ∧ (∀ c, is_status_class c = false → In c (classList el') ↔ In c (classList badge))
      ∧ updateStatus "pdf" "success" s' = (Ok tt, s').
Proof.
  assert (In "success" (map fst statusClasses)) as Hstatus by (cbn; auto).
  assert (dom exampleState !! ("pdf" +:+ "Status") = Some badge) as Hel
    by (vm_compute; reflexivity).
  split; [exact Hstatus|]. split; [exact Hel|].
  exact (updateStatus_exclusive_idempotent "pdf" "success" exampleState badge Hstatus Hel).
Defined.

(** C10 on that scenario. *)
Example failure_example :
  failed quotaExceeded = true
  ∧ same_globals exampleState (snd (begin Generate exampleState))
  ∧ same_globals exampleState
      (snd (resume Generate quotaExceeded exampleState))
  ∧ same_globals exampleState
      (snd (run Generate quotaExceeded exampleState)).
Proof.
  split; [reflexivity|].
  exact (failure_keeps_pipeline_state Generate quotaExceeded exampleState eq_refl).
Defined.

(** After the click the loading element of the upload card is shown, and
    the request is the only effect besides. *)
Example upload_click_effects :
  map shown (loading uploadingState) = ["block"; "none"; "none"; "none"]
  ∧ trace uploadingState = [Fetch "/api/upload_pdf" "POST" (FormData "paper.pdf")].
Proof. split; reflexivity. Qed.

(** C8 on the click that starts the upload. *)
Example upload_click_example :
  pending loadedSystem = []
  ∧ reachable loadedSystem loadedSystem
  ∧ perform (Invoke Upload) loadedSystem = Some uploadingSystem
  ∧ (Invoke Upload = Invoke Upload →
     fst (begin Upload (page loadedSystem)) = Ok true →
     shows (page uploadingSystem) Upload "processing")
  ∧ (∀ c, c = "bg-success" ∨ c = "bg-danger" →
       has_class (page uploadingSystem) Upload c →
       ¬ has_class (page loadedSystem) Upload c →
       ∃ o, Invoke Upload = Settle (Workflow Upload) o)
  ∧ (∀ o, Invoke Upload = Settle (Workflow Upload) o →
       shows (page uploadingSystem) Upload "success"
       ∨ shows (page uploadingSystem) Upload "error")
  ∧ (shows (page loadedSystem) Upload "pending" →
       (shows (page uploadingSystem) Upload "pending"
        ∨ shows (page uploadingSystem) Upload "processing")
       ∧ ¬ shows (page uploadingSystem) Upload "success"
       ∧ ¬ shows (page uploadingSystem) Upload "error").
Proof.
  assert (perform (Invoke Upload) loadedSystem = Some uploadingSystem) as Hstep
    by (vm_compute; reflexivity).
  split; [reflexivity|]. split; [apply reach_start|]. split; [exact Hstep|].
  exact (status_passes_through_processing loadedSystem loadedSystem (Invoke Upload)
           uploadingSystem Upload eq_refl (reach_start loadedSystem) Hstep).
Defined.

(** The whole upload of the scenario: the click, then the response with
    the converted text; the step shows success and the extract button is
    enabled. *)
Example upload_scenario :
  ∃ sys el button,
    perform
      (Settle (Workflow Upload)
         (Resolved (JObj [("success", JBool true); ("markdown_content", JStr "# Title")])))
      uploadingSystem = Some sys
    ∧ pending sys = []
    ∧ currentMarkdownContent (page sys) = Some (JStr "# Title")
    ∧ dom (page sys) !! "pdfStatus" = Some el
    ∧ classList el = ["badge"; "bg-success"] ∧ content el = Text "已完成"
    ∧ dom (page sys) !! "extractBtn" = Some button ∧ disabled button = false
    ∧ map shown (loading (page sys)) = ["none"; "none"; "none"; "none"].
Proof.
  eexists. eexists. eexists. vm_compute. repeat split.
Qed.

(** ** Further examples *)

Lemma example_headers_ok : headers_ok exampleState.
Proof. repeat constructor; discriminate. Qed.

(** X3 on the extract button of a fresh page. *)
Example fresh_page_example :
  Extract ≠ Upload
  ∧ ∃ msg, begin Extract (initialState examplePage exampleLoading)
           = (Ok false, set_trace [Alert msg] (initialState examplePage exampleLoading)).
Proof.
  split; [discriminate|].
  apply (fresh_page_only_upload examplePage exampleLoading Extract). discriminate.
Defined.

(** X4 on the response that reports an exceeded quota. *)
Example failed_call_example :
  failed quotaExceeded = true
  ∧ statusElement exampleState Generate = Some badge
  ∧ ∃ msg,
      resume Generate quotaExceeded exampleState
      = (Ok tt,
         set_loading (loadingEach "none" (contextOf Generate) (loading exampleState)).1
           (set_dom (<[stepOf Generate +:+ "Status" := applyStatus "error" badge]>
                       (dom exampleState))
              (set_trace (trace exampleState ++ [Alert msg]) exampleState))).
Proof.
  split; [reflexivity|]. split; [vm_compute; reflexivity|].
  apply (failed_call_effect Generate quotaExceeded exampleState badge);
    [reflexivity|vm_compute; reflexivity|exact example_headers_ok].
Defined.

(** X8 on the empty editor of the example page. *)
Example saveCode_example :
  dom exampleState !! "codeEditor" = Some plain
  ∧ currentFactorCode (snd (saveCode exampleState)) = Some (JStr (value plain))
  ∧ content <$> dom (snd (saveCode exampleState)) !! "factorCode" = Some (Text (value plain))
  ∧ (fst (saveCode exampleState) = Ok tt ↔ modal exampleState = true)
  ∧ (value plain = EmptyString → blocked Backtest (snd (saveCode exampleState))).
Proof.
  assert (dom exampleState !! "codeEditor" = Some plain) as Heditor
    by (vm_compute; reflexivity).
  split; [exact Heditor|].
  apply (saveCode_stores_editor exampleState plain Heditor).
  vm_compute. eexists. reflexivity.
Defined.

(** X9 on the page with generated code. *)
Example save_after_edit_example :
  valueOf (currentFactorCode codeState) = Ok "def factor(df): return df"
  ∧ ∃ s1 s2,
      editCode codeState = (Ok tt, s1)
      ∧ saveCode s1 = (Ok tt, s2)
      ∧ same_globals codeState s1
      ∧ trace s2 = trace codeState
                   ++ [ModalShow "codeEditModal"; PrismHighlight "factorCode";
                       ModalHide "codeEditModal"].
Proof.
  split; [reflexivity|].
  apply (save_after_edit_returns codeState); vm_compute; eexists; reflexivity.
Defined.

(** A code that cannot be printed: [editCode] throws, and nothing
    changes. *)
Example edit_unprintable_code :
  editCode (set_currentFactorCode (Some (JObj [("toString", JNull)])) exampleState)
  = (Throw (TypeError "Cannot convert object to primitive value"),
     set_currentFactorCode (Some (JObj [("toString", JNull)])) exampleState).
Proof. reflexivity. Qed.

(** X11 on two datasets, the second one with an id only. *)
Example loadDatasets_example :
  getProp (Some datasetsBody) "datasets"
  = Ok (Some (JArr [JObj [("id", JStr "csi300"); ("name", JStr "CSI 300");
                          ("description", JStr "daily")];
                    JObj [("id", JStr "csi500")]]))
  ∧ ∃ s' select',
      loadDatasets_resume (Resolved datasetsBody) exampleState = (Ok tt, s')
      ∧ dom s' !! "datasetSelect" = Some select'
      ∧ options select'
        = (EmptyString, "请选择数据集")
          :: optionsOf [JObj [("id", JStr "csi300"); ("name", JStr "CSI 300");
                              ("description", JStr "daily")];
                        JObj [("id", JStr "csi500")]]
      ∧ value select' = EmptyString
      ∧ (∀ id, id ≠ "datasetSelect" → dom s' !! id = dom exampleState !! id)
      ∧ (forallb listable [JObj [("id", JStr "csi300"); ("name", JStr "CSI 300");
                                 ("description", JStr "daily")];
                           JObj [("id", JStr "csi500")]] = true →
         trace s' = trace exampleState)
      ∧ (forallb listable [JObj [("id", JStr "csi300"); ("name", JStr "CSI 300");
                                 ("description", JStr "daily")];
                           JObj [("id", JStr "csi500")]] = false →
         ∃ e, trace s' = trace exampleState ++ [ConsoleError "加载数据集失败:" e])
      ∧ same_globals exampleState s'.
Proof.
  split; [reflexivity|].
  apply (loadDatasets_fills_select datasetsBody _ exampleState (set_disabled true plain));
    vm_compute; reflexivity.
Defined.

(** The options of that example, and of datasets of which the second one
    cannot be listed: the loop ends there. *)
Example loadDatasets_options :
  optionsOf [JObj [("id", JStr "csi300"); ("name", JStr "CSI 300");
                   ("description", JStr "daily")];
             JObj [("id", JStr "csi500")]]
  = [("csi300", "CSI 300 - daily"); ("csi500", "undefined - undefined")]
  ∧ forallb listable unlistable = false
  ∧ optionsOf unlistable = [("csi300", "CSI 300 - daily")].
Proof. repeat split. Qed.

(** X13 on a body with the success flag only. *)
Example backtest_without_results_example :
  failed (Resolved successOnly) = false
  ∧ ∃ msg,
      runBacktest_resume (Resolved successOnly) exampleState
      = (Ok tt,
         set_loading (loadingEach "none" "回测分析" (loading exampleState)).1
           (set_dom (<["backtestStatus" := applyStatus "error" badge]> (dom exampleState))
              (set_trace (trace exampleState ++ [Alert msg]) exampleState))).
Proof.
  split; [reflexivity|].
  apply (backtest_without_results successOnly exampleState badge);
    [reflexivity|left; reflexivity|vm_compute; reflexivity|exact example_headers_ok].
Defined.

(** X14 on the same body. *)
Example extract_without_info_example :
  failed (Resolved successOnly) = false
  ∧ ∃ msg s',
      extractContent_resume (Resolved successOnly) exampleState = (Ok tt, s')
      ∧ s' = set_loading (loadingEach "none" "内容提取" (loading exampleState)).1
               (set_dom (<["extractStatus" := applyStatus "error" badge]> (dom exampleState))
                  (set_trace (trace exampleState ++ [Alert msg])
                     (set_currentExtractedInfo
                        (getPropOpt (Some successOnly) "extracted_info") exampleState)))
      ∧ blocked Generate s'.
Proof.
  split; [reflexivity|].
  apply (extract_without_info successOnly exampleState badge);
    [reflexivity|reflexivity|vm_compute; reflexivity|exact example_headers_ok].
Defined.

Lemma upload_click_step : perform (Invoke Upload) loadedSystem = Some uploadingSystem.
Proof. vm_compute. reflexivity. Qed.

Lemma upload_click_reachable : reachable loadedSystem uploadingSystem.
Proof. exact (reach_step _ _ _ _ (reach_start _) upload_click_step). Qed.

(** X15 on the click that starts the upload. *)
Example globals_after_click :
  perform (Invoke Upload) loadedSystem = Some uploadingSystem
  ∧ assigns (Invoke Upload) = false
  ∧ same_globals (page loadedSystem) (page uploadingSystem).
Proof.
  split; [exact upload_click_step|]. split; [reflexivity|].
  exact (globals_assigned_only_by _ _ _ upload_click_step eq_refl).
Defined.

Lemma backtest_twice_reachable : reachable backtestingSystem backtestedTwice.
Proof.
  apply (reach_step _ backtestedOnce (Settle (Workflow Backtest) (Resolved backtested)));
    [|reflexivity].
  apply (reach_step _ backtestingSystem (Settle (Workflow Backtest) (Resolved backtested)));
    [apply reach_start|reflexivity].
Qed.

(** X16 on two backtests in flight: the response to the first creates a
    chart, the response to the second replaces it. *)
Example one_chart_example :
  chart_inv (page backtestingSystem)
  ∧ reachable backtestingSystem backtestedTwice
  ∧ map chart_id (charts (page backtestedOnce)) = [0%nat]
  ∧ map chart_id (charts (page backtestedTwice)) = [1%nat]
  ∧ chart_inv (page backtestedTwice).
Proof.
  assert (chart_inv (page backtestingSystem)) as Hinv by (split; [intros c []|cbn; lia]).
  split; [exact Hinv|]. split; [exact backtest_twice_reachable|].
  split; [reflexivity|]. split; [reflexivity|].
  exact (one_chart_in_every_state backtestingSystem backtestedTwice Hinv
           backtest_twice_reachable).
Defined.

(** X17 on the badge of the upload step after that click. *)
Example one_status_class_example :
  dom (page loadedSystem) !! "pdfStatus" = Some badge
  ∧ ∃ el',
      dom (page uploadingSystem) !! "pdfStatus" = Some el'
      ∧ (activeClasses el' = activeClasses badge
         ∨ ∃ cls, is_status_class cls = true ∧ activeClasses el' = [cls]).
Proof.
  assert (dom (page loadedSystem) !! "pdfStatus" = Some badge) as Hbadge
    by (vm_compute; reflexivity).
  split; [exact Hbadge|].
  exact (one_status_class_in_every_state loadedSystem uploadingSystem "pdfStatus" badge
           upload_click_reachable Hbadge).
Defined.

(** X18 on that click: the code element is as it was. *)
Example footprint_example :
  ¬ In "factorCode" (footprint (Invoke Upload))
  ∧ dom (page uploadingSystem) !! "factorCode" = dom (page loadedSystem) !! "factorCode".
Proof.
  assert (¬ In "factorCode" (footprint (Invoke Upload))) as Hout
    by (cbn; intros [H|[]]; discriminate H).
  split; [exact Hout|].
  exact (writes_only_footprint _ _ _ "factorCode" upload_click_step Hout).
Defined.

(** X19 on the response with the converted text. *)
Example upload_success_example :
  failed (Resolved uploaded) = false
  ∧ textOf (getPropOpt (Some uploaded) "markdown_content") = Ok "# Title"
  ∧ ∃ s',
      uploadPDF_resume (Resolved uploaded) exampleState = (Ok tt, s')
      ∧ currentMarkdownContent s' = getPropOpt (Some uploaded) "markdown_content"
      ∧ content <$> dom s' !! "markdownContent" = Some (Text "# Title")
      ∧ shows s' Upload "success"
      ∧ disabled <$> dom s' !! "extractBtn"
        = (λ _, false) <$> dom exampleState !! "extractBtn"
      ∧ display <$> dom s' !! "markdownResult"
        = (λ _, "block") <$> dom exampleState !! "markdownResult"
      ∧ trace s' = trace exampleState ++ [PrismHighlight "markdownContent"]
      ∧ cleared "PDF上传" s'.
Proof.
  split; [reflexivity|]. split; [reflexivity|].
  apply (upload_success_effect uploaded "# Title" exampleState);
    [reflexivity|reflexivity|vm_compute; eexists; reflexivity..|exact example_headers_ok].
Defined.

(** X20 on the response with the generated code. *)
Example generate_success_example :
  failed (Resolved generated) = false
  ∧ textOf (getPropOpt (Some generated) "factor_code") = Ok "def factor(df): return df"
  ∧ ∃ s',
      generateFactor_resume (Resolved generated) exampleState = (Ok tt, s')
      ∧ currentFactorCode s' = getPropOpt (Some generated) "factor_code"
      ∧ content <$> dom s' !! "factorCode" = Some (Text "def factor(df): return df")
      ∧ shows s' Generate "success"
      ∧ (∀ id, In id ["editBtn"; "backtestBtn"; "datasetSelect"; "startDate"; "endDate"] →
           disabled <$> dom s' !! id = (λ _, false) <$> dom exampleState !! id)
      ∧ display <$> dom s' !! "factorResult"
        = (λ _, "block") <$> dom exampleState !! "factorResult"
      ∧ trace s' = trace exampleState ++ [PrismHighlight "factorCode"]
      ∧ cleared "因子生成" s'.
Proof.
  split; [reflexivity|]. split; [reflexivity|].
  apply (generate_success_effect generated "def factor(df): return df" exampleState);
    [reflexivity|reflexivity|vm_compute; eexists; reflexivity..|exact example_headers_ok].
Defined.

(** A code that cannot be shown is stored all the same, and the step ends
    in error. *)
Example generate_unprintable_code :
  ∃ s' el,
    generateFactor_resume
      (Resolved (JObj [("success", JBool true);
                       ("factor_code", JObj [("toString", JNull)])])) exampleState
    = (Ok tt, s')
    ∧ currentFactorCode s' = Some (JObj [("toString", JNull)])
    ∧ dom s' !! "factorCode" = dom exampleState !! "factorCode"
    ∧ dom s' !! "factorStatus" = Some el
    ∧ classList el = ["badge"; "bg-danger"]
    ∧ trace s' = [Alert "生成失败: Cannot convert object to primitive value"].
Proof. eexists. eexists. vm_compute. repeat split. Qed.

(** X21 on a response with the statistics of one strategy and the returns
    over one date. *)
Example backtest_success_example :
  failed (Resolved backtested) = false
  ∧ forallb (λ entry : string * json, reportable (snd entry))
      [("Q1_return",
        JObj [("annual_return", JNum one); ("annual_volatility", JNum one);
              ("sharpe_ratio", JNum one); ("max_drawdown", JNum one)])] = true
  ∧ ∃ s' html,
      runBacktest_resume (Resolved backtested) exampleState = (Ok tt, s')
      ∧ mapJoinEntries statsCard
          [("Q1_return",
            JObj [("annual_return", JNum one); ("annual_volatility", JNum one);
                  ("sharpe_ratio", JNum one); ("max_drawdown", JNum one)])]
        = Ok html
      ∧ content <$> dom s' !! "performanceStats" = Some (Html html)
      ∧ charts s'
        = afterDestroy exampleState
          ++ [mkChart (nextChart exampleState) "returnsChart"
                (configOf (getPropOpt (getPropOpt (Some backtested) "results")
                             "cumulative_returns"))]
      ∧ backtestChart s' = Some (nextChart exampleState)
      ∧ shows s' Backtest "success"
      ∧ display <$> dom s' !! "backtestResult"
        = (λ _, "block") <$> dom exampleState !! "backtestResult"
      ∧ trace s' = trace exampleState
      ∧ same_globals exampleState s'
      ∧ cleared "回测分析" s'.
Proof.
  split; [reflexivity|]. split; [reflexivity|].
  apply (backtest_success_effect backtested _ exampleState);
    [reflexivity|reflexivity|reflexivity|reflexivity
    |vm_compute; eexists; reflexivity..|exact example_headers_ok].
Defined.

(** The card of that strategy shows its label and its figures, and the
    label of a strategy that the table does not name is the name itself,
    or what the object literal inherits under that name. *)
Example backtest_card_example :
  (∃ html,
     statsCard ("Q1_return",
                JObj [("annual_return", JNum one); ("annual_volatility", JNum one);
                      ("sharpe_ratio", JNum one); ("max_drawdown", JNum one)])
     = Ok html
     ∧ includes html ("mb-1" +:+ dq +:+ ">Q1 (最低)</h6>") = true
     ∧ includes html ("text-primary" +:+ dq +:+ ">1%</span>") = true
     ∧ includes html "波动率: 1% | " = true
     ∧ includes html "夏普: 1 | " = true
     ∧ includes html ("text-danger" +:+ dq +:+ ">1%</span>") = true)
  ∧ strategyLabel "momentum" = "momentum"
  ∧ strategyLabel "constructor" = "function Object() { [native code] }"
  ∧ strategyLabel "__proto__" = "[object Object]".
Proof.
  split; [eexists; split; [vm_compute; reflexivity|]; repeat split; vm_compute; reflexivity|].
  repeat split.
Qed.

(** X22 on an upload whose request is rejected. *)
Example loaders_example :
  headers_ok exampleState
  ∧ loading (snd (resume Upload (Rejected (TypeError "Failed to fetch")) exampleState))
    = map (displayIn "none" (contextOf Upload)) (loading exampleState)
  ∧ (∀ s1, begin Upload exampleState = (Ok true, s1) →
       loading s1 = map (displayIn "block" (contextOf Upload)) (loading exampleState)
       ∧ loading (snd (run Upload (Rejected (TypeError "Failed to fetch")) exampleState))
         = map (displayIn "none" (contextOf Upload)) (loading exampleState)).
Proof.
  split; [exact example_headers_ok|].
  exact (loaders_after_call Upload _ exampleState example_headers_ok).
Defined.

(** X23 on a click on the edit button. *)
Example no_request_on_edit :
  perform EditCode loadedSystem = Some editingSystem
  ∧ requests (page editingSystem) = requests (page loadedSystem).
Proof.
  split; [reflexivity|].
  apply (requests_only_on_click EditCode loadedSystem editingSystem);
    [reflexivity|discriminate|discriminate].
Defined.

Lemma generated_reachable : reachable generatingSystem generatedSystem.
Proof.
  apply (reach_step _ generatingSystem (Settle (Workflow Generate) (Resolved generated)));
    [apply reach_start|reflexivity].
Qed.

(** X24 on a generation in flight: after the response the stored code is
    the generated one and the page shows its text. *)
Example shown_code_example :
  code_shown (page generatingSystem)
  ∧ reachable generatingSystem generatedSystem
  ∧ currentFactorCode (page generatedSystem) = Some (JStr "def factor(df): return df")
  ∧ content <$> dom (page generatedSystem) !! "factorCode"
    = Some (Text "def factor(df): return df")
  ∧ code_shown (page generatedSystem).
Proof.
  assert (code_shown (page generatingSystem)) as Hshown.
  { intros el text Hel Htext. vm_compute in Hel, Htext.
    injection Hel as <-. injection Htext as <-. reflexivity. }
  split; [exact Hshown|]. split; [exact generated_reachable|].
  split; [reflexivity|]. split; [reflexivity|].
  exact (shown_code_is_stored_code generatingSystem generatedSystem Hshown
           generated_reachable).
Defined.

(** X25 on the response with the information of the scenario. *)
Example extract_success_example :
  failed (Resolved extracted) = false
  ∧ forallb printable (infoFields (getPropOpt (Some extracted) "extracted_info")) = true
  ∧ keyFactorsHtml
      (getPropOpt (getPropOpt (Some extracted) "extracted_info") "key_factors")
    = Ok momHtml
  ∧ ∃ s',
      extractContent_resume (Resolved extracted) exampleState = (Ok tt, s')
      ∧ currentExtractedInfo s' = getPropOpt (Some extracted) "extracted_info"
      ∧ content <$> dom s' !! "keyFactors" = Some (Html momHtml)
      ∧ shows s' Extract "success"
      ∧ disabled <$> dom s' !! "generateBtn"
        = (λ _, false) <$> dom exampleState !! "generateBtn".
Proof.
  assert (keyFactorsHtml
            (getPropOpt (getPropOpt (Some extracted) "extracted_info") "key_factors")
          = Ok momHtml) as Hhtml by (vm_compute; reflexivity).
  split; [reflexivity|]. split; [reflexivity|]. split; [exact Hhtml|].
  destruct (extract_success_effect extracted momHtml exampleState eq_refl eq_refl eq_refl
              Hhtml)
    as (s' & Hrun & Hinfo & Hshown & Hstatus & Hbutton & _);
    [repeat constructor; vm_compute; eexists; reflexivity|exact example_headers_ok|].
  exists s'. repeat split; assumption.
Defined.

(** X12 on the example page, rendered without data. *)
Example render_without_data_example :
  is_Some (dom exampleState !! "returnsChart")
  ∧ ∃ e, drawReturnsChart None exampleState
         = (Throw e, set_charts (afterDestroy exampleState) (nextChart exampleState)
                       exampleState).
Proof.
  assert (is_Some (dom exampleState !! "returnsChart")) as Hcanvas
    by (vm_compute; eexists; reflexivity).
  split; [exact Hcanvas|].
  exact (proj2 (render_without_canvas_or_data None exampleState) Hcanvas eq_refl).
Defined.
